(** * DeploymentWebApp.py: the COVID-19 dashboard script, embedded in Rocq

    The script loads two tables with pandas ([full_grouped],
    [worldometer_data]) and, depending on the page chosen in the sidebar,
    runs one branch of an if/elif chain.  Only the "EDA & Charts" branch
    computes anything: it assigns columns to the two loaded frames and
    derives grouped sums, rankings and per-continent means from them.

    The embedding follows the script line by line.  A frame is a finite map
    from column names to columns; the two loaded frames form the store the
    script threads through its statements; a statement that can raise
    (a missing column, a cell of the wrong dtype) is a computation in a
    state-and-exception monad.  The plotting calls between the statements
    draw what the statements computed; they are not part of the embedding.

    Numbers.  A float64 cell is [NaN], an infinity, the negative zero
    [NZero], or a finite value kept as an exact rational, [Fin 0] being the
    positive zero: how float64 rounds a finite result, and that it
    overflows to an infinity beyond 1.8e308, is outside the model.  The
    cases the script never guards (a zero divisor of either sign, a missing
    operand) follow IEEE 754 as numpy applies it.  An int64 cell is an
    integer; sums and increments of int64 cells wrap around modulo 2^64.
    [np.log10] yields a real number (Stdlib [ln]) or a special value.

    Where pandas accepts an input and the embedding does not say what it
    returns (a date written otherwise than YYYY-MM-DD, the sum of a text
    column), the computation ends with the marker [NotModelled]. *)

From Stdlib Require Import QArith Qreduction Qreals Reals Lra Lia ZArith.
From Stdlib Require Import String Ascii Sorted Permutation.
From Stdlib Require Lqa.
From stdpp Require Import gmap strings list fin_maps.

Local Open Scope string_scope.

(* ===================================================================== *)
(** ** float64 cells *)
(* ===================================================================== *)

Inductive float64 : Type :=
| NaN
| PInf
| NInf
| Fin (q : Q)
| NZero.

Definition isnan (x : float64) : bool :=
  match x with NaN => true | _ => false end.

Definition notnan (x : float64) : bool := negb (isnan x).

Definition isfinite (x : float64) : bool :=
  match x with Fin _ | NZero => true | _ => false end.

(** The value of a finite cell; both zeros have the value 0. *)
Definition finq (x : float64) : Q :=
  match x with Fin q => q | _ => 0 end.

Definition Qneg (q : Q) : bool :=
  match (q ?= 0)%Q with Lt => true | _ => false end.

(** [x + y]: a sum that is zero is the positive zero, unless both terms
    are the negative zero. *)
Definition fadd (x y : float64) : float64 :=
  match x, y with
  | NaN, _ | _, NaN => NaN
  | PInf, NInf | NInf, PInf => NaN
  | PInf, _ | _, PInf => PInf
  | NInf, _ | _, NInf => NInf
  | NZero, NZero => NZero
  | NZero, Fin b => Fin (Qred b)
  | Fin a, NZero => Fin (Qred a)
  | Fin a, Fin b => Fin (Qred (a + b))
  end.

(** the infinity of the sign of [q], [NaN] for zero: inf * q *)
Definition inf_times (pos : bool) (q : Q) : float64 :=
  match (q ?= 0)%Q with
  | Eq => NaN
  | Gt => if pos then PInf else NInf
  | Lt => if pos then NInf else PInf
  end.

(** [x * y]: the sign of a zero product is the product of the signs. *)
Definition fmul (x y : float64) : float64 :=
  match x, y with
  | NaN, _ | _, NaN => NaN
  | PInf, PInf | NInf, NInf => PInf
  | PInf, NInf | NInf, PInf => NInf
  | PInf, Fin q | Fin q, PInf => inf_times true q
  | NInf, Fin q | Fin q, NInf => inf_times false q
  | PInf, NZero | NZero, PInf | NInf, NZero | NZero, NInf => NaN
  | NZero, NZero => Fin 0
  | NZero, Fin q | Fin q, NZero => if Qneg q then Fin 0 else NZero
  | Fin a, Fin b =>
      if Qeq_bool (a * b) 0 && xorb (Qneg a) (Qneg b) then NZero
      else Fin (Qred (a * b))
  end.

(** [x / y], true division of numpy: a zero divisor raises nothing.  It
    yields [NaN] for a zero dividend and otherwise an infinity, whose sign
    is the sign of the dividend for the positive zero and the opposite
    sign for the negative zero. *)
Definition fdiv (x y : float64) : float64 :=
  match x, y with
  | NaN, _ | _, NaN => NaN
  | PInf, PInf | PInf, NInf | NInf, PInf | NInf, NInf => NaN
  | PInf, Fin b => match (b ?= 0)%Q with Lt => NInf | _ => PInf end
  | NInf, Fin b => match (b ?= 0)%Q with Lt => PInf | _ => NInf end
  | PInf, NZero => NInf
  | NInf, NZero => PInf
  | Fin a, PInf => if Qneg a then NZero else Fin 0
  | Fin a, NInf => if Qneg a then Fin 0 else NZero
  | NZero, PInf => NZero
  | NZero, NInf => Fin 0
  | NZero, NZero => NaN
  | NZero, Fin b =>
      match (b ?= 0)%Q with
      | Eq => NaN
      | Gt => NZero
      | Lt => Fin 0
      end
  | Fin a, NZero =>
      match (a ?= 0)%Q with
      | Eq => NaN
      | Gt => NInf
      | Lt => PInf
      end
  | Fin a, Fin b =>
      match (b ?= 0)%Q with
      | Eq => match (a ?= 0)%Q with
              | Eq => NaN
              | Gt => PInf
              | Lt => NInf
              end
      | Gt => Fin (Qred (a / b))
      | Lt => match (a ?= 0)%Q with
              | Eq => NZero
              | _ => Fin (Qred (a / b))
              end
      end
  end.

(** IEEE comparisons: every comparison with [NaN] is false, the two zeros
    compare equal. *)
Definition fltb (x y : float64) : bool :=
  match x, y with
  | NaN, _ | _, NaN => false
  | _, NInf => false
  | NInf, _ => true
  | PInf, _ => false
  | _, PInf => true
  | _, _ => match (finq x ?= finq y)%Q with Lt => true | _ => false end
  end.

Definition fleb (x y : float64) : bool :=
  match x, y with
  | NaN, _ | _, NaN => false
  | NInf, _ => true
  | _, PInf => true
  | _, NInf => false
  | PInf, _ => false
  | _, _ => match (finq x ?= finq y)%Q with Gt => false | _ => true end
  end.

(** Two cells hold the same value: the rationals are compared by [Qeq],
    the two zeros are the same value, and so are two [NaN]s. *)
Definition feq (x y : float64) : Prop :=
  match x, y with
  | NaN, NaN | PInf, PInf | NInf, NInf => True
  | (Fin _ | NZero), (Fin _ | NZero) => (finq x == finq y)%Q
  | _, _ => False
  end.

Definition feqb (x y : float64) : bool :=
  match x, y with
  | NaN, NaN | PInf, PInf | NInf, NInf => true
  | (Fin _ | NZero), (Fin _ | NZero) => Qeq_bool (finq x) (finq y)
  | _, _ => false
  end.

Definition of_Z (z : Z) : float64 := Fin (inject_Z z).
Definition of_nat (n : nat) : float64 := of_Z (Z.of_nat n).

(* ===================================================================== *)
(** ** int64 cells *)
(* ===================================================================== *)

(** The int64 holding [z] modulo 2^64. *)
Definition int64_wrap (z : Z) : Z := ((z + 2 ^ 63) mod 2 ^ 64 - 2 ^ 63)%Z.

Definition int64_max : Z := (2 ^ 63 - 1)%Z.

Definition in_int64 (z : Z) : Prop := (- 2 ^ 63 <= z <= int64_max)%Z.

(** The sum of a list of integers. *)
Definition Zsum (l : list Z) : Z := fold_right Z.add 0%Z l.

(** The sum of one group of int64 cells, as the accumulator computes it. *)
Definition int_sum (l : list Z) : Z :=
  fold_left (fun acc v => int64_wrap (acc + v)) l 0%Z.

(* ===================================================================== *)
(** ** The results of [np.log10] *)
(* ===================================================================== *)

Inductive xreal : Type :=
| XNaN
| XPInf
| XNInf
| XFin (r : R).

Definition log10 (x : R) : R := (ln x / ln 10)%R.

(** [np.log10]: minus infinity at either zero, [NaN] below it. *)
Definition np_log10 (x : float64) : xreal :=
  match x with
  | NaN => XNaN
  | PInf => XPInf
  | NInf => XNaN
  | NZero => XNInf
  | Fin q =>
      match (q ?= 0)%Q with
      | Gt => XFin (log10 (Q2R q))
      | Eq => XNInf
      | Lt => XNaN
      end
  end.

(** The order of the extended reals, false on [XNaN]. *)
Definition xle (x y : xreal) : Prop :=
  match x, y with
  | XNaN, _ | _, XNaN => False
  | XNInf, _ => True
  | _, XPInf => True
  | _, XNInf => False
  | XPInf, _ => False
  | XFin a, XFin b => (a <= b)%R
  end.

(* ===================================================================== *)
(** ** Dates, months and the text of a cell *)
(* ===================================================================== *)

(** A [Timestamp] at midnight, by its calendar date. *)
Record date : Type := mkdate { year : Z; month : Z; day : Z }.

(** A [Period] of frequency M: the year and the month. *)
Record period : Type := mkperiod { pyear : Z; pmonth : Z }.

Definition lex (c1 c2 : comparison) : comparison :=
  match c1 with Eq => c2 | _ => c1 end.

Definition date_compare (a b : date) : comparison :=
  lex (year a ?= year b)%Z (lex (month a ?= month b)%Z (day a ?= day b)%Z).

Definition period_compare (a b : period) : comparison :=
  lex (pyear a ?= pyear b)%Z (pmonth a ?= pmonth b)%Z.

(** [.dt.to_period("M")] and [.dt.to_timestamp()] on one cell *)
Definition to_period_M (d : date) : period :=
  {| pyear := year d; pmonth := month d |}.

Definition period_start (p : period) : date :=
  {| year := pyear p; month := pmonth p; day := 1 |}.

Definition is_leap (y : Z) : bool :=
  ((y mod 4 =? 0) && negb (y mod 100 =? 0) || (y mod 400 =? 0))%Z.

Definition days_in_month (y m : Z) : Z :=
  if (m =? 2)%Z then (if is_leap y then 29 else 28)%Z
  else if ((m =? 4) || (m =? 6) || (m =? 9) || (m =? 11))%Z then 30%Z
  else 31%Z.

Definition digit_of (c : ascii) : option Z :=
  let n := Z.of_nat (nat_of_ascii c) in
  if ((48 <=? n) && (n <=? 57))%Z then Some (n - 48)%Z else None.

Fixpoint digits_value (acc : Z) (cs : list ascii) : option Z :=
  match cs with
  | [] => Some acc
  | c :: cs' =>
      match digit_of c with
      | Some d => digits_value (10 * acc + d)%Z cs'
      | None => None
      end
  end.

Definition is_dash (c : ascii) : bool := Ascii.eqb c "-"%char.

(** The dates of [full_grouped.csv] are written YYYY-MM-DD, and the
    embedding reads a date in that form only: a calendar date of the
    years 1678 to 2261, the whole years that a datetime64 of nanosecond
    resolution holds.  [None] is any other text. *)
Definition parse_date (s : string) : option date :=
  match list_ascii_of_string s with
  | [y1; y2; y3; y4; s1; m1; m2; s2; d1; d2] =>
      if is_dash s1 && is_dash s2 then
        match digits_value 0 [y1; y2; y3; y4],
              digits_value 0 [m1; m2], digits_value 0 [d1; d2] with
        | Some y, Some m, Some d =>
            if ((1678 <=? y) && (y <=? 2261) && (1 <=? m) && (m <=? 12)
                && (1 <=? d)
                && (d <=? days_in_month y m))%Z
            then Some (mkdate y m d) else None
        | _, _, _ => None
        end
      else None
  | _ => None
  end.

(** *** Numerals, as [pd.to_numeric] reads a text cell

    A numeral is: blanks, an optional sign, digits with an optional
    fraction after a point (one digit at least in all), an optional
    exponent (e or E, an optional sign, digits), blanks.  Without point
    and exponent it is an integer.  The words inf and infinity, with an
    optional sign and in any case of letters, are the infinities.  Any
    other text is no numeral. *)

Inductive numeral : Type :=
| IsInt (z : Z)
| IsFloat (x : float64)
| NoNumber
| Unread.

Definition is_blank (c : ascii) : bool :=
  let n := nat_of_ascii c in
  (Nat.eqb n 32 || (Nat.leb 9 n && Nat.leb n 13))%bool.

Fixpoint skip_blanks (cs : list ascii) : list ascii :=
  match cs with
  | c :: r => if is_blank c then skip_blanks r else cs
  | [] => []
  end.

(** The digits at the head of [cs], and what follows them. *)
Fixpoint take_digits (cs : list ascii) : list ascii * list ascii :=
  match cs with
  | c :: r =>
      match digit_of c with
      | Some _ => let '(ds, rest) := take_digits r in (c :: ds, rest)
      | None => ([], cs)
      end
  | [] => ([], [])
  end.

Definition take_sign (cs : list ascii) : bool * list ascii :=
  match cs with
  | c :: r =>
      if Ascii.eqb c "-"%char then (true, r)
      else if Ascii.eqb c "+"%char then (false, r) else (false, cs)
  | [] => (false, [])
  end.

Definition digits_Z (ds : list ascii) : Z :=
  fold_left (fun acc c => (10 * acc + default 0 (digit_of c))%Z) ds 0%Z.

Definition lower (c : ascii) : ascii :=
  let n := nat_of_ascii c in
  if (Nat.leb 65 n && Nat.leb n 90)%bool then ascii_of_nat (n + 32) else c.

Definition lowercase (s : string) : string :=
  string_of_list_ascii (map lower (list_ascii_of_string s)).

Definition inf_word (s : string) : numeral :=
  let w := lowercase s in
  if (String.eqb w "inf" || String.eqb w "+inf"
      || String.eqb w "infinity" || String.eqb w "+infinity")%bool
  then IsFloat PInf
  else if (String.eqb w "-inf" || String.eqb w "-infinity")%bool
  then IsFloat NInf
  else NoNumber.

(** [m * 10^e] *)
Definition Qscale (m e : Z) : Q :=
  if (0 <=? e)%Z then inject_Z (m * 10 ^ e) else inject_Z m / inject_Z (10 ^ (- e)).

(** The value of the numeral with mantissa digits [ip.fp] and decimal
    exponent [e].  An integer beyond int64 and a float of more than 280
    decimal places on either side of the point are left unread: what they
    become depends on how float64 rounds and overflows. *)
Definition numeral_value (neg : bool) (ip fp : list ascii) (integer : bool)
    (e : Z) : numeral :=
  let m := digits_Z (ip ++ fp) in
  if integer then
    let z := if neg then (- m)%Z else m in
    if ((- 2 ^ 63 <=? z) && (z <=? int64_max))%Z then IsInt z else Unread
  else if ((Z.of_nat (length ip) + Z.abs e <=? 280)
           && (Z.of_nat (length fp) + Z.abs e <=? 280))%Z then
    if (m =? 0)%Z then IsFloat (if neg then NZero else Fin 0)
    else IsFloat (Fin (Qred (Qscale (if neg then - m else m)
                               (e - Z.of_nat (length fp)))))
  else Unread.

Definition is_e (c : ascii) : bool :=
  (Ascii.eqb c "e"%char || Ascii.eqb c "E"%char)%bool.

Definition read_numeral (s : string) : numeral :=
  let '(neg, cs1) := take_sign (skip_blanks (list_ascii_of_string s)) in
  let '(ip, cs2) := take_digits cs1 in
  let '(point, fp, cs3) :=
    match cs2 with
    | c :: r =>
        if Ascii.eqb c "."%char
        then let '(fp, r') := take_digits r in (true, fp, r')
        else (false, [], cs2)
    | [] => (false, [], [])
    end in
  match (ip ++ fp)%list with
  | [] => inf_word s
  | _ =>
      match cs3 with
      | c :: r =>
          if is_e c then
            let '(eneg, r1) := take_sign r in
            let '(ed, r2) := take_digits r1 in
            match ed, skip_blanks r2 with
            | _ :: _, [] =>
                numeral_value neg ip fp false
                  (if eneg then - digits_Z ed else digits_Z ed)
            | _, _ => inf_word s
            end
          else
            match skip_blanks cs3 with
            | [] => numeral_value neg ip fp (negb point) 0
            | _ => inf_word s
            end
      | [] => numeral_value neg ip fp (negb point) 0
      end
  end.

(* ===================================================================== *)
(** ** Columns and frames *)
(* ===================================================================== *)

(** A column by dtype: object (text, [None] for a missing cell), float64,
    int64, datetime64 ([None] for NaT), period[M], and the float column
    produced by [np.log10]. *)
Inductive column : Type :=
| ColObj (l : list (option string))
| ColNum (l : list float64)
| ColInt (l : list Z)
| ColTime (l : list (option date))
| ColPeriod (l : list (option period))
| ColLog (l : list xreal).

(** A frame with a RangeIndex: its columns by name. *)
Abbreviation DataFrame := (gmap string column).

Definition col_length (c : column) : nat :=
  match c with
  | ColObj l => length l
  | ColNum l => length l
  | ColInt l => length l
  | ColTime l => length l
  | ColPeriod l => length l
  | ColLog l => length l
  end.

(** What a statement can raise.  [NotModelled] is no exception of Python:
    it marks an input that pandas accepts and on which the embedding does
    not say what pandas returns. *)
Inductive exn : Type :=
| KeyError (name : string)
| TypeError
| AttributeError
| NotModelled.

Inductive result (A : Type) : Type :=
| Ok (a : A)
| Raise (e : exn).
Arguments Ok {A} a.
Arguments Raise {A} e.

Definition rbind {A B : Type} (r : result A) (k : A -> result B) : result B :=
  match r with
  | Ok a => k a
  | Raise e => Raise e
  end.

Fixpoint rmap {A B : Type} (f : A -> result B) (l : list A) : result (list B) :=
  match l with
  | [] => Ok []
  | x :: l' =>
      rbind (f x) (fun y => rbind (rmap f l') (fun ys => Ok (y :: ys)))
  end.

Notation "'let*' x ':=' r 'in' k" := (rbind r (fun x => k))
  (at level 10, x name, r at level 100, k at level 200, only parsing).

(** [df[name]] *)
Definition getitem (df : DataFrame) (name : string) : result column :=
  match df !! name with
  | Some c => Ok c
  | None => Raise (KeyError name)
  end.

(** The float64 view of a column in arithmetic: an int64 cell is
    converted, a text cell does not divide or add ([TypeError]), the
    missing cell of an object column is a [NaN].  Dates and periods do not
    enter the arithmetic of the script. *)
Definition as_float (c : column) : result (list float64) :=
  match c with
  | ColNum l => Ok l
  | ColInt l => Ok (map of_Z l)
  | ColObj l =>
      rmap (fun o => match o with
                     | None => Ok NaN
                     | Some _ => Raise TypeError
                     end) l
  | _ => Raise NotModelled
  end.

Definition cell_numeral (o : option string) : numeral :=
  match o with
  | None => IsFloat NaN
  | Some s => read_numeral s
  end.

Definition numeral_float (n : numeral) : result float64 :=
  match n with
  | IsInt z => Ok (of_Z z)
  | IsFloat x => Ok x
  | NoNumber => Ok NaN
  | Unread => Raise NotModelled
  end.

Fixpoint all_ints (ns : list numeral) : option (list Z) :=
  match ns with
  | [] => Some []
  | IsInt z :: ns' => option_map (cons z) (all_ints ns')
  | _ :: _ => None
  end.

(** [pd.to_numeric(c, errors="coerce")]: a numeric column is returned as
    it is; in an object column a numeral is read and any other text
    becomes [NaN].  The result is an int64 column when every cell is an
    integer numeral (so for a column without rows), a float64 column
    otherwise. *)
Definition to_numeric_coerce (c : column) : result column :=
  match c with
  | ColNum l => Ok (ColNum l)
  | ColInt l => Ok (ColInt l)
  | ColObj l =>
      let ns := map cell_numeral l in
      let* xs := rmap numeral_float ns in
      match all_ints ns with
      | Some zs => Ok (ColInt zs)
      | None => Ok (ColNum xs)
      end
  | _ => Raise NotModelled
  end.

(** [pd.to_datetime(c)]: a date in the form YYYY-MM-DD is parsed, a
    missing cell becomes NaT, a datetime column is returned as it is.
    What pandas makes of any other text, or of a number, is not
    modelled. *)
Definition to_datetime (c : column) : result column :=
  match c with
  | ColTime l => Ok (ColTime l)
  | ColObj l =>
      let* ds := rmap (fun o => match o with
                                | None => Ok None
                                | Some s => match parse_date s with
                                            | Some d => Ok (Some d)
                                            | None => Raise NotModelled
                                            end
                                end) l in
      Ok (ColTime ds)
  | ColNum l =>
      let* ds := rmap (fun x => if isnan x then Ok None
                                else Raise NotModelled) l in
      Ok (ColTime ds)
  | _ => Raise NotModelled
  end.

(** [c.dt.to_period("M")] *)
Definition dt_to_period (c : column) : result column :=
  match c with
  | ColTime l => Ok (ColPeriod (map (option_map to_period_M) l))
  | _ => Raise AttributeError
  end.

(** [c.dt.to_timestamp()] *)
Definition dt_to_timestamp (c : column) : result column :=
  match c with
  | ColPeriod l => Ok (ColTime (map (option_map period_start) l))
  | _ => Raise AttributeError
  end.

(* ===================================================================== *)
(** ** Series arithmetic and reductions *)
(* ===================================================================== *)

(** [a / b], cell by cell (both series come from the same frame) *)
Definition series_div (a b : list float64) : list float64 := zip_with fdiv a b.

(** [a * k] and [a + k] for a scalar [k] *)
Definition series_mul (a : list float64) (k : float64) : list float64 :=
  map (fun x => fmul x k) a.

Definition series_add (a : list float64) (k : float64) : list float64 :=
  map (fun x => fadd x k) a.

(** The sum of one group: a [NaN] cell is skipped, the sum of no cell is 0. *)
Definition nansum_step (acc v : float64) : float64 :=
  if isnan v then acc else fadd acc v.

Definition nansum (l : list float64) : float64 :=
  fold_left nansum_step l (Fin 0).

Definition nancount (l : list float64) : nat := length (List.filter notnan l).

(** The mean of one group: the sum of the cells that are not [NaN] over
    their number, [NaN] when there is none.  An infinite cell is a cell
    like any other. *)
Definition nanmean (l : list float64) : float64 :=
  match nancount l with
  | O => NaN
  | S _ as n => fdiv (nansum l) (of_nat n)
  end.

(* ===================================================================== *)
(** ** groupby *)
(* ===================================================================== *)

Section GroupBy.
Context {K V : Type} (cmp : K -> K -> comparison).

Fixpoint insert_key (k : K) (ks : list K) : list K :=
  match ks with
  | [] => [k]
  | x :: ks' =>
      match cmp k x with
      | Lt => k :: ks
      | Eq => ks
      | Gt => x :: insert_key k ks'
      end
  end.

(** The group keys: the distinct keys present, in ascending order
    ([sort=True]); rows whose key is missing form no group
    ([dropna=True]). *)
Definition group_keys (keys : list (option K)) : list K :=
  fold_right (fun o acc => match o with
                           | Some k => insert_key k acc
                           | None => acc
                           end) [] keys.

Definition same_key (k : K) (o : option K) : bool :=
  match o with
  | Some k' => match cmp k k' with Eq => true | _ => false end
  | None => false
  end.

(** The cells of the rows of group [k], in row order. *)
Definition group_rows (k : K) (keys : list (option K)) (vals : list V)
  : list V :=
  map snd (List.filter (fun kv => same_key k (fst kv)) (zip keys vals)).

Definition groupby_agg {W : Type} (agg : list V -> W)
    (keys : list (option K)) (vals : list V) : list (K * W) :=
  map (fun k => (k, agg (group_rows k keys vals))) (group_keys keys).
End GroupBy.

(* ===================================================================== *)
(** ** sort_values and nlargest *)
(* ===================================================================== *)

Section SortValues.
Context {A : Type}.

(** [x] goes before the first entry that is not greater than it: entries
    of equal value keep the order they had. *)
Fixpoint insert_desc (x : A * float64) (l : list (A * float64))
  : list (A * float64) :=
  match l with
  | [] => [x]
  | y :: l' => if fltb (snd x) (snd y) then y :: insert_desc x l' else x :: l
  end.

Definition sort_desc (l : list (A * float64)) : list (A * float64) :=
  fold_right insert_desc [] l.

(** [s.sort_values(ascending=False)]: the entries that are not [NaN] in
    descending order, then the [NaN] entries ([na_position="last"]). *)
Definition sort_values_desc (s : list (A * float64)) : list (A * float64) :=
  sort_desc (List.filter (fun e => notnan (snd e)) s)
  ++ List.filter (fun e => isnan (snd e)) s.
End SortValues.

(** The row labels of a series with a RangeIndex. *)
Definition indexed {A : Type} (l : list A) : list (nat * A) :=
  zip (seq 0 (length l)) l.

(** [s.nlargest(n)] with [keep="first"]: the first [n] entries in
    descending order; a [NaN] entry is taken only after every number. *)
Definition nlargest_series (n : nat) (l : list float64) : list (nat * float64) :=
  firstn n (sort_values_desc (indexed l)).

Definition col_take_rows (inds : list nat) (c : column) : column :=
  match c with
  | ColObj l => ColObj (omap (fun i => l !! i) inds)
  | ColNum l => ColNum (omap (fun i => l !! i) inds)
  | ColInt l => ColInt (omap (fun i => l !! i) inds)
  | ColTime l => ColTime (omap (fun i => l !! i) inds)
  | ColPeriod l => ColPeriod (omap (fun i => l !! i) inds)
  | ColLog l => ColLog (omap (fun i => l !! i) inds)
  end.

(** A frame whose index is no longer the RangeIndex: the labels of its
    rows and its columns. *)
Record Selected : Type := mkSelected {
  sel_index : list nat;
  sel_frame : DataFrame
}.

(** [df.nlargest(n, name)]: a float64 or int64 column is ranked, an
    object column is refused. *)
Definition nlargest (n : nat) (name : string) (df : DataFrame) : result Selected :=
  rbind (getitem df name) (fun c =>
    match c with
    | ColNum l =>
        let inds := map fst (nlargest_series n l) in
        Ok (mkSelected inds (col_take_rows inds <$> df))
    | ColInt l =>
        let inds := map fst (nlargest_series n (map of_Z l)) in
        Ok (mkSelected inds (col_take_rows inds <$> df))
    | ColObj _ => Raise TypeError
    | _ => Raise NotModelled
    end).

(** [df[[a, b]]] *)
Definition select2 (a b : string) (s : Selected) : result Selected :=
  rbind (getitem (sel_frame s) a) (fun ca =>
  rbind (getitem (sel_frame s) b) (fun cb =>
    Ok (mkSelected (sel_index s) (<[b := cb]> {[a := ca]})))).

(* ===================================================================== *)
(** ** The derived tables of the EDA page *)
(* ===================================================================== *)

(** The keys of [groupby] by a text column.  A column of missing keys
    only is a float column; groups keyed by numbers are not modelled. *)
Definition str_keys (c : column) : result (list (option string)) :=
  match c with
  | ColObj l => Ok l
  | ColNum l => rmap (fun x => if isnan x then Ok None else Raise NotModelled) l
  | _ => Raise NotModelled
  end.

(** The keys of [groupby] by a datetime column. *)
Definition time_keys (c : column) : result (list (option date)) :=
  match c with
  | ColTime l => Ok l
  | _ => Raise NotModelled
  end.

(** The sums per group of one column, in the dtype of the column: float64
    cells are added with [NaN] skipped, int64 cells are added modulo
    2^64.  An object column without rows gives an object column without
    rows; the sum of text is not modelled. *)
Definition sum_groups {K : Type} (cmp : K -> K -> comparison)
    (keys : list (option K)) (c : column) : result column :=
  match c with
  | ColNum l => Ok (ColNum (map snd (groupby_agg cmp nansum keys l)))
  | ColInt l => Ok (ColInt (map snd (groupby_agg cmp int_sum keys l)))
  | ColObj [] => Ok (ColObj (map (fun _ => None) (group_keys cmp keys)))
  | _ => Raise NotModelled
  end.

(** [g[[names]].sum()]: every name must be a column; each is summed per
    group. *)
Definition groupby_sum {K : Type} (cmp : K -> K -> comparison)
    (keys : list (option K)) (df : DataFrame) (names : list string)
  : result (list (string * column)) :=
  let* cols := rmap (getitem df) names in
  let* sums := rmap (sum_groups cmp keys) cols in
  Ok (zip names sums).

(** Lines 74-75:
    [monthly = full_grouped.groupby(full_grouped["Date"].dt.to_period("M"))
               [["Confirmed", "Deaths", "Recovered"]].sum().reset_index()]
    [monthly["Date"] = monthly["Date"].dt.to_timestamp()] *)
Definition monthly (fg : DataFrame) : result DataFrame :=
  let* d := getitem fg "Date" in
  let* p := dt_to_period d in
  match p with
  | ColPeriod keys =>
      let* sums := groupby_sum period_compare keys fg
                     ["Confirmed"; "Deaths"; "Recovered"] in
      let agg : DataFrame :=
        <["Date" := ColPeriod (map Some (group_keys period_compare keys))]>
          (list_to_map sums) in
      let* m := getitem agg "Date" in
      let* ts := dt_to_timestamp m in
      Ok (<["Date" := ts]> agg)
  | _ => Raise TypeError
  end.

(** Line 175:
    [global_time = full_grouped.groupby("Date")[["New cases", "New deaths"]]
                   .sum().reset_index()] *)
Definition global_time (fg : DataFrame) : result DataFrame :=
  let* d := getitem fg "Date" in
  let* keys := time_keys d in
  let* sums := groupby_sum date_compare keys fg ["New cases"; "New deaths"] in
  Ok (<["Date" := ColTime (map Some (group_keys date_compare keys))]>
        (list_to_map sums)).

(** Lines 92-94:
    [worldometer_data.nlargest(10, field)[["Country/Region", field]]] *)
Definition top10 (field : string) (wm : DataFrame) : result Selected :=
  let* top := nlargest 10 field wm in
  select2 "Country/Region" field top.

(** Lines 108 and 188, right-hand side:
    [(worldometer_data[num] / worldometer_data["TotalCases"]) * 100] *)
Definition ratio_pct (num : string) (wm : DataFrame) : result column :=
  let* a := getitem wm num in
  let* b := getitem wm "TotalCases" in
  let* x := as_float a in
  let* y := as_float b in
  Ok (ColNum (series_mul (series_div x y) (Fin 100))).

(** Lines 109 and 189:
    [worldometer_data.groupby("Continent")[field].mean()
     .sort_values(ascending=False)] *)
Definition continent_mean (field : string) (wm : DataFrame)
  : result (list (string * float64)) :=
  let* k := getitem wm "Continent" in
  let* keys := str_keys k in
  let* c := getitem wm field in
  let* vs := as_float c in
  Ok (sort_values_desc (groupby_agg String.compare nanmean keys vs)).

(** Lines 142-143, right-hand side: [np.log10(worldometer_data[field] + 1)].
    The increment is taken in the dtype of the column: on an int64 column
    it wraps around at the largest int64. *)
Definition log_transform (field : string) (wm : DataFrame) : result column :=
  let* c := getitem wm field in
  match c with
  | ColInt l =>
      Ok (ColLog (map (fun z => np_log10 (of_Z (int64_wrap (z + 1)))) l))
  | _ =>
      let* vs := as_float c in
      Ok (ColLog (map np_log10 (series_add vs (Fin 1))))
  end.

(* ===================================================================== *)
(** ** The store and the monad of the script *)
(* ===================================================================== *)

(** The two frames returned by [load_data()], which the statements of the
    script read and assign to. *)
Record Store : Type := mkStore {
  full_grouped : DataFrame;
  worldometer_data : DataFrame
}.

Definition M (A : Type) : Type := Store -> result (A * Store).

Definition ret {A : Type} (a : A) : M A := fun s => Ok (a, s).

Definition bind {A B : Type} (m : M A) (k : A -> M B) : M B :=
  fun s => match m s with
           | Ok (a, s') => k a s'
           | Raise e => Raise e
           end.

Notation "'let!' x ':=' m 'in' k" := (bind m (fun x => k))
  (at level 10, x name, m at level 100, k at level 200, only parsing).

(** An expression over [full_grouped], resp. [worldometer_data] *)
Definition on_fg {A : Type} (f : DataFrame -> result A) : M A :=
  fun s => rbind (f (full_grouped s)) (fun a => Ok (a, s)).

Definition on_wm {A : Type} (f : DataFrame -> result A) : M A :=
  fun s => rbind (f (worldometer_data s)) (fun a => Ok (a, s)).

(** [full_grouped[name] = c], resp. [worldometer_data[name] = c]: the
    frame bound to the name is updated in place. *)
Definition fg_setitem (name : string) (c : column) : M unit :=
  fun s => Ok (tt, mkStore (<[name := c]> (full_grouped s)) (worldometer_data s)).

Definition wm_setitem (name : string) (c : column) : M unit :=
  fun s => Ok (tt, mkStore (full_grouped s) (<[name := c]> (worldometer_data s))).

Record eda_tables : Type := mkEda {
  eda_monthly : DataFrame;
  eda_top_confirmed : Selected;
  eda_top_deaths : Selected;
  eda_top_recovered : Selected;
  eda_continent_cfr : list (string * float64);
  eda_global_time : DataFrame;
  eda_continent_recovery : list (string * float64)
}.

(** Lines 67-196, the statements that compute.  The plotting calls between
    them read these tables and the two frames; what they draw, and whether
    they raise, is outside the embedding. *)
Definition eda_page : M eda_tables :=
  (* 71 *)
  let! d := on_fg (fun fg => let* c := getitem fg "Date" in to_datetime c) in
  let! _ := fg_setitem "Date" d in
  (* 74-75 *)
  let! mon := on_fg monthly in
  (* 92-94 *)
  let! topc := on_wm (top10 "TotalCases") in
  let! topd := on_wm (top10 "TotalDeaths") in
  let! topr := on_wm (top10 "TotalRecovered") in
  (* 108 *)
  let! cfr := on_wm (ratio_pct "TotalDeaths") in
  let! _ := wm_setitem "CFR(%)" cfr in
  (* 109 *)
  let! ccfr := on_wm (continent_mean "CFR(%)") in
  (* 138-139 *)
  let! tests := on_wm (fun wm => let* c := getitem wm "TotalTests" in
                            to_numeric_coerce c) in
  let! _ := wm_setitem "TotalTests" tests in
  let! cases := on_wm (fun wm => let* c := getitem wm "TotalCases" in
                            to_numeric_coerce c) in
  let! _ := wm_setitem "TotalCases" cases in
  (* 142-143 *)
  let! ltests := on_wm (log_transform "TotalTests") in
  let! _ := wm_setitem "log_TotalTests" ltests in
  let! lcases := on_wm (log_transform "TotalCases") in
  let! _ := wm_setitem "log_TotalCases" lcases in
  (* 174 *)
  let! d' := on_fg (fun fg => let* c := getitem fg "Date" in to_datetime c) in
  let! _ := fg_setitem "Date" d' in
  (* 175 *)
  let! gtime := on_fg global_time in
  (* 188 *)
  let! rr := on_wm (ratio_pct "TotalRecovered") in
  let! _ := wm_setitem "RecoveryRate(%)" rr in
  (* 189 *)
  let! crec := on_wm (continent_mean "RecoveryRate(%)") in
  ret (mkEda mon topc topd topr ccfr gtime crec).

(* ===================================================================== *)
(** ** The other pages and the page chain *)
(* ===================================================================== *)

Definition col_head (n : nat) (c : column) : column :=
  match c with
  | ColObj l => ColObj (firstn n l)
  | ColNum l => ColNum (firstn n l)
  | ColInt l => ColInt (firstn n l)
  | ColTime l => ColTime (firstn n l)
  | ColPeriod l => ColPeriod (firstn n l)
  | ColLog l => ColLog (firstn n l)
  end.

(** [df.head()] *)
Definition head (df : DataFrame) : DataFrame := col_head 5 <$> df.

Inductive cell : Type :=
| CObj (o : option string)
| CNum (x : float64)
| CInt (z : Z)
| CTime (o : option date)
| CPeriod (o : option period)
| CLog (x : xreal).

Definition cells (c : column) : list cell :=
  match c with
  | ColObj l => map CObj l
  | ColNum l => map CNum l
  | ColInt l => map CInt l
  | ColTime l => map CTime l
  | ColPeriod l => map CPeriod l
  | ColLog l => map CLog l
  end.

#[global] Instance date_eq_dec : EqDecision date.
Proof. solve_decision. Defined.

#[global] Instance period_eq_dec : EqDecision period.
Proof. solve_decision. Defined.

Definition xreal_eqb (x y : xreal) : bool :=
  match x, y with
  | XNaN, XNaN | XPInf, XPInf | XNInf, XNInf => true
  | XFin a, XFin b => if Req_dec_T a b then true else false
  | _, _ => false
  end.

(** Two cells are the same for [duplicated]: missing cells count as equal. *)
Definition cell_eqb (a b : cell) : bool :=
  match a, b with
  | CObj x, CObj y => bool_decide (x = y)
  | CNum x, CNum y => feqb x y
  | CInt x, CInt y => Z.eqb x y
  | CTime x, CTime y => bool_decide (x = y)
  | CPeriod x, CPeriod y => bool_decide (x = y)
  | CLog x, CLog y => xreal_eqb x y
  | _, _ => false
  end.

Definition nrows (df : DataFrame) : nat :=
  match map_to_list df with
  | [] => 0
  | (_, c) :: _ => col_length c
  end.

Definition row (df : DataFrame) (i : nat) : list (option cell) :=
  map (fun kc => cells (snd kc) !! i) (map_to_list df).

Definition row_eqb (r1 r2 : list (option cell)) : bool :=
  forallb (fun p => match p with
                    | (Some a, Some b) => cell_eqb a b
                    | (None, None) => true
                    | _ => false
                    end) (zip r1 r2).

(** [df.duplicated().sum()]: the rows equal to an earlier row. *)
Definition duplicated_sum (df : DataFrame) : nat :=
  length (List.filter
            (fun i => existsb (fun j => row_eqb (row df j) (row df i)) (seq 0 i))
            (seq 0 (nrows df))).

(** What a run of the script hands to the page: the tables of the branch
    taken.  The Business Insights and Recommendations branches only write
    fixed text; [NoView] is a run in which no branch is taken. *)
Inductive view : Type :=
| OverviewView (fg_head wm_head : DataFrame)
| CleaningView (fg_duplicates wm_duplicates : nat)
| EdaView (t : eda_tables)
| InsightsView
| RecommendationsView
| NoView.

(** Lines 30-42 *)
Definition overview_page : M view :=
  fun s => Ok (OverviewView (head (full_grouped s)) (head (worldometer_data s)), s).

(** Lines 47-62: two counts and a fixed text describing the cleaning. *)
Definition cleaning_page : M view :=
  fun s => Ok (CleaningView (duplicated_sum (full_grouped s))
                            (duplicated_sum (worldometer_data s)), s).

(** The labels of the sidebar radio, line 16. *)
Definition page_labels : list string :=
  ["📊 Data Overview"; "🧹 Data Cleaning"; "📈 EDA & Charts";
   "❓ Business Insights"; "✅ Recommendations"].

(** Lines 30-233: the if/elif chain on [page]; it has no [else]. *)
Definition render (page : string) : M view :=
  if String.eqb page "📊 Data Overview" then overview_page
  else if String.eqb page "🧹 Data Cleaning" then cleaning_page
  else if String.eqb page "📈 EDA & Charts" then
         let! t := eda_page in ret (EdaView t)
  else if String.eqb page "❓ Business Insights" then ret InsightsView
  else if String.eqb page "✅ Recommendations" then ret RecommendationsView
  else ret NoView.

(** One run of the script: [load_data()] hands over the two frames (with
    [st.cache_data], a copy of what was read from the files), the chain
    runs on them. *)
Definition app (page : string) (loaded : Store) : result (view * Store) :=
  render page loaded.

(** Line 16: [page = st.sidebar.radio("Go to:", labels)] returns the label
    the user selected, the first one until a selection is made. *)
Definition radio (options : list string) (selected : nat) : string :=
  match options !! selected with
  | Some l => l
  | None => List.hd "" options
  end.

Definition page (selected : nat) : string := radio page_labels selected.

(** Lines 108-109 and 188-189 taken together, on the frame they start
    from: the ratio column is assigned, then averaged per continent. *)
Definition continent_ratio (num field : string) (wm : DataFrame)
  : result (list (string * float64)) :=
  let* c := ratio_pct num wm in
  continent_mean field (<[field := c]> wm).

(** The two ratio fields of the snapshot table, with the column each is
    computed from and the column it is assigned to. *)
Inductive ratio_field : Type :=
| case_fatality_rate
| recovery_rate.

Definition numerator (r : ratio_field) : string :=
  match r with
  | case_fatality_rate => "TotalDeaths"
  | recovery_rate => "TotalRecovered"
  end.

Definition ratio_column (r : ratio_field) : string :=
  match r with
  | case_fatality_rate => "CFR(%)"
  | recovery_rate => "RecoveryRate(%)"
  end.

Definition continent_ratio_of (r : ratio_field) (wm : DataFrame)
  : result (list (string * float64)) :=
  continent_ratio (numerator r) (ratio_column r) wm.

Definition continent_cfr : DataFrame -> result (list (string * float64)) :=
  continent_ratio_of case_fatality_rate.

Definition continent_recovery : DataFrame -> result (list (string * float64)) :=
  continent_ratio_of recovery_rate.

(** The ratio of one row: [(num / cases) * 100]. *)
Definition ratio_cell (num cases : float64) : float64 :=
  fmul (fdiv num cases) (Fin 100).

(** [fillna(0)] on a cell and on a float column of a frame: the zero-fill
    of the incremental counts that the cleaning text describes. *)
Definition fillna0 (x : float64) : float64 :=
  if isnan x then Fin 0 else x.

Definition fillna0_col (c : column) : column :=
  match c with
  | ColNum l => ColNum (map fillna0 l)
  | _ => c
  end.

(** A cell holding a number or nothing: no infinity. *)
Definition num_or_missing (x : float64) : Prop :=
  match x with
  | NaN | Fin _ | NZero => True
  | PInf | NInf => False
  end.


(** The order in which [nlargest] and [sort_values(ascending=False)] rank
    the values of a column: [v] is at least [w] when [w] is missing or
    [w <= v] as numbers. *)
Definition ranks_ge (v w : float64) : Prop :=
  isnan w = true \/ fleb w v = true.

(** Entry [a] goes before entry [b] in a descending stable ranking: a
    larger value first, a number before a missing value, and of two equal
    values (or two missing ones) the one of the earlier row. *)
Definition desc_before (a b : nat * float64) : Prop :=
  match isnan (snd a), isnan (snd b) with
  | false, true => True
  | true, false => False
  | true, true => fst a < fst b
  | false, false =>
      fltb (snd b) (snd a) = true
      \/ (fltb (snd a) (snd b) = false /\ fst a < fst b)
  end.

(** A frame without rows. *)
Definition no_rows (df : DataFrame) : Prop :=
  forall name c, df !! name = Some c -> col_length c = 0.

(** Key [a] is strictly before key [b]. *)
Definition key_lt {K : Type} (cmp : K -> K -> comparison) (a b : K) : Prop :=
  cmp a b = Lt.

(* ===================================================================== *)
(** ** Small tables *)
(* ===================================================================== *)

(** Two countries of continent A: total_cases 0 and 100, total_deaths 5
    and 10. *)
Definition two_rows : DataFrame :=
  <["Country/Region" := ColObj [Some "X"; Some "Y"]]>
  (<["Continent" := ColObj [Some "A"; Some "A"]]>
  (<["TotalCases" := ColNum [Fin 0; Fin 100]]>
  (<["TotalDeaths" := ColNum [Fin 5; Fin 10]]>
  (<["TotalRecovered" := ColNum [Fin 0; Fin 80]]>
  (<["TotalTests" := ColNum [Fin 50; Fin 1000]]> ∅))))).

(** The same two countries, the first with no death reported. *)
Definition zero_over_zero : DataFrame :=
  <["TotalDeaths" := ColNum [Fin 0; Fin 10]]> two_rows.


(** Three countries reporting 100 confirmed cases each in January 2020. *)
Definition january : DataFrame :=
  <["Country/Region" := ColObj [Some "X"; Some "Y"; Some "Z"]]>
  (<["Date" := ColObj [Some "2020-01-22"; Some "2020-01-22"; Some "2020-01-23"]]>
  (<["Confirmed" := ColNum [Fin 100; Fin 100; Fin 100]]>
  (<["Deaths" := ColNum [Fin 1; Fin 0; Fin 2]]>
  (<["Recovered" := ColNum [Fin 10; Fin 20; Fin 30]]>
  (<["New cases" := ColNum [Fin 5; Fin 6; Fin 7]]>
  (<["New deaths" := ColNum [Fin 0; Fin 0; Fin 1]]> ∅)))))).

(** A snapshot with a negative count and a missing one. *)
Definition dirty_rows : DataFrame :=
  <["Country/Region" := ColObj [Some "X"; Some "Y"]]>
  (<["Continent" := ColObj [Some "A"; Some "A"]]>
  (<["TotalCases" := ColNum [Fin (-5); Fin 100]]>
  (<["TotalDeaths" := ColNum [NaN; Fin 10]]>
  (<["TotalRecovered" := ColNum [Fin 3; Fin 80]]>
  (<["TotalTests" := ColNum [Fin 50; Fin 1000]]> ∅))))).

(** The columns the EDA page assigns to [worldometer_data]. *)
Definition assigned_columns : list string :=
  ["CFR(%)"; "TotalTests"; "TotalCases"; "log_TotalTests"; "log_TotalCases";
   "RecoveryRate(%)"].

(** The cells of [vals] on the rows whose key satisfies [p], in row order. *)
Definition cells_where {D V : Type} (p : option D -> bool)
    (ds : list (option D)) (vals : list V) : list V :=
  map snd (List.filter (fun dv => p (fst dv)) (zip ds vals)).

(** The cells of [vals] on the rows whose date lies in month [m]. *)
Definition month_cells {V : Type} (m : period) (ds : list (option date))
    (vals : list V) : list V :=
  cells_where (fun o => bool_decide (option_map to_period_M o = Some m)) ds vals.

(** The cells of [vals] on the rows dated [d]. *)
Definition date_cells {V : Type} (d : date) (ds : list (option date))
    (vals : list V) : list V :=
  cells_where (fun o => bool_decide (o = Some d)) ds vals.

(** The months present in a date column: the keys of the monthly groups. *)
Definition months_of (ds : list (option date)) : list period :=
  group_keys period_compare (map (option_map to_period_M) ds).

(** The dates present in a date column: the keys of the daily groups. *)
Definition dates_of (ds : list (option date)) : list date :=
  group_keys date_compare ds.

(** The January series once line 71 has parsed its dates. *)
Definition january_parsed : DataFrame :=
  <["Date" := ColTime [Some (mkdate 2020 1 22); Some (mkdate 2020 1 22);
                       Some (mkdate 2020 1 23)]]> january.

(** The January series with two counts not reported. *)
Definition january_gaps : DataFrame :=
  <["Confirmed" := ColNum [Fin 100; NaN; Fin 100]]>
  (<["New deaths" := ColNum [NaN; NaN; Fin 1]]> january_parsed).

(** The columns the two grouped sums add up. *)
Definition monthly_columns : list string := ["Confirmed"; "Deaths"; "Recovered"].
Definition daily_columns : list string := ["New cases"; "New deaths"].

(** The two tables as [read_csv] returns them for files holding a header
    line and nothing else: without rows every column has the object dtype. *)
Definition header_only_series : DataFrame :=
  <["Country/Region" := ColObj []]>
  (<["Date" := ColObj []]>
  (<["Confirmed" := ColObj []]>
  (<["Deaths" := ColObj []]>
  (<["Recovered" := ColObj []]>
  (<["New cases" := ColObj []]>
  (<["New deaths" := ColObj []]> ∅)))))).

Definition header_only_snapshot : DataFrame :=
  <["Country/Region" := ColObj []]>
  (<["Continent" := ColObj []]>
  (<["TotalCases" := ColObj []]>
  (<["TotalDeaths" := ColObj []]>
  (<["TotalRecovered" := ColObj []]>
  (<["TotalTests" := ColObj []]> ∅))))).

(** The count columns of the snapshot table. *)
Definition snapshot_counts : list string :=
  ["TotalCases"; "TotalDeaths"; "TotalRecovered"; "TotalTests"].

(** The columns the three rankings are taken on. *)
Definition ranked_columns : list string :=
  ["TotalCases"; "TotalDeaths"; "TotalRecovered"].

(** The columns the two log transforms are taken on. *)
Definition log_columns : list string := ["TotalTests"; "TotalCases"].

(** Entry [a] is of an earlier row than entry [b]. *)
Definition row_before {A : Type} (a b : nat * A) : Prop := fst a < fst b.

(** A ranking column with a tie and a missing value. *)
Definition tied_rows : DataFrame :=
  <["Country/Region" := ColObj [Some "P"; Some "Q"; Some "R"; Some "S"]]>
  (<["TotalCases" := ColNum [Fin 7; Fin 9; NaN; Fin 9]]> ∅).

(* ===================================================================== *)
(** ** Schemas, shapes and further small tables *)
(* ===================================================================== *)

(** A cell of the date column that [pd.to_datetime] accepts: missing, or a
    text with a parse. *)
Definition parsable (o : option string) : Prop :=
  match o with
  | None => True
  | Some txt => parse_date txt <> None
  end.

(** Every column of the frame has [n] rows. *)
Definition uniform_rows (n : nat) (df : DataFrame) : Prop :=
  forall name c, df !! name = Some c -> col_length c = n.

(** What [np.log10(v + 1)] is for each kind of cell. *)
Definition log10_succ (x : float64) : xreal :=
  match x with
  | NaN => XNaN
  | PInf => XPInf
  | NInf => XNaN
  | NZero => XFin (log10 (Q2R 0 + 1))
  | Fin v =>
      match (v ?= -1)%Q with
      | Eq => XNInf
      | Lt => XNaN
      | Gt => XFin (log10 (Q2R v + 1))
      end
  end.

(** Entry [a] is listed before entry [b] by [sort_values(ascending=False)]:
    the value of [b] is missing or at most that of [a]. *)
Definition listed_before {A : Type} (a b : A * float64) : Prop :=
  ranks_ge (snd a) (snd b).

(** Three continents, one of them without any defined ratio, and a country
    without continent. *)
Definition three_continents : DataFrame :=
  <["Country/Region" := ColObj [Some "P"; Some "Q"; Some "R"; Some "S"; Some "T"]]>
  (<["Continent" := ColObj [Some "Europe"; Some "Asia"; None; Some "Africa";
                            Some "Europe"]]>
  (<["TotalCases" := ColNum [Fin 100; Fin 200; Fin 50; Fin 0; Fin 100]]>
  (<["TotalDeaths" := ColNum [Fin 10; Fin 2; Fin 50; Fin 0; Fin 30]]>
  (<["TotalRecovered" := ColNum [Fin 50; Fin 100; Fin 0; Fin 0; Fin 70]]>
  (<["TotalTests" := ColNum [Fin 500; NaN; Fin 60; Fin 10; Fin 900]]> ∅))))).




(** [l] holds the values of column [name] of [df], as float64 (the
    values of a float64 column, the converted values of an int64 one). *)
Definition has_values (df : DataFrame) (name : string) (l : list float64) : Prop :=
  exists c, df !! name = Some c /\ as_float c = Ok l.

(** The sign of a cell that has one: [Some true] for a negative number or
    minus infinity, [Some false] for a positive number or plus infinity,
    [None] for a zero and for [NaN]. *)
Definition fsign (x : float64) : option bool :=
  match x with
  | NaN | NZero => None
  | PInf => Some false
  | NInf => Some true
  | Fin q =>
      match (q ?= 0)%Q with
      | Eq => None
      | Lt => Some true
      | Gt => Some false
      end
  end.

(** The sign of a zero: [Some false] for the positive zero, [Some true]
    for the negative zero, [None] for any other cell. *)
Definition zero_sign (x : float64) : option bool :=
  match x with
  | NZero => Some true
  | Fin q => if Qeq_bool q 0 then Some false else None
  | _ => None
  end.

(** The two countries of continent A as [read_csv] types them when every
    count is written as an integer. *)
Definition two_rows_int : DataFrame :=
  <["Country/Region" := ColObj [Some "X"; Some "Y"]]>
  (<["Continent" := ColObj [Some "A"; Some "A"]]>
  (<["TotalCases" := ColInt [0; 100]%Z]>
  (<["TotalDeaths" := ColInt [5; 10]%Z]>
  (<["TotalRecovered" := ColInt [0; 80]%Z]>
  (<["TotalTests" := ColInt [50; 1000]%Z]> ∅))))).

(** The same two countries with total_cases written -0.0 for the first. *)
Definition negative_zero_row : DataFrame :=
  <["TotalCases" := ColNum [NZero; Fin 100]]> two_rows.

(** A column of a numeric dtype. *)
Definition is_numeric (c : column) : Prop :=
  match c with
  | ColNum _ | ColInt _ => True
  | _ => False
  end.

(** The columns the EDA page coerces to numbers. *)
Definition coerced_columns : list string := ["TotalTests"; "TotalCases"].

(** The date of a row lies in month [m] of year [y]. *)
Definition in_month (y m : Z) (o : option date) : bool :=
  match o with
  | Some d => ((year d =? y) && (month d =? m))%Z
  | None => false
  end.

(** The cells of [vals] on the rows dated in the month [p]. *)
Definition cells_of_month {V : Type} (p : period) (ds : list (option date))
    (vals : list V) : list V :=
  cells_where (in_month (pyear p) (pmonth p)) ds vals.

(** Month [p] is an earlier month than [q]. *)
Definition month_before (p q : period) : Prop :=
  (pyear p < pyear q \/ (pyear p = pyear q /\ pmonth p < pmonth q))%Z.

(** The sums of a numeric column over the rows of each month of [months]:
    float64 cells are added with [NaN] skipped, the sum of int64 cells is
    taken modulo 2^64. *)
Definition month_sums (months : list period) (ds : list (option date))
    (c : column) : column :=
  match c with
  | ColNum l => ColNum (map (fun p => nansum (cells_of_month p ds l)) months)
  | ColInt l =>
      ColInt (map (fun p => int64_wrap (Zsum (cells_of_month p ds l))) months)
  | _ => c
  end.

(** Three countries reporting 100 confirmed cases each in January 2020, as
    [read_csv] types the file: the dates are text, the counts int64. *)
Definition three_countries : DataFrame :=
  <["Country/Region" := ColObj [Some "X"; Some "Y"; Some "Z"]]>
  (<["Date" := ColObj [Some "2020-01-22"; Some "2020-01-22"; Some "2020-01-23"]]>
  (<["Confirmed" := ColInt [100; 100; 100]%Z]>
  (<["Deaths" := ColInt [1; 0; 2]%Z]>
  (<["Recovered" := ColInt [10; 20; 30]%Z]>
  (<["New cases" := ColInt [5; 6; 7]%Z]>
  (<["New deaths" := ColInt [0; 0; 1]%Z]> ∅)))))).

(** A series over two months with its dates parsed: a row without date, an
    int64 column and a float64 column with a missing cell. *)
Definition two_months : DataFrame :=
  <["Date" := ColTime [Some (mkdate 2020 2 1); Some (mkdate 2020 1 22); None;
                       Some (mkdate 2020 1 23)]]>
  (<["Confirmed" := ColInt [7; 100; 5; 100]%Z]>
  (<["Deaths" := ColNum [NaN; Fin 1; Fin 4; Fin 2]]>
  (<["Recovered" := ColInt [0; 10; 0; 30]%Z]> ∅))).

(** Two records of one month whose confirmed counts add up to 2^63. *)
Definition huge_counts : DataFrame :=
  <["Confirmed" := ColInt [4611686018427387904; 4611686018427387904]%Z]>
  (<["Date" := ColObj [Some "2020-01-22"; Some "2020-01-23"]]>
  (<["Deaths" := ColInt [0; 0]%Z]>
  (<["Recovered" := ColInt [0; 0]%Z]>
  (<["New cases" := ColInt [0; 0]%Z]>
  (<["New deaths" := ColInt [0; 0]%Z]> ∅))))).

(** The sums of a numeric column over the rows of each date of [dates]. *)
Definition date_sums (dates : list date) (ds : list (option date))
    (c : column) : column :=
  match c with
  | ColNum l => ColNum (map (fun d => nansum (date_cells d ds l)) dates)
  | ColInt l =>
      ColInt (map (fun d => int64_wrap (Zsum (date_cells d ds l))) dates)
  | _ => c
  end.

(** Two columns hold the same values, row by row. *)
Definition same_values (a b : column) : Prop :=
  match a, b with
  | ColNum x, ColNum y => Forall2 feq x y
  | _, _ => a = b
  end.

(** A cell holding nothing, or a number of magnitude at most 2^53: however
    many such cells a table holds, their float64 sum stays finite. *)
Definition small_or_missing (x : float64) : Prop :=
  match x with
  | NaN | NZero => True
  | Fin q => (- inject_Z (2 ^ 53) <= q /\ q <= inject_Z (2 ^ 53))%Q
  | PInf | NInf => False
  end.

(** A series whose two records of January 2020 hold +inf and -inf
    confirmed cases, which is how [read_csv] reads the texts inf and
    -inf. *)
Definition infinite_counts : DataFrame :=
  <["Confirmed" := ColNum [PInf; NInf]]>
  (<["Date" := ColObj [Some "2020-01-22"; Some "2020-01-23"]]>
  (<["Deaths" := ColInt [0; 0]%Z]>
  (<["Recovered" := ColInt [0; 0]%Z]>
  (<["New cases" := ColInt [0; 0]%Z]>
  (<["New deaths" := ColInt [0; 0]%Z]> ∅))))).

(** A frame as [read_csv] returns it for a file with a header line and no
    row: every column has the object dtype and no cell. *)
Definition header_only (df : DataFrame) : Prop :=
  forall name c, df !! name = Some c -> c = ColObj [].

(** The columns of the two tables that the EDA page reads. *)
Definition series_columns : list string :=
  "Date" :: monthly_columns ++ daily_columns.

Definition snapshot_columns : list string :=
  "Country/Region" :: "Continent" :: snapshot_counts.

(** A snapshot of three countries, its counts int64, in which the
    total_tests of the first is the largest int64. *)
Definition largest_tests : DataFrame :=
  <["Country/Region" := ColObj [Some "X"; Some "Y"; Some "Z"]]>
  (<["Continent" := ColObj [Some "A"; Some "A"; Some "B"]]>
  (<["TotalCases" := ColInt [100; 10; 1000]%Z]>
  (<["TotalDeaths" := ColInt [10; 1; 20]%Z]>
  (<["TotalRecovered" := ColInt [80; 5; 900]%Z]>
  (<["TotalTests" := ColInt [9223372036854775807; 50; 2000]%Z]> ∅))))).

(** Three countries whose total_tests are 0, 9 and 99, in a float64
    column for the tests and an int64 column for the cases. *)
Definition powers_of_ten : DataFrame :=
  <["Country/Region" := ColObj [Some "X"; Some "Y"; Some "Z"]]>
  (<["Continent" := ColObj [Some "A"; Some "A"; Some "B"]]>
  (<["TotalCases" := ColInt [0; 9; 99]%Z]>
  (<["TotalDeaths" := ColNum [Fin 0; Fin 1; Fin 2]]>
  (<["TotalRecovered" := ColNum [Fin 0; Fin 5; Fin 50]]>
  (<["TotalTests" := ColNum [Fin 0; Fin 9; Fin 99]]> ∅))))).

(** Two cells hold the same value for [duplicated]: the same text, date or
    integer, the same number (the two zeros are one number), or nothing
    on both sides. *)
Definition same_cell (a b : cell) : Prop :=
  match a, b with
  | CObj x, CObj y => x = y
  | CNum x, CNum y => feq x y
  | CInt x, CInt y => x = y
  | CTime x, CTime y => x = y
  | CPeriod x, CPeriod y => x = y
  | CLog x, CLog y => x = y
  | _, _ => False
  end.

(** Rows [i] and [j] of the frame agree in every column. *)
Definition same_row (df : DataFrame) (i j : nat) : Prop :=
  forall name c, df !! name = Some c ->
    match cells c !! i, cells c !! j with
    | Some a, Some b => same_cell a b
    | None, None => True
    | _, _ => False
    end.

(** Four records, the third repeating the first and the fourth differing
    from the second by its count; the missing deaths of the first and the
    third count as the same value. *)
Definition repeated_rows : DataFrame :=
  <["Country/Region" := ColObj [Some "X"; Some "Y"; Some "X"; Some "Y"]]>
  (<["Confirmed" := ColInt [1; 2; 1; 3]%Z]>
  (<["Deaths" := ColNum [NaN; Fin 0; NaN; Fin 0]]> ∅)).

(* ===================================================================== *)
(** * Properties *)
(* ===================================================================== *)



(** *** Sums and means of a group *)






Lemma nansum_filter (l : list float64) (acc : float64) :
  fold_left nansum_step (List.filter notnan l) acc = fold_left nansum_step l acc.
Proof.
  revert acc. induction l as [|x l IH]; intros acc; [reflexivity|].
  simpl. destruct x; simpl; apply IH.
Qed.



(** *** Orders on keys *)

Lemma lex_Eq (c1 c2 : comparison) : lex c1 c2 = Eq <-> c1 = Eq /\ c2 = Eq.
Proof. destruct c1, c2; simpl; intuition congruence. Qed.

Lemma lex_Lt (c1 c2 : comparison) :
  lex c1 c2 = Lt <-> c1 = Lt \/ (c1 = Eq /\ c2 = Lt).
Proof. destruct c1, c2; simpl; intuition congruence. Qed.

Lemma lex_opp (c1 c2 : comparison) :
  lex (CompOpp c1) (CompOpp c2) = CompOpp (lex c1 c2).
Proof. now destruct c1, c2. Qed.

Lemma period_compare_eq (a b : period) : period_compare a b = Eq <-> a = b.
Proof.
  destruct a as [y1 m1], b as [y2 m2]. unfold period_compare. simpl.
  rewrite lex_Eq, !Z.compare_eq_iff. split; [intros [-> ->]; reflexivity|].
  intros E. inversion E. auto.
Qed.

Lemma period_compare_antisym (a b : period) :
  period_compare b a = CompOpp (period_compare a b).
Proof.
  unfold period_compare.
  rewrite (Z.compare_antisym (pyear a)), (Z.compare_antisym (pmonth a)).
  apply lex_opp.
Qed.

Lemma period_compare_trans (a b c : period) :
  period_compare a b = Lt -> period_compare b c = Lt -> period_compare a c = Lt.
Proof.
  unfold period_compare.
  rewrite !lex_Lt, !Z.compare_eq_iff, !Z.compare_lt_iff. lia.
Qed.

Lemma date_compare_eq (a b : date) : date_compare a b = Eq <-> a = b.
Proof.
  destruct a as [y1 m1 d1], b as [y2 m2 d2]. unfold date_compare. simpl.
  rewrite !lex_Eq, !Z.compare_eq_iff.
  split; [intros (-> & -> & ->); reflexivity|].
  intros E. inversion E. auto.
Qed.

Lemma date_compare_antisym (a b : date) :
  date_compare b a = CompOpp (date_compare a b).
Proof.
  unfold date_compare.
  rewrite (Z.compare_antisym (year a)), (Z.compare_antisym (month a)),
    (Z.compare_antisym (day a)).
  now rewrite !lex_opp.
Qed.

Lemma date_compare_trans (a b c : date) :
  date_compare a b = Lt -> date_compare b c = Lt -> date_compare a c = Lt.
Proof.
  unfold date_compare.
  rewrite !lex_Lt, ?lex_Eq, !Z.compare_eq_iff, !Z.compare_lt_iff. lia.
Qed.

Lemma string_compare_refl (s : string) : String.compare s s = Eq.
Proof.
  induction s as [|a s IH]; [reflexivity|]. simpl.
  unfold Ascii.compare. now rewrite N.compare_refl.
Qed.

Lemma string_compare_eq (a b : string) : String.compare a b = Eq <-> a = b.
Proof.
  split; [apply String.compare_eq_iff|]. intros ->. apply string_compare_refl.
Qed.

Section GroupByFacts.
Context {K : Type} (cmp : K -> K -> comparison).
Hypothesis cmp_eq : forall a b, cmp a b = Eq <-> a = b.

Lemma In_insert_key (x k : K) (ks : list K) :
  In x (insert_key cmp k ks) <-> x = k \/ In x ks.
Proof.
  induction ks as [|y ks IH]; simpl; [intuition|].
  destruct (cmp k y) eqn:E; simpl.
  - apply cmp_eq in E. subst y. intuition.
  - intuition.
  - rewrite IH. intuition.
Qed.

Lemma In_group_keys (k : K) (keys : list (option K)) :
  In k (group_keys cmp keys) <-> In (Some k) keys.
Proof.
  induction keys as [|o keys IH]; simpl; [reflexivity|].
  destruct o as [k'|].
  - rewrite In_insert_key, IH. intuition congruence.
  - rewrite IH. intuition congruence.
Qed.

Lemma same_key_true (k : K) (o : option K) :
  same_key cmp k o = true <-> o = Some k.
Proof.
  destruct o as [k'|]; simpl; [|intuition congruence].
  destruct (cmp k k') eqn:E.
  - apply cmp_eq in E. subst. intuition.
  - split; [discriminate|]. intros [= ->].
    assert (cmp k k = Eq) by now apply cmp_eq. congruence.
  - split; [discriminate|]. intros [= ->].
    assert (cmp k k = Eq) by now apply cmp_eq. congruence.
Qed.


Lemma In_groupby_agg {V W : Type} (agg : list V -> W)
    (keys : list (option K)) (vals : list V) (k : K) (w : W) :
  In (k, w) (groupby_agg cmp agg keys vals) <->
  In (Some k) keys /\ w = agg (group_rows cmp k keys vals).
Proof.
  unfold groupby_agg. rewrite in_map_iff. split.
  - intros (k' & [= -> <-] & Hin). now apply In_group_keys in Hin.
  - intros [Hin ->]. exists k. split; [reflexivity|]. now apply In_group_keys.
Qed.

Hypothesis cmp_antisym : forall a b, cmp b a = CompOpp (cmp a b).
Hypothesis cmp_trans :
  forall a b c, cmp a b = Lt -> cmp b c = Lt -> cmp a c = Lt.

Lemma insert_key_sorted (k : K) (ks : list K) :
  StronglySorted (key_lt cmp) ks -> StronglySorted (key_lt cmp) (insert_key cmp k ks).
Proof.
  induction 1 as [|y ks Hs IH Hy]; simpl; [repeat constructor|].
  destruct (cmp k y) eqn:E.
  - now constructor.
  - constructor; [now constructor|]. constructor; [exact E|].
    eapply Forall_impl; [exact Hy|]. intros z Hz. now apply (cmp_trans k y z).
  - constructor; [exact IH|].
    apply List.Forall_forall. intros z Hz. apply In_insert_key in Hz as [->|Hz].
    + unfold key_lt. rewrite cmp_antisym, E. reflexivity.
    + rewrite List.Forall_forall in Hy. now apply Hy.
Qed.

Lemma group_keys_sorted (keys : list (option K)) :
  StronglySorted (key_lt cmp) (group_keys cmp keys).
Proof.
  induction keys as [|o keys IH]; simpl; [constructor|].
  destruct o; [now apply insert_key_sorted|exact IH].
Qed.

Lemma key_lt_irrefl (a : K) : ~ key_lt cmp a a.
Proof.
  unfold key_lt. assert (cmp a a = Eq) as -> by now apply cmp_eq. discriminate.
Qed.

Lemma sorted_NoDup (ks : list K) : StronglySorted (key_lt cmp) ks -> List.NoDup ks.
Proof.
  induction 1 as [|y ks Hs IH Hy]; constructor; [|exact IH].
  intros Hin. rewrite List.Forall_forall in Hy. exact (key_lt_irrefl y (Hy y Hin)).
Qed.
End GroupByFacts.

(** *** Sorting is a rearrangement *)

Lemma insert_desc_perm {A : Type} (x : A * float64) (l : list (A * float64)) :
  Permutation (insert_desc x l) (x :: l).
Proof.
  induction l as [|y l IH]; simpl; [reflexivity|].
  destruct (fltb (snd x) (snd y)); [|reflexivity].
  rewrite IH. apply perm_swap.
Qed.

Lemma sort_desc_perm {A : Type} (l : list (A * float64)) :
  Permutation (sort_desc l) l.
Proof.
  induction l as [|x l IH]; simpl; [reflexivity|].
  now rewrite insert_desc_perm, IH.
Qed.

Lemma filter_split_perm {A : Type} (f : A -> bool) (l : list A) :
  Permutation (List.filter f l ++ List.filter (fun x => negb (f x)) l) l.
Proof.
  induction l as [|x l IH]; simpl; [reflexivity|].
  destruct (f x); simpl.
  - now rewrite IH.
  - rewrite <- Permutation_middle. now rewrite IH.
Qed.

Lemma sort_values_desc_perm {A : Type} (s : list (A * float64)) :
  Permutation (sort_values_desc s) s.
Proof.
  unfold sort_values_desc. rewrite sort_desc_perm.
  rewrite <- (filter_split_perm (fun e => isnan (snd e)) s) at 3.
  rewrite Permutation_app_comm. reflexivity.
Qed.

Lemma In_sort_values_desc {A : Type} (s : list (A * float64)) (e : A * float64) :
  In e (sort_values_desc s) <-> In e s.
Proof.
  split; apply Permutation_in;
    [apply sort_values_desc_perm | symmetry; apply sort_values_desc_perm].
Qed.

(** *** The ratio of a row *)

Lemma series_ratio (ns cs : list float64) :
  series_mul (series_div ns cs) (Fin 100) = zip_with ratio_cell ns cs.
Proof.
  unfold series_mul, series_div, ratio_cell.
  revert cs. induction ns as [|a ns IH]; intros [|b cs]; simpl; try reflexivity.
  now rewrite IH.
Qed.




Lemma ratio_pct_values (num : string) (wm : DataFrame) (ns cs : list float64) :
  has_values wm num ns ->
  has_values wm "TotalCases" cs ->
  ratio_pct num wm = Ok (ColNum (zip_with ratio_cell ns cs)).
Proof.
  intros (cn & Hn & En) (cc & Hc & Ec). unfold ratio_pct, getitem.
  rewrite Hn, Hc. simpl. rewrite En, Ec. simpl.
  now rewrite series_ratio.
Qed.

Lemma ratio_pct_numeric (num : string) (wm : DataFrame) (ns cs : list float64) :
  wm !! num = Some (ColNum ns) ->
  wm !! "TotalCases" = Some (ColNum cs) ->
  ratio_pct num wm = Ok (ColNum (zip_with ratio_cell ns cs)).
Proof.
  intros Hn Hc. unfold ratio_pct, getitem. rewrite Hn, Hc. simpl.
  now rewrite series_ratio.
Qed.


Lemma continent_ratio_values (num field : string) (wm : DataFrame)
    (ks : list (option string)) (ns cs : list float64) :
  field <> "Continent" ->
  wm !! "Continent" = Some (ColObj ks) ->
  has_values wm num ns ->
  has_values wm "TotalCases" cs ->
  continent_ratio num field wm =
  Ok (sort_values_desc
        (groupby_agg String.compare nanmean ks (zip_with ratio_cell ns cs))).
Proof.
  intros Hf Hk Hn Hc. unfold continent_ratio.
  rewrite (ratio_pct_values num wm ns cs Hn Hc). simpl.
  unfold continent_mean, getitem.
  rewrite lookup_insert_ne by exact Hf. rewrite Hk. simpl.
  rewrite lookup_insert_eq. reflexivity.
Qed.

Lemma ratio_column_not_Continent (r : ratio_field) : ratio_column r <> "Continent".
Proof. destruct r; discriminate. Qed.



(** A row with total_cases = 0 and total_deaths = 0 has the ratio NaN and
    is left out of the mean. *)
Example zero_over_zero_is_skipped :
  ratio_pct "TotalDeaths" zero_over_zero = Ok (ColNum [NaN; Fin 10])
  /\ continent_cfr zero_over_zero = Ok [("A", Fin 10)].
Proof. split; vm_compute; reflexivity. Qed.


(** C2 (amended).  The division by total_cases is not guarded.  For a row
    with total_cases = 0 the ratio column holds NaN (the null of pandas)
    when the numerator is 0 or missing, and an infinity otherwise: for the
    positive zero (what the text 0 is read as) +inf for a positive
    numerator and -inf for a negative one, for the negative zero -0.0 the
    infinity of the opposite sign.  An infinity is a value like any other
    for the aggregates computed from the column. *)
Theorem ratio_of_zero_cases (r : ratio_field) (wm : DataFrame)
    (ns cs : list float64) (i : nat) (x z : float64) (negative_zero : bool) :
  has_values wm (numerator r) ns ->
  has_values wm "TotalCases" cs ->
  ns !! i = Some x ->
  cs !! i = Some z -> zero_sign z = Some negative_zero ->
  exists col,
    ratio_pct (numerator r) wm = Ok (ColNum col)
    /\ col !! i = Some
         match fsign x with
         | None => NaN
         | Some negative => if xorb negative negative_zero then NInf else PInf
         end.
Proof.
  intros Hn Hc Hx Hz Hz0. eexists. split.
  { apply (ratio_pct_values _ wm ns cs Hn Hc). }
  apply lookup_zip_with_Some. exists x, z.
  split; [|split; assumption].
  unfold ratio_cell.
  destruct z as [| | |q|]; simpl in Hz0; try discriminate.
  - destruct (Qeq_bool q 0) eqn:Eq; [|discriminate]. injection Hz0 as <-.
    apply Qeq_bool_eq, Qeq_alt in Eq.
    destruct x as [| | |n|]; simpl; rewrite ?Eq; try reflexivity.
    destruct (n ?= 0)%Q; reflexivity.
  - injection Hz0 as <-.
    destruct x as [| | |n|]; simpl; try reflexivity.
    destruct (n ?= 0)%Q; reflexivity.
Qed.

(** The theorem at the first of the two example rows, and at the same row
    with total_cases written -0.0. *)
Lemma ratio_of_zero_cases_witness :
  (exists col,
     ratio_pct (numerator case_fatality_rate) two_rows_int = Ok (ColNum col)
     /\ col !! 0 = Some PInf)
  /\ (exists col,
        ratio_pct (numerator case_fatality_rate) negative_zero_row = Ok (ColNum col)
        /\ col !! 0 = Some NInf).
Proof.
  split.
  - apply (ratio_of_zero_cases case_fatality_rate two_rows_int
             [Fin 5; Fin 10] [Fin 0; Fin 100] 0 (Fin 5) (Fin 0) false);
      try reflexivity; eexists; split; reflexivity.
  - apply (ratio_of_zero_cases case_fatality_rate negative_zero_row
             [Fin 5; Fin 10] [NZero; Fin 100] 0 (Fin 5) NZero true);
      try reflexivity; eexists; split; reflexivity.
Defined.

(** C2, as stated, fails: the row with total_cases = 0 and total_deaths = 5
    gets the CFR +inf, which is not null, and the mean of its continent
    computed from the column is +inf. *)
Lemma zero_cases_ratio_is_infinite :
  ratio_pct "TotalDeaths" two_rows_int = Ok (ColNum [PInf; Fin 10])
  /\ ratio_pct "TotalDeaths" two_rows = Ok (ColNum [PInf; Fin 10])
  /\ isnan PInf = false
  /\ continent_mean "CFR(%)" (<["CFR(%)" := ColNum [PInf; Fin 10]]> two_rows_int)
     = Ok [("A", PInf)].
Proof. repeat split; vm_compute; reflexivity. Qed.

Lemma rbind_Ok {A B : Type} (r : result A) (k : A -> result B) (b : B) :
  rbind r k = Ok b -> exists a, r = Ok a /\ k a = Ok b.
Proof. destruct r as [a|e]; simpl; [eauto|discriminate]. Qed.

Lemma bind_Ok {A B : Type} (m : M A) (k : A -> M B) (s s' : Store) (b : B) :
  bind m k s = Ok (b, s') ->
  exists a s1, m s = Ok (a, s1) /\ k a s1 = Ok (b, s').
Proof.
  unfold bind. destruct (m s) as [[a s1]|e]; [eauto|discriminate].
Qed.

Lemma on_fg_Ok {A : Type} (f : DataFrame -> result A) (s s' : Store) (a : A) :
  on_fg f s = Ok (a, s') -> f (full_grouped s) = Ok a /\ s' = s.
Proof.
  unfold on_fg. destruct (f (full_grouped s)); simpl; [|discriminate].
  intros [= -> ->]. auto.
Qed.

Lemma on_wm_Ok {A : Type} (f : DataFrame -> result A) (s s' : Store) (a : A) :
  on_wm f s = Ok (a, s') -> f (worldometer_data s) = Ok a /\ s' = s.
Proof.
  unfold on_wm. destruct (f (worldometer_data s)); simpl; [|discriminate].
  intros [= -> ->]. auto.
Qed.

Ltac run_step H :=
  let a := fresh "v" in
  let s1 := fresh "s" in
  let H1 := fresh "Hstep" in
  apply bind_Ok in H as (a & s1 & H1 & H);
  first
    [ apply on_fg_Ok in H1 as [H1 ->]
    | apply on_wm_Ok in H1 as [H1 ->]
    | (unfold fg_setitem, wm_setitem in H1; injection H1 as _ <-; clear a) ];
  cbn [full_grouped worldometer_data] in *.

(** What a successful run of the EDA branch computed, statement by
    statement, and the store it leaves. *)
Lemma eda_page_Ok (s s' : Store) (t : eda_tables) :
  eda_page s = Ok (t, s') ->
  exists d cfr tests cases ltests lcases d' rr,
    let fg1 := <["Date" := d]> (full_grouped s) in
    let wm := worldometer_data s in
    let wm1 := <["CFR(%)" := cfr]> wm in
    let wm2 := <["TotalCases" := cases]> (<["TotalTests" := tests]> wm1) in
    let wm3 := <["log_TotalCases" := lcases]> (<["log_TotalTests" := ltests]> wm2) in
    let fg2 := <["Date" := d']> fg1 in
    (let* c := getitem (full_grouped s) "Date" in to_datetime c) = Ok d
    /\ monthly fg1 = Ok (eda_monthly t)
    /\ top10 "TotalCases" wm = Ok (eda_top_confirmed t)
    /\ top10 "TotalDeaths" wm = Ok (eda_top_deaths t)
    /\ top10 "TotalRecovered" wm = Ok (eda_top_recovered t)
    /\ ratio_pct "TotalDeaths" wm = Ok cfr
    /\ continent_mean "CFR(%)" wm1 = Ok (eda_continent_cfr t)
    /\ (let* c := getitem wm1 "TotalTests" in to_numeric_coerce c) = Ok tests
    /\ (let* c := getitem (<["TotalTests" := tests]> wm1) "TotalCases" in
        to_numeric_coerce c) = Ok cases
    /\ log_transform "TotalTests" wm2 = Ok ltests
    /\ log_transform "TotalCases" (<["log_TotalTests" := ltests]> wm2) = Ok lcases
    /\ (let* c := getitem fg1 "Date" in to_datetime c) = Ok d'
    /\ global_time fg2 = Ok (eda_global_time t)
    /\ ratio_pct "TotalRecovered" wm3 = Ok rr
    /\ continent_mean "RecoveryRate(%)" (<["RecoveryRate(%)" := rr]> wm3)
       = Ok (eda_continent_recovery t)
    /\ s' = mkStore fg2 (<["RecoveryRate(%)" := rr]> wm3).
Proof.
  intros H. unfold eda_page in H. destruct s as [fg wm].
  repeat run_step H.
  unfold ret in H. injection H as <- <-.
  repeat eexists; eassumption.
Qed.

(** *** The page chain *)

Lemma page_in_labels (selected : nat) : In (page selected) page_labels.
Proof.
  unfold page, radio. destruct (page_labels !! selected) as [l|] eqn:E.
  - apply list_elem_of_In, list_elem_of_lookup. eauto.
  - simpl. auto.
Qed.

(** *** The loaded tables across a run *)

Lemma to_datetime_ColTime (c d : column) :
  to_datetime c = Ok d -> exists ds, d = ColTime ds.
Proof.
  destruct c; simpl; try discriminate.
  - intros H. apply rbind_Ok in H as (ds & _ & [= <-]). eauto.
  - intros H. apply rbind_Ok in H as (ds & _ & [= <-]). eauto.
  - intros [= <-]. eauto.
Qed.

Lemma render_not_eda (p : string) (s s' : Store) (v : view) :
  p <> "📈 EDA & Charts" -> render p s = Ok (v, s') -> s' = s.
Proof.
  intros Hp. unfold render, overview_page, cleaning_page, ret.
  repeat match goal with
         | |- context [String.eqb p ?l] =>
             destruct (String.eqb_spec p l) as [->|_]
         end;
    try congruence.
Qed.

Lemma render_eda (s s' : Store) (v : view) :
  render "📈 EDA & Charts" s = Ok (v, s') ->
  exists t, v = EdaView t /\ eda_page s = Ok (t, s').
Proof.
  unfold render. simpl. intros H.
  apply bind_Ok in H as (t & s1 & H1 & H). injection H as <- <-. eauto.
Qed.

Lemma to_datetime_text (l : list (option string)) (d : column) :
  to_datetime (ColObj l) = Ok d ->
  d = ColTime (map (fun o => o ≫= parse_date) l).
Proof.
  simpl. intros H. apply rbind_Ok in H as (ds & H & [= <-]). f_equal.
  revert ds H. induction l as [|o l IH]; simpl; intros ds H.
  - now injection H as <-.
  - apply rbind_Ok in H as (x & Hx & H). apply rbind_Ok in H as (xs & Hxs & H).
    injection H as <-. f_equal; [|now apply IH].
    destruct o as [txt|]; simpl in *.
    + destruct (parse_date txt); [now injection Hx as <-|discriminate].
    + now injection Hx as <-.
Qed.

Lemma to_numeric_numeric (c c' : column) :
  is_numeric c -> to_numeric_coerce c = Ok c' -> c' = c.
Proof. destruct c; simpl; try tauto; now intros _ [= <-]. Qed.

Lemma log_transform_lookup (field : string) (df1 df2 : DataFrame) :
  df1 !! field = df2 !! field ->
  log_transform field df1 = log_transform field df2.
Proof. intros H. unfold log_transform, getitem. now rewrite H. Qed.

Lemma ratio_pct_lookup (num : string) (df1 df2 : DataFrame) :
  df1 !! num = df2 !! num ->
  df1 !! "TotalCases" = df2 !! "TotalCases" ->
  ratio_pct num df1 = ratio_pct num df2.
Proof. intros H1 H2. unfold ratio_pct, getitem. now rewrite H1, H2. Qed.

(** C7 (amended).  The Overview, Cleaning, Insights and Recommendations
    branches leave both loaded tables unchanged.  The EDA branch assigns to
    them in place.  The Date column of [full_grouped] is replaced by what
    [pd.to_datetime] returns for it (for a text column, the parsed date of
    each cell).  [worldometer_data] receives CFR(%), the ratio of the
    loaded TotalDeaths and TotalCases; its TotalTests and TotalCases are
    re-assigned to what [pd.to_numeric] returns for the loaded columns (a
    numeric column is re-assigned as it is); it receives log_TotalTests
    and log_TotalCases, the log transforms of the two coerced columns, and
    RecoveryRate(%), the ratio of the loaded TotalRecovered and the
    coerced TotalCases.  Every other column of either table is left as it
    was. *)
Theorem run_effect_on_loaded_tables (p : string) (s s' : Store) (v : view) :
  app p s = Ok (v, s') ->
  (p <> "📈 EDA & Charts" -> s' = s)
  /\ (p = "📈 EDA & Charts" ->
      exists d cfr tests cases ltests lcases rr,
        (let* c := getitem (full_grouped s) "Date" in to_datetime c) = Ok d
        /\ ratio_pct "TotalDeaths" (worldometer_data s) = Ok cfr
        /\ (let* c := getitem (worldometer_data s) "TotalTests" in
            to_numeric_coerce c) = Ok tests
        /\ (let* c := getitem (worldometer_data s) "TotalCases" in
            to_numeric_coerce c) = Ok cases
        /\ log_transform "TotalTests"
             (<["TotalTests" := tests]> (worldometer_data s)) = Ok ltests
        /\ log_transform "TotalCases"
             (<["TotalCases" := cases]> (worldometer_data s)) = Ok lcases
        /\ ratio_pct "TotalRecovered"
             (<["TotalCases" := cases]> (worldometer_data s)) = Ok rr
        /\ full_grouped s' = <["Date" := d]> (full_grouped s)
        /\ worldometer_data s' =
           <["RecoveryRate(%)" := rr]>
             (<["log_TotalCases" := lcases]>
                (<["log_TotalTests" := ltests]>
                   (<["TotalCases" := cases]>
                      (<["TotalTests" := tests]>
                         (<["CFR(%)" := cfr]> (worldometer_data s)))))))
  /\ (p = "📈 EDA & Charts" ->
      forall l, full_grouped s !! "Date" = Some (ColObj l) ->
        full_grouped s' !! "Date"
        = Some (ColTime (map (fun o => o ≫= parse_date) l)))
  /\ (forall name c, In name coerced_columns ->
        worldometer_data s !! name = Some c -> is_numeric c ->
        worldometer_data s' !! name = Some c)
  /\ (forall name, name <> "Date" ->
        full_grouped s' !! name = full_grouped s !! name)
  /\ (forall name, ~ In name assigned_columns ->
        worldometer_data s' !! name = worldometer_data s !! name).
Proof.
  intros H. unfold app in H.
  destruct (String.eqb_spec p "📈 EDA & Charts") as [->|Hp].
  - apply render_eda in H as (t & -> & H).
    apply eda_page_Ok in H
      as (d & cfr & tests & cases & ltests & lcases & d' & rr & H).
    cbv zeta in H.
    destruct H as (Hd & _ & _ & _ & _ & Hcfr & _ & Htests & Hcases & Hlt & Hlc
                   & Hd' & _ & Hrr & _ & ->).
    assert (d' = d) as ->.
    { apply rbind_Ok in Hd as (c0 & _ & Hd).
      apply to_datetime_ColTime in Hd as [ds ->].
      unfold getitem in Hd'. rewrite lookup_insert_eq in Hd'. simpl in Hd'.
      now injection Hd' as <-. }
    unfold getitem in Htests, Hcases.
    rewrite !lookup_insert_ne in Htests by discriminate.
    rewrite !lookup_insert_ne in Hcases by discriminate.
    rewrite (log_transform_lookup "TotalTests" _
               (<["TotalTests" := tests]> (worldometer_data s))) in Hlt
      by (rewrite !lookup_insert_ne by discriminate; now rewrite !lookup_insert_eq).
    rewrite (log_transform_lookup "TotalCases" _
               (<["TotalCases" := cases]> (worldometer_data s))) in Hlc
      by (rewrite !lookup_insert_ne by discriminate; now rewrite !lookup_insert_eq).
    rewrite (ratio_pct_lookup "TotalRecovered" _
               (<["TotalCases" := cases]> (worldometer_data s))) in Hrr
      by (rewrite !lookup_insert_ne by discriminate; now rewrite ?lookup_insert_eq).
    cbn [full_grouped worldometer_data].
    split; [congruence|]. split.
    { intros _. exists d, cfr, tests, cases, ltests, lcases, rr.
      repeat (split; [assumption|]).
      split; [apply insert_insert_eq|reflexivity]. }
    split.
    { intros _ l Hl. rewrite insert_insert_eq, lookup_insert_eq. f_equal.
      unfold getitem in Hd. rewrite Hl in Hd. simpl in Hd.
      apply rbind_Ok in Hd as (ds & Hds & [= <-]).
      apply (to_datetime_text l). simpl. now rewrite Hds. }
    split.
    { intros name c Hn Hc Hnum. unfold coerced_columns in Hn. simpl in Hn.
      destruct Hn as [<-|[<-|[]]].
      - rewrite Hc in Htests. simpl in Htests.
        apply (to_numeric_numeric _ _ Hnum) in Htests. subst tests.
        rewrite !lookup_insert_ne by discriminate. apply lookup_insert_eq.
      - rewrite Hc in Hcases. simpl in Hcases.
        apply (to_numeric_numeric _ _ Hnum) in Hcases. subst cases.
        rewrite !lookup_insert_ne by discriminate. apply lookup_insert_eq. }
    split.
    + intros name Hn. now rewrite !lookup_insert_ne by congruence.
    + intros name Hn. unfold assigned_columns in Hn. simpl in Hn.
      rewrite !lookup_insert_ne; [reflexivity|..]; intros <-; tauto.
  - apply (render_not_eda p s s' v Hp) in H. subst s'.
    split; [reflexivity|]. split; [congruence|]. split; [congruence|].
    split; [auto|]. split; reflexivity.
Qed.

(** The theorem at a run of the EDA branch on the example tables. *)
Lemma run_effect_on_loaded_tables_witness :
  exists v s',
    app "📈 EDA & Charts" (mkStore january two_rows_int) = Ok (v, s')
    /\ full_grouped s' !! "Date"
       = Some (ColTime [Some (mkdate 2020 1 22); Some (mkdate 2020 1 22);
                        Some (mkdate 2020 1 23)])
    /\ worldometer_data s' !! "TotalCases" = Some (ColInt [0; 100]%Z)
    /\ (forall name, name <> "Date" -> full_grouped s' !! name = january !! name)
    /\ (forall name, ~ In name assigned_columns ->
          worldometer_data s' !! name = two_rows_int !! name).
Proof.
  assert (exists v s', app "📈 EDA & Charts" (mkStore january two_rows_int)
                       = Ok (v, s')) as (v & s' & E).
  { eexists. eexists. vm_compute. reflexivity. }
  exists v, s'. split; [exact E|].
  destruct (run_effect_on_loaded_tables _ _ _ _ E)
    as (_ & _ & Hdate & Hnum & Hfg & Hwm).
  split; [exact (Hdate eq_refl _ eq_refl)|].
  split; [apply (Hnum "TotalCases"); [simpl; tauto|reflexivity|exact I]|].
  split; assumption.
Defined.

(** C7, as stated, fails: after a run of the EDA branch both loaded tables
    differ from what was loaded. *)
Lemma eda_assigns_to_loaded_tables :
  exists v s',
    app "📈 EDA & Charts" (mkStore january two_rows) = Ok (v, s')
    /\ two_rows !! "CFR(%)" = None
    /\ worldometer_data s' !! "CFR(%)" = Some (ColNum [PInf; Fin 10])
    /\ worldometer_data s' !! "RecoveryRate(%)" = Some (ColNum [NaN; Fin 80])
    /\ worldometer_data s' <> two_rows
    /\ january !! "Date"
       = Some (ColObj [Some "2020-01-22"; Some "2020-01-22"; Some "2020-01-23"])
    /\ full_grouped s' !! "Date"
       = Some (ColTime [Some (mkdate 2020 1 22); Some (mkdate 2020 1 22);
                        Some (mkdate 2020 1 23)])
    /\ full_grouped s' <> january.
Proof.
  eexists. eexists. split; [vm_compute; reflexivity|].
  split; [reflexivity|].
  split; [vm_compute; reflexivity|].
  split; [vm_compute; reflexivity|].
  split.
  { intros E. apply (f_equal (fun m : DataFrame => m !! "CFR(%)")) in E.
    vm_compute in E. discriminate E. }
  split; [reflexivity|].
  split; [vm_compute; reflexivity|].
  intros E. apply (f_equal (fun m : DataFrame => m !! "Date")) in E.
  vm_compute in E. discriminate E.
Qed.

(** C3 (amended).  No cleaning step runs.  The Data Cleaning branch returns
    two duplicate counts and leaves both tables as loaded; the rankings and
    the continent means of the EDA branch are computed on
    [worldometer_data] as loaded, whatever its rows hold. *)
Theorem cleaning_is_only_described (s : Store) :
  app "🧹 Data Cleaning" s
  = Ok (CleaningView (duplicated_sum (full_grouped s))
                     (duplicated_sum (worldometer_data s)), s)
  /\ (forall t s',
        app "📈 EDA & Charts" s = Ok (EdaView t, s') ->
        top10 "TotalCases" (worldometer_data s) = Ok (eda_top_confirmed t)
        /\ top10 "TotalDeaths" (worldometer_data s) = Ok (eda_top_deaths t)
        /\ top10 "TotalRecovered" (worldometer_data s) = Ok (eda_top_recovered t)
        /\ continent_cfr (worldometer_data s) = Ok (eda_continent_cfr t)).
Proof.
  split; [reflexivity|].
  intros t s' H. unfold app in H.
  apply render_eda in H as (t' & [= <-] & H).
  apply eda_page_Ok in H
    as (d & cfr & tests & cases & ltests & lcases & d' & rr & H).
  cbv zeta in H.
  destruct H as (_ & _ & Hc & Hd & Hr & Hcfr & Hmean & _).
  repeat split; try assumption.
  unfold continent_cfr, continent_ratio_of, continent_ratio. simpl.
  rewrite Hcfr. exact Hmean.
Qed.

(** The theorem at a run of the EDA branch on a table with a negative and
    a missing count. *)
Lemma cleaning_is_only_described_witness :
  exists t s',
    app "📈 EDA & Charts" (mkStore january dirty_rows) = Ok (EdaView t, s')
    /\ top10 "TotalCases" dirty_rows = Ok (eda_top_confirmed t)
    /\ top10 "TotalDeaths" dirty_rows = Ok (eda_top_deaths t)
    /\ top10 "TotalRecovered" dirty_rows = Ok (eda_top_recovered t)
    /\ continent_cfr dirty_rows = Ok (eda_continent_cfr t).
Proof.
  assert (exists t s', app "📈 EDA & Charts" (mkStore january dirty_rows)
                       = Ok (EdaView t, s')) as (t & s' & E).
  { eexists. eexists. vm_compute. reflexivity. }
  exists t, s'. split; [exact E|].
  exact (proj2 (cleaning_is_only_described (mkStore january dirty_rows)) t s' E).
Defined.

(** C3, as stated, fails: a table loaded with a negative total_cases and a
    missing total_deaths is the same table after the Data Cleaning branch,
    and these rows are in the rankings of the EDA branch. *)
Lemma uncleaned_rows_reach_the_rankings :
  app "🧹 Data Cleaning" (mkStore january dirty_rows)
  = Ok (CleaningView 0 0, mkStore january dirty_rows)
  /\ exists t s',
       app "📈 EDA & Charts" (mkStore january dirty_rows) = Ok (EdaView t, s')
       /\ sel_frame (eda_top_confirmed t) !! "TotalCases"
          = Some (ColNum [Fin 100; Fin (-5)])
       /\ sel_frame (eda_top_deaths t) !! "TotalDeaths"
          = Some (ColNum [Fin 10; NaN]).
Proof.
  split; [vm_compute; reflexivity|].
  eexists. eexists. split; [vm_compute; reflexivity|].
  split; vm_compute; reflexivity.
Qed.

(** *** The grouped sums *)

Lemma filter_ext_eq {A : Type} (f g : A -> bool) (l : list A) :
  (forall x, f x = g x) -> List.filter f l = List.filter g l.
Proof.
  intros H. induction l as [|x l IH]; simpl; [reflexivity|].
  now rewrite H, IH.
Qed.

Lemma zip_map_l {A B C : Type} (f : A -> B) (l : list A) (k : list C) :
  zip (map f l) k = map (fun p => (f (fst p), snd p)) (zip l k).
Proof.
  revert k. induction l as [|x l IH]; intros [|y k]; simpl; try reflexivity.
  now rewrite IH.
Qed.

Lemma filter_map_comm {A B : Type} (f : A -> B) (p : B -> bool) (l : list A) :
  List.filter p (map f l) = map f (List.filter (fun x => p (f x)) l).
Proof.
  induction l as [|x l IH]; simpl; [reflexivity|].
  destruct (p (f x)); simpl; now rewrite IH.
Qed.

Lemma group_rows_month {V : Type} (m : period) (ds : list (option date))
    (vals : list V) :
  group_rows period_compare m (map (option_map to_period_M) ds) vals
  = month_cells m ds vals.
Proof.
  unfold group_rows, month_cells, cells_where.
  rewrite zip_map_l, filter_map_comm, map_map. simpl.
  f_equal. apply filter_ext_eq. intros [o v]. simpl.
  destruct (same_key period_compare m (option_map to_period_M o)) eqn:E.
  - apply (same_key_true _ period_compare_eq) in E.
    symmetry. now apply bool_decide_eq_true.
  - symmetry. apply bool_decide_eq_false. intros E'.
    apply (same_key_true _ period_compare_eq) in E'. congruence.
Qed.

Lemma group_rows_date {V : Type} (d : date) (ds : list (option date))
    (vals : list V) :
  group_rows date_compare d ds vals = date_cells d ds vals.
Proof.
  unfold group_rows, date_cells, cells_where. f_equal. apply filter_ext_eq. intros [o v].
  simpl. destruct (same_key date_compare d o) eqn:E.
  - apply (same_key_true _ date_compare_eq) in E.
    symmetry. now apply bool_decide_eq_true.
  - symmetry. apply bool_decide_eq_false. intros E'.
    apply (same_key_true _ date_compare_eq) in E'. congruence.
Qed.

Lemma groupby_agg_snd {K V W : Type} (cmp : K -> K -> comparison)
    (agg : list V -> W) (keys : list (option K)) (vals : list V) :
  map snd (groupby_agg cmp agg keys vals)
  = map (fun k => agg (group_rows cmp k keys vals)) (group_keys cmp keys).
Proof. unfold groupby_agg. now rewrite map_map. Qed.

(** [monthly] on a frame with parsed dates, given the sums per month of
    its three columns. *)
Lemma monthly_sums (fg : DataFrame) (ds : list (option date))
    (cc cd cr oc od or : column) :
  fg !! "Date" = Some (ColTime ds) ->
  fg !! "Confirmed" = Some cc ->
  fg !! "Deaths" = Some cd ->
  fg !! "Recovered" = Some cr ->
  sum_groups period_compare (map (option_map to_period_M) ds) cc = Ok oc ->
  sum_groups period_compare (map (option_map to_period_M) ds) cd = Ok od ->
  sum_groups period_compare (map (option_map to_period_M) ds) cr = Ok or ->
  monthly fg =
  Ok (<["Date" := ColTime (map (fun m => Some (period_start m)) (months_of ds))]>
      (<["Confirmed" := oc]> (<["Deaths" := od]> (<["Recovered" := or]> ∅)))).
Proof.
  intros Hd Hc Hdt Hr Ec Ed Er. unfold monthly, getitem. rewrite Hd. simpl.
  unfold groupby_sum, getitem. simpl. rewrite Hc, Hdt, Hr. simpl.
  rewrite Ec, Ed, Er. simpl.
  rewrite lookup_insert_eq. simpl. rewrite insert_insert_eq.
  now rewrite map_map.
Qed.

Lemma StronglySorted_map {A B : Type} (R : A -> A -> Prop) (S : B -> B -> Prop)
    (f : A -> B) (l : list A) :
  (forall a b, R a b -> S (f a) (f b)) ->
  StronglySorted R l -> StronglySorted S (map f l).
Proof.
  intros Hf. induction 1 as [|x l Hs IH Hx]; simpl; constructor; [exact IH|].
  apply List.Forall_forall. intros y Hy. apply in_map_iff in Hy as (a & <- & Ha).
  apply Hf. rewrite List.Forall_forall in Hx. now apply Hx.
Qed.

Lemma In_months_of (m : period) (ds : list (option date)) :
  In m (months_of ds) <-> exists d, In (Some d) ds /\ to_period_M d = m.
Proof.
  unfold months_of. rewrite (In_group_keys _ period_compare_eq), in_map_iff.
  split.
  - intros ([d|] & E & Hin); [|discriminate]. injection E as <-. eauto.
  - intros (d & Hin & <-). exists (Some d). auto.
Qed.

Lemma months_of_sorted (ds : list (option date)) :
  StronglySorted (key_lt period_compare) (months_of ds).
Proof.
  apply group_keys_sorted.
  - apply period_compare_eq.
  - apply period_compare_antisym.
  - apply period_compare_trans.
Qed.

(** The key of the monthly groups is the year and the month of the date. *)
Lemma month_cells_of_month {V : Type} (p : period) (ds : list (option date))
    (vals : list V) :
  month_cells p ds vals = cells_of_month p ds vals.
Proof.
  unfold month_cells, cells_of_month, cells_where. f_equal.
  apply filter_ext_eq. intros [[[y m d]|] v]; destruct p as [py pm]; simpl.
  - destruct (Z.eqb_spec y py) as [->|Hy], (Z.eqb_spec m pm) as [->|Hm]; simpl.
    + now apply bool_decide_eq_true.
    + apply bool_decide_eq_false. intros [= E]. contradiction.
    + apply bool_decide_eq_false. intros [= E]. contradiction.
    + apply bool_decide_eq_false. intros [= E]. contradiction.
  - reflexivity.
Qed.

Lemma In_months (p : period) (ds : list (option date)) :
  In p (months_of ds)
  <-> exists d, In (Some d) ds /\ year d = pyear p /\ month d = pmonth p.
Proof.
  rewrite In_months_of. split.
  - intros (d & Hd & <-). exists d. auto.
  - intros (d & Hd & Hy & Hm). exists d. split; [exact Hd|].
    destruct p. unfold to_period_M. simpl in *. now subst.
Qed.

Lemma period_lt_month_before (p q : period) :
  key_lt period_compare p q -> month_before p q.
Proof.
  unfold key_lt, period_compare, month_before. rewrite lex_Lt.
  rewrite !Z.compare_lt_iff, Z.compare_eq_iff. tauto.
Qed.

Lemma int64_wrap_add (x y : Z) :
  int64_wrap (int64_wrap x + y) = int64_wrap (x + y).
Proof.
  unfold int64_wrap. f_equal.
  replace ((x + 2 ^ 63) mod 2 ^ 64 - 2 ^ 63 + y + 2 ^ 63)%Z
    with ((x + 2 ^ 63) mod 2 ^ 64 + y)%Z by ring.
  rewrite Zplus_mod_idemp_l. f_equal. ring.
Qed.

Lemma int_sum_from (l : list Z) (a : Z) :
  fold_left (fun acc v => int64_wrap (acc + v)) l (int64_wrap a)
  = int64_wrap (a + Zsum l).
Proof.
  revert a. induction l as [|x l IH]; intros a; simpl.
  - now rewrite Z.add_0_r.
  - rewrite int64_wrap_add, IH. f_equal. ring.
Qed.

(** The accumulated sum of int64 cells is their sum modulo 2^64. *)
Lemma int_sum_wrap (l : list Z) : int_sum l = int64_wrap (Zsum l).
Proof. unfold int_sum. exact (int_sum_from l 0). Qed.

Lemma int64_wrap_small (z : Z) : in_int64 z -> int64_wrap z = z.
Proof.
  unfold in_int64, int64_wrap, int64_max. intros H.
  rewrite Z.mod_small; lia.
Qed.

Lemma sum_groups_by_month (ds : list (option date)) (c : column) :
  is_numeric c ->
  sum_groups period_compare (map (option_map to_period_M) ds) c
  = Ok (month_sums (months_of ds) ds c).
Proof.
  destruct c; simpl; try tauto; intros _; rewrite groupby_agg_snd;
    do 2 f_equal; apply map_ext; intros m;
    rewrite group_rows_month, month_cells_of_month; [reflexivity|].
  apply int_sum_wrap.
Qed.

Lemma monthly_by_month (fg : DataFrame) (ds : list (option date))
    (cc cd cr : column) :
  fg !! "Date" = Some (ColTime ds) ->
  fg !! "Confirmed" = Some cc -> is_numeric cc ->
  fg !! "Deaths" = Some cd -> is_numeric cd ->
  fg !! "Recovered" = Some cr -> is_numeric cr ->
  monthly fg =
  Ok (<["Date" := ColTime (map (fun m => Some (period_start m)) (months_of ds))]>
      (<["Confirmed" := month_sums (months_of ds) ds cc]>
      (<["Deaths" := month_sums (months_of ds) ds cd]>
      (<["Recovered" := month_sums (months_of ds) ds cr]> ∅)))).
Proof.
  intros Hd Hc Nc Hdt Nd Hr Nr.
  apply (monthly_sums fg ds cc cd cr); try assumption;
    now apply sum_groups_by_month.
Qed.

(** C5 (amended).  On a time series with parsed dates, [monthly] has one
    row per calendar month present in the dates, and no other: the group
    of a record is the year and the month of its date, and a record
    without date is in no group.  The rows are in strictly ascending order
    of month, so no month occurs twice.  The row of a month holds, for
    each of Confirmed, Deaths and Recovered, the sum of the column over
    the records of that month, whatever their country, in the arithmetic
    of the column: the float64 sum, missing cells skipped, for a float64
    column; the sum modulo 2^64 for an int64 column, which is the sum
    whenever that lies within int64.  On the series of three countries
    with 100 confirmed cases each in January 2020 the EDA branch yields
    the single row of 2020-01 with the sum 300. *)
Theorem monthly_global_trend :
  (forall (fg : DataFrame) (ds : list (option date)),
     fg !! "Date" = Some (ColTime ds) ->
     (forall name, In name monthly_columns ->
        exists c, fg !! name = Some c /\ is_numeric c) ->
     exists mon,
       monthly fg = Ok mon
       /\ mon !! "Date"
          = Some (ColTime (map (fun p => Some (mkdate (pyear p) (pmonth p) 1))
                             (months_of ds)))
       /\ (forall name c, In name monthly_columns -> fg !! name = Some c ->
             mon !! name = Some (month_sums (months_of ds) ds c))
       /\ (forall p, In p (months_of ds)
                     <-> exists d, In (Some d) ds
                                   /\ year d = pyear p /\ month d = pmonth p)
       /\ StronglySorted month_before (months_of ds)
       /\ List.NoDup (months_of ds))
  /\ (forall z, in_int64 z -> int64_wrap z = z)
  /\ (exists t s',
        app "📈 EDA & Charts" (mkStore three_countries two_rows_int)
        = Ok (EdaView t, s')
        /\ eda_monthly t !! "Date" = Some (ColTime [Some (mkdate 2020 1 1)])
        /\ eda_monthly t !! "Confirmed" = Some (ColInt [300%Z])).
Proof.
  split; [|split].
  - intros fg ds Hd Hcols.
    destruct (Hcols "Confirmed") as (cc & Hc & Nc); [simpl; tauto|].
    destruct (Hcols "Deaths") as (cd & Hdt & Nd); [simpl; tauto|].
    destruct (Hcols "Recovered") as (cr & Hr & Nr); [simpl; tauto|].
    eexists. split.
    { apply (monthly_by_month fg ds cc cd cr); assumption. }
    split; [now rewrite lookup_insert_eq|].
    split.
    { intros name c Hn Hf. unfold monthly_columns in Hn. simpl in Hn.
      destruct Hn as [<-|[<-|[<-|[]]]];
        rewrite !lookup_insert_ne, lookup_insert_eq by discriminate; congruence. }
    split; [intros p; apply In_months|].
    split.
    + replace (months_of ds) with (map (fun p : period => p) (months_of ds))
        by apply List.map_id.
      apply (StronglySorted_map (key_lt period_compare) month_before).
      * apply period_lt_month_before.
      * apply months_of_sorted.
    + apply (sorted_NoDup period_compare period_compare_eq).
      apply months_of_sorted.
  - apply int64_wrap_small.
  - eexists. eexists. split; [vm_compute; reflexivity|].
    split; vm_compute; reflexivity.
Qed.

(** The general part of the theorem on a series over two months: the
    record of February and the records of January are summed apart, the
    record without date is in no sum, the missing cell is skipped. *)
Lemma monthly_global_trend_witness :
  exists mon,
    monthly two_months = Ok mon
    /\ mon !! "Date"
       = Some (ColTime [Some (mkdate 2020 1 1); Some (mkdate 2020 2 1)])
    /\ mon !! "Confirmed" = Some (ColInt [200; 7]%Z)
    /\ mon !! "Deaths" = Some (ColNum [Fin 3; Fin 0]).
Proof.
  destruct (proj1 monthly_global_trend two_months
              [Some (mkdate 2020 2 1); Some (mkdate 2020 1 22); None;
               Some (mkdate 2020 1 23)])
    as (mon & Hm & Hd & Hs & _).
  - vm_compute. reflexivity.
  - intros name Hn. simpl in Hn.
    destruct Hn as [<-|[<-|[<-|[]]]]; eexists; (split; [vm_compute; reflexivity|exact I]).
  - exists mon. split; [exact Hm|]. split; [exact Hd|].
    split.
    + apply (Hs "Confirmed" (ColInt [7; 100; 5; 100]%Z)); [simpl; tauto|].
      vm_compute. reflexivity.
    + apply (Hs "Deaths" (ColNum [NaN; Fin 1; Fin 4; Fin 2])); [simpl; tauto|].
      vm_compute. reflexivity.
Defined.

(** C5, as stated, fails: two records of January 2020 with 2^62 confirmed
    cases each are summed to -2^63 in the int64 column that [read_csv]
    makes of these counts, not to 2^63. *)
Lemma monthly_sum_wraps :
  (4611686018427387904 + 4611686018427387904 = 9223372036854775808)%Z
  /\ exists t s',
       app "📈 EDA & Charts" (mkStore huge_counts two_rows_int)
       = Ok (EdaView t, s')
       /\ eda_monthly t !! "Date" = Some (ColTime [Some (mkdate 2020 1 1)])
       /\ eda_monthly t !! "Confirmed"
          = Some (ColInt [-9223372036854775808]%Z).
Proof.
  split; [reflexivity|].
  eexists. eexists. split; [vm_compute; reflexivity|].
  split; vm_compute; reflexivity.
Qed.

(** [global_time] on a frame with parsed dates, given the sums per date of
    its two columns. *)
Lemma global_time_sums (fg : DataFrame) (ds : list (option date))
    (cc cd oc od : column) :
  fg !! "Date" = Some (ColTime ds) ->
  fg !! "New cases" = Some cc ->
  fg !! "New deaths" = Some cd ->
  sum_groups date_compare ds cc = Ok oc ->
  sum_groups date_compare ds cd = Ok od ->
  global_time fg =
  Ok (<["Date" := ColTime (map Some (dates_of ds))]>
      (<["New cases" := oc]> (<["New deaths" := od]> ∅))).
Proof.
  intros Hd Hc Hn Ec Ed. unfold global_time, getitem. rewrite Hd. simpl.
  unfold groupby_sum, getitem. simpl. rewrite Hc, Hn. simpl.
  now rewrite Ec, Ed.
Qed.

Lemma sum_groups_by_date (ds : list (option date)) (c : column) :
  is_numeric c ->
  sum_groups date_compare ds c = Ok (date_sums (dates_of ds) ds c).
Proof.
  destruct c; simpl; try tauto; intros _; rewrite groupby_agg_snd;
    do 2 f_equal; apply map_ext; intros d;
    rewrite group_rows_date; [reflexivity|].
  apply int_sum_wrap.
Qed.

Lemma global_time_by_date (fg : DataFrame) (ds : list (option date))
    (cc cd : column) :
  fg !! "Date" = Some (ColTime ds) ->
  fg !! "New cases" = Some cc -> is_numeric cc ->
  fg !! "New deaths" = Some cd -> is_numeric cd ->
  global_time fg =
  Ok (<["Date" := ColTime (map Some (dates_of ds))]>
      (<["New cases" := date_sums (dates_of ds) ds cc]>
      (<["New deaths" := date_sums (dates_of ds) ds cd]> ∅))).
Proof.
  intros Hd Hc Nc Hn Nn.
  apply (global_time_sums fg ds cc cd); try assumption;
    now apply sum_groups_by_date.
Qed.

Lemma global_time_numeric (fg : DataFrame) (ds : list (option date))
    (nc nd : list float64) :
  fg !! "Date" = Some (ColTime ds) ->
  fg !! "New cases" = Some (ColNum nc) ->
  fg !! "New deaths" = Some (ColNum nd) ->
  global_time fg =
  Ok (<["Date" := ColTime (map Some (dates_of ds))]>
      (<["New cases" :=
           ColNum (map (fun d => nansum (date_cells d ds nc)) (dates_of ds))]>
      (<["New deaths" :=
           ColNum (map (fun d => nansum (date_cells d ds nd)) (dates_of ds))]>
       ∅))).
Proof.
  intros Hd Hc Hn.
  exact (global_time_by_date fg ds (ColNum nc) (ColNum nd) Hd Hc I Hn I).
Qed.

(** *** Missing cells in a sum *)

Lemma feq_refl (x : float64) : feq x x.
Proof. destruct x; simpl; auto; reflexivity. Qed.

Lemma feq_sym (x y : float64) : feq x y -> feq y x.
Proof. destruct x, y; simpl; try tauto; intros E; now symmetry. Qed.

Lemma feq_trans (x y z : float64) : feq x y -> feq y z -> feq x z.
Proof.
  destruct x, y, z; simpl; try tauto; intros H1 H2; now rewrite H1.
Qed.

Lemma fadd_feq_l (a a' b : float64) : feq a a' -> feq (fadd a b) (fadd a' b).
Proof.
  destruct a, a', b; simpl; try tauto; intros H;
    rewrite ?Qred_correct;
    first [ exact H | reflexivity | now rewrite H | now rewrite <- H
          | rewrite H; ring | rewrite <- H; ring ].
Qed.

Lemma fadd_zero_r (a : float64) : feq (fadd a (Fin 0)) a.
Proof.
  destruct a; simpl; auto; rewrite ?Qred_correct; try reflexivity. ring.
Qed.

Lemma fadd_zero_l (v : float64) : isnan v = false -> feq (fadd (Fin 0) v) v.
Proof.
  destruct v; simpl; try discriminate; auto; intros _;
    rewrite ?Qred_correct; try reflexivity. ring.
Qed.

Lemma nansum_from_fillna (l : list float64) (a a' : float64) :
  feq a a' ->
  feq (fold_left nansum_step (map fillna0 l) a) (fold_left nansum_step l a').
Proof.
  revert a a'. induction l as [|x l IH]; intros a a' H; simpl; [exact H|].
  apply IH. destruct x; simpl; try (now apply fadd_feq_l).
  apply (feq_trans _ a); [apply fadd_zero_r|exact H].
Qed.

(** Filling the missing cells of a group with 0 does not change its sum. *)
Lemma nansum_fillna (l : list float64) :
  feq (nansum (map fillna0 l)) (nansum l).
Proof. apply nansum_from_fillna. apply feq_refl. Qed.

Lemma nansum_from_missing (l : list float64) (acc : float64) :
  Forall (fun x => isnan x = true) l -> fold_left nansum_step l acc = acc.
Proof.
  revert acc. induction l as [|x l IH]; intros acc H; [reflexivity|].
  inversion H as [|? ? Hx Hl]; subst. simpl. unfold nansum_step at 2.
  rewrite Hx. now apply IH.
Qed.

(** A missing cell is skipped: the sum of a group is the sum of its cells
    that are not missing. *)
Lemma nansum_skips (l : list float64) :
  nansum l = nansum (List.filter notnan l).
Proof. unfold nansum. now rewrite nansum_filter. Qed.

(** The sum of a group with a single cell that is not missing is that
    cell. *)
Lemma nansum_single (l : list float64) (v : float64) :
  List.filter notnan l = [v] -> feq (nansum l) v.
Proof.
  intros H. rewrite nansum_skips, H. unfold nansum. simpl.
  assert (isnan v = false) as Hv.
  { assert (In v (List.filter notnan l)) as Hin by (rewrite H; now left).
    apply filter_In in Hin as [_ Hin]. unfold notnan in Hin.
    now destruct (isnan v). }
  unfold nansum_step. rewrite Hv. now apply fadd_zero_l.
Qed.

Lemma nansum_from_NaN (l : list float64) : fold_left nansum_step l NaN = NaN.
Proof.
  induction l as [|x l IH]; [reflexivity|]. simpl.
  unfold nansum_step at 2. now destruct (isnan x).
Qed.

Lemma nansum_from_PInf_NInf (l : list float64) :
  In NInf l -> fold_left nansum_step l PInf = NaN.
Proof.
  induction l as [|x l IH]; intros Hin; [destruct Hin|]. simpl.
  destruct Hin as [->|Hin]; [apply nansum_from_NaN|].
  destruct x; simpl; try (now apply IH). apply nansum_from_NaN.
Qed.

Lemma nansum_from_NInf_PInf (l : list float64) :
  In PInf l -> fold_left nansum_step l NInf = NaN.
Proof.
  induction l as [|x l IH]; intros Hin; [destruct Hin|]. simpl.
  destruct Hin as [->|Hin]; [apply nansum_from_NaN|].
  destruct x; simpl; try (now apply IH). apply nansum_from_NaN.
Qed.

Lemma nansum_from_opposite (l : list float64) (acc : float64) :
  isfinite acc = true -> In PInf l -> In NInf l ->
  fold_left nansum_step l acc = NaN.
Proof.
  revert acc. induction l as [|x l IH]; intros acc Ha Hp Hn; [destruct Hp|].
  simpl. destruct x.
  - apply IH; [exact Ha| |].
    + destruct Hp as [Hp|Hp]; [discriminate|exact Hp].
    + destruct Hn as [Hn|Hn]; [discriminate|exact Hn].
  - assert (nansum_step acc PInf = PInf) as -> by (now destruct acc).
    apply nansum_from_PInf_NInf.
    destruct Hn as [Hn|Hn]; [discriminate|exact Hn].
  - assert (nansum_step acc NInf = NInf) as -> by (now destruct acc).
    apply nansum_from_NInf_PInf.
    destruct Hp as [Hp|Hp]; [discriminate|exact Hp].
  - apply IH.
    + now destruct acc.
    + destruct Hp as [Hp|Hp]; [discriminate|exact Hp].
    + destruct Hn as [Hn|Hn]; [discriminate|exact Hn].
  - apply IH.
    + now destruct acc.
    + destruct Hp as [Hp|Hp]; [discriminate|exact Hp].
    + destruct Hn as [Hn|Hn]; [discriminate|exact Hn].
Qed.

(** A group holding both infinities has no sum: inf - inf is [NaN]. *)
Lemma nansum_opposite_infinities (l : list float64) :
  In PInf l -> In NInf l -> nansum l = NaN.
Proof. now apply nansum_from_opposite. Qed.

Lemma nansum_from_finite (l : list float64) (acc : float64) :
  isfinite acc = true ->
  Forall num_or_missing l ->
  isfinite (fold_left nansum_step l acc) = true.
Proof.
  revert acc. induction l as [|x l IH]; intros acc Ha H; [exact Ha|].
  inversion H as [|? ? Hx Hl]; subst. simpl. apply IH; [|exact Hl].
  destruct x; simpl in *; try tauto; now destruct acc.
Qed.

Lemma nansum_finite (l : list float64) :
  Forall num_or_missing l -> isfinite (nansum l) = true.
Proof. now apply nansum_from_finite. Qed.

Lemma small_num_or_missing (x : float64) : small_or_missing x -> num_or_missing x.
Proof. now destruct x. Qed.

Lemma cells_where_map {D V W : Type} (p : option D -> bool) (f : V -> W)
    (ds : list (option D)) (vals : list V) :
  cells_where p ds (map f vals) = map f (cells_where p ds vals).
Proof.
  unfold cells_where. revert vals.
  induction ds as [|d ds IH]; intros [|v vals]; simpl; try reflexivity.
  destruct (p d); simpl; now rewrite IH.
Qed.

Lemma sums_fillna_agree {D G : Type} (p : G -> option D -> bool)
    (ds : list (option D)) (vals : list float64) (groups : list G) :
  Forall2 feq
    (map (fun g => nansum (cells_where (p g) ds vals)) groups)
    (map (fun g => nansum (cells_where (p g) ds (map fillna0 vals))) groups).
Proof.
  induction groups as [|g groups IH]; simpl; constructor; [|exact IH].
  rewrite cells_where_map. apply feq_sym, nansum_fillna.
Qed.

Lemma fillna_frame_lookup (fg : DataFrame) (name : string) (c : column) :
  fg !! name = Some c -> (fillna0_col <$> fg) !! name = Some (fillna0_col c).
Proof. intros H. now rewrite lookup_fmap, H. Qed.

Lemma fillna_numeric (c : column) : is_numeric c -> is_numeric (fillna0_col c).
Proof. now destruct c. Qed.

Lemma month_sums_fillna (ms : list period) (ds : list (option date)) (c : column) :
  same_values (month_sums ms ds c) (month_sums ms ds (fillna0_col c)).
Proof.
  destruct c; simpl; try reflexivity.
  apply (sums_fillna_agree (fun p => in_month (pyear p) (pmonth p))).
Qed.

Lemma date_sums_fillna (dates : list date) (ds : list (option date)) (c : column) :
  same_values (date_sums dates ds c) (date_sums dates ds (fillna0_col c)).
Proof.
  destruct c; simpl; try reflexivity.
  apply (sums_fillna_agree (fun d o => bool_decide (o = Some d))).
Qed.

(** C10 (amended).  In the grouped sums of [monthly] and [global_time] a
    missing cell of a summed column is skipped: on a time series with
    parsed dates and numeric columns, the sums are those the zero-filled
    table gives, and the sum of a float64 column over a group is the sum
    of the cells of the group that are not missing (an int64 column holds
    no missing cell).  So the sum of a group whose cells are all missing
    is 0, and the sum of a group with one cell that is not missing is that
    cell.  The sum is not always a defined number: a group holding +inf
    and -inf has the sum NaN.  It is a number when every cell of the group
    is missing or a number of magnitude at most 2^53. *)
Theorem missing_cell_adds_zero :
  (forall (fg : DataFrame) (ds : list (option date)),
     fg !! "Date" = Some (ColTime ds) ->
     (forall name, In name (monthly_columns ++ daily_columns) ->
        exists c, fg !! name = Some c /\ is_numeric c) ->
     exists mon mon0 gtime gtime0,
       monthly fg = Ok mon
       /\ monthly (fillna0_col <$> fg) = Ok mon0
       /\ global_time fg = Ok gtime
       /\ global_time (fillna0_col <$> fg) = Ok gtime0
       /\ (forall name, In name monthly_columns ->
             exists a b, mon !! name = Some a /\ mon0 !! name = Some b
                         /\ same_values a b)
       /\ (forall name, In name daily_columns ->
             exists a b, gtime !! name = Some a /\ gtime0 !! name = Some b
                         /\ same_values a b)
       /\ (forall name l, In name monthly_columns ->
             fg !! name = Some (ColNum l) ->
             mon !! name
             = Some (ColNum (map (fun p => nansum (List.filter notnan
                                                     (cells_of_month p ds l)))
                                 (months_of ds))))
       /\ (forall name l, In name daily_columns ->
             fg !! name = Some (ColNum l) ->
             gtime !! name
             = Some (ColNum (map (fun d => nansum (List.filter notnan
                                                     (date_cells d ds l)))
                                 (dates_of ds)))))
  /\ (forall l, Forall (fun x => isnan x = true) l -> nansum l = Fin 0)
  /\ (forall l v, List.filter notnan l = [v] -> feq (nansum l) v)
  /\ (forall l, In PInf l -> In NInf l -> nansum l = NaN)
  /\ (forall l, Forall small_or_missing l -> isfinite (nansum l) = true).
Proof.
  split; [|split; [|split; [|split]]].
  - intros fg ds Hd Hcols.
    destruct (Hcols "Confirmed") as (cc & Hcc & Ncc); [simpl; tauto|].
    destruct (Hcols "Deaths") as (cd & Hcd & Ncd); [simpl; tauto|].
    destruct (Hcols "Recovered") as (cr & Hcr & Ncr); [simpl; tauto|].
    destruct (Hcols "New cases") as (nc & Hnc & Nnc); [simpl; tauto|].
    destruct (Hcols "New deaths") as (nd & Hnd & Nnd); [simpl; tauto|].
    do 4 eexists.
    split; [apply (monthly_by_month fg ds cc cd cr); assumption|].
    split.
    { apply (monthly_by_month _ ds (fillna0_col cc) (fillna0_col cd) (fillna0_col cr));
        try (now apply fillna_numeric); try (now apply fillna_frame_lookup).
      apply (fillna_frame_lookup fg "Date" _ Hd). }
    split; [apply (global_time_by_date fg ds nc nd); assumption|].
    split.
    { apply (global_time_by_date _ ds (fillna0_col nc) (fillna0_col nd));
        try (now apply fillna_numeric); try (now apply fillna_frame_lookup).
      apply (fillna_frame_lookup fg "Date" _ Hd). }
    split; [|split; [|split]].
    + intros name Hn. unfold monthly_columns in Hn. simpl in Hn.
      destruct Hn as [<-|[<-|[<-|[]]]]; do 2 eexists;
        (split; [rewrite !lookup_insert_ne, lookup_insert_eq by discriminate;
                 reflexivity|]);
        (split; [rewrite !lookup_insert_ne, lookup_insert_eq by discriminate;
                 reflexivity|]);
        apply month_sums_fillna.
    + intros name Hn. unfold daily_columns in Hn. simpl in Hn.
      destruct Hn as [<-|[<-|[]]]; do 2 eexists;
        (split; [rewrite !lookup_insert_ne, lookup_insert_eq by discriminate;
                 reflexivity|]);
        (split; [rewrite !lookup_insert_ne, lookup_insert_eq by discriminate;
                 reflexivity|]);
        apply date_sums_fillna.
    + intros name l Hn Hl. unfold monthly_columns in Hn. simpl in Hn.
      assert (forall c, c = ColNum l ->
                Some (month_sums (months_of ds) ds c)
                = Some (ColNum (map (fun p => nansum (List.filter notnan
                                                        (cells_of_month p ds l)))
                                    (months_of ds)))) as E.
      { intros c ->. simpl. do 2 f_equal. apply map_ext. intros p.
        apply nansum_skips. }
      destruct Hn as [<-|[<-|[<-|[]]]];
        rewrite !lookup_insert_ne, lookup_insert_eq by discriminate;
        apply E; congruence.
    + intros name l Hn Hl. unfold daily_columns in Hn. simpl in Hn.
      assert (forall c, c = ColNum l ->
                Some (date_sums (dates_of ds) ds c)
                = Some (ColNum (map (fun d => nansum (List.filter notnan
                                                        (date_cells d ds l)))
                                    (dates_of ds)))) as E.
      { intros c ->. simpl. do 2 f_equal. apply map_ext. intros d.
        apply nansum_skips. }
      destruct Hn as [<-|[<-|[]]];
        rewrite !lookup_insert_ne, lookup_insert_eq by discriminate;
        apply E; congruence.
  - intros l Hl. unfold nansum. now apply nansum_from_missing.
  - apply nansum_single.
  - apply nansum_opposite_infinities.
  - intros l Hl. apply nansum_finite.
    eapply List.Forall_impl; [|exact Hl]. apply small_num_or_missing.
Qed.

(** The theorem on the January series with two counts not reported: the
    two confirmed counts reported add up to 200, the new deaths of the
    day without report to 0. *)
Lemma missing_cell_adds_zero_witness :
  exists mon gtime,
    monthly january_gaps = Ok mon
    /\ global_time january_gaps = Ok gtime
    /\ mon !! "Confirmed" = Some (ColNum [Fin 200])
    /\ gtime !! "New deaths" = Some (ColNum [Fin 0; Fin 1])
    /\ exists mon0, monthly (fillna0_col <$> january_gaps) = Ok mon0
                    /\ mon0 !! "Confirmed" = Some (ColNum [Fin 200]).
Proof.
  destruct (proj1 missing_cell_adds_zero january_gaps
              [Some (mkdate 2020 1 22); Some (mkdate 2020 1 22);
               Some (mkdate 2020 1 23)])
    as (mon & mon0 & gtime & gtime0 & Hm & Hm0 & Hg & _ & _ & _ & Hs & Hd).
  - vm_compute. reflexivity.
  - intros name Hn. simpl in Hn.
    destruct Hn as [<-|[<-|[<-|[<-|[<-|[]]]]]]; eexists;
      (split; [vm_compute; reflexivity|exact I]).
  - exists mon, gtime. split; [exact Hm|]. split; [exact Hg|].
    split.
    { rewrite (Hs "Confirmed" [Fin 100; NaN; Fin 100]);
        [vm_compute; reflexivity|simpl; tauto|vm_compute; reflexivity]. }
    split.
    { rewrite (Hd "New deaths" [NaN; NaN; Fin 1]);
        [vm_compute; reflexivity|simpl; tauto|vm_compute; reflexivity]. }
    exists mon0. split; [exact Hm0|].
    assert (monthly (fillna0_col <$> january_gaps)
            = Ok (<["Date" := ColTime [Some (mkdate 2020 1 1)]]>
                    (<["Confirmed" := ColNum [Fin 200]]>
                    (<["Deaths" := ColNum [Fin 3]]>
                    (<["Recovered" := ColNum [Fin 60]]> ∅))))) as E
      by (vm_compute; reflexivity).
    rewrite E in Hm0. injection Hm0 as <-. vm_compute. reflexivity.
Defined.

(** C10, as stated, fails: the two confirmed counts of January 2020 read
    from the texts inf and -inf are summed to NaN, which is no defined
    number, although no cell is missing. *)
Lemma sum_of_opposite_infinities :
  exists t s',
    app "📈 EDA & Charts" (mkStore infinite_counts two_rows_int)
    = Ok (EdaView t, s')
    /\ eda_monthly t !! "Date" = Some (ColTime [Some (mkdate 2020 1 1)])
    /\ eda_monthly t !! "Confirmed" = Some (ColNum [NaN])
    /\ isnan NaN = true.
Proof.
  eexists. eexists. split; [vm_compute; reflexivity|].
  split; [vm_compute; reflexivity|]. split; [vm_compute; reflexivity|reflexivity].
Qed.

Example january_gaps_sums :
  (let* mon := monthly january_gaps in getitem mon "Confirmed")
  = Ok (ColNum [Fin 200])
  /\ (let* gtime := global_time january_gaps in getitem gtime "New deaths")
     = Ok (ColNum [Fin 0; Fin 1]).
Proof. split; vm_compute; reflexivity. Qed.
(** *** Tables without rows *)

Lemma no_rows_insert (df : DataFrame) (name : string) (c : column) :
  col_length c = 0 -> no_rows df -> no_rows (<[name := c]> df).
Proof.
  intros Hc Hdf n col Hcol. destruct (decide (n = name)) as [->|Hne].
  - rewrite lookup_insert_eq in Hcol. now injection Hcol as <-.
  - rewrite lookup_insert_ne in Hcol by congruence. exact (Hdf n col Hcol).
Qed.

Lemma no_rows_empty : no_rows ∅.
Proof. intros n col Hcol. rewrite lookup_empty in Hcol. discriminate. Qed.

Lemma header_only_lookup (df : DataFrame) (name : string) :
  header_only df -> is_Some (df !! name) -> df !! name = Some (ColObj []).
Proof. intros H [c Hc]. now rewrite (H name c Hc) in Hc. Qed.

Lemma header_only_no_rows (df : DataFrame) : header_only df -> no_rows df.
Proof. intros H name c Hc. now rewrite (H name c Hc). Qed.

Lemma top10_object (field : string) (df : DataFrame) (cells : list (option string)) :
  df !! field = Some (ColObj cells) -> top10 field df = Raise TypeError.
Proof. intros Hf. unfold top10, nlargest, getitem. now rewrite Hf. Qed.

(** C9 (amended).  On the two tables as read from files that hold a header
    line and no row (every column of object dtype, without cell), the
    grouped sums raise nothing and have no row: line 71 turns the dates
    into a datetime column without rows, and [monthly] and [global_time]
    return frames with their columns and no row.  The mean per continent
    of either ratio is the empty series and each log transform the empty
    column.  The rankings are the exception: [nlargest] refuses a column
    of object dtype, so each of the three raises TypeError. *)
Theorem aggregations_of_empty_tables (fg wm : DataFrame) :
  header_only fg -> header_only wm ->
  (forall name, In name series_columns -> is_Some (fg !! name)) ->
  (forall name, In name snapshot_columns -> is_Some (wm !! name)) ->
  (let* c := getitem fg "Date" in to_datetime c) = Ok (ColTime [])
  /\ (exists mon, monthly (<["Date" := ColTime []]> fg) = Ok mon
                  /\ no_rows mon
                  /\ forall name, In name ("Date" :: monthly_columns) ->
                                  is_Some (mon !! name))
  /\ (exists gtime, global_time (<["Date" := ColTime []]> fg) = Ok gtime
                    /\ no_rows gtime
                    /\ forall name, In name ("Date" :: daily_columns) ->
                                    is_Some (gtime !! name))
  /\ (forall r, continent_ratio_of r wm = Ok [])
  /\ (forall field, In field log_columns ->
        log_transform field wm = Ok (ColLog []))
  /\ (forall field, In field ranked_columns ->
        top10 field wm = Raise TypeError).
Proof.
  intros Hfg Hwm Cfg Cwm.
  assert (forall name, In name series_columns -> fg !! name = Some (ColObj []))
    as Lfg by (intros name Hn; apply header_only_lookup; auto).
  assert (forall name, In name snapshot_columns -> wm !! name = Some (ColObj []))
    as Lwm by (intros name Hn; apply header_only_lookup; auto).
  unfold series_columns, monthly_columns, daily_columns in Lfg.
  unfold snapshot_columns, snapshot_counts in Lwm. simpl in Lfg, Lwm.
  split; [|split; [|split; [|split; [|split]]]].
  - unfold getitem. rewrite (Lfg "Date") by tauto. reflexivity.
  - eexists. split.
    { apply (monthly_sums _ [] (ColObj []) (ColObj []) (ColObj [])
               (ColObj []) (ColObj []) (ColObj []));
        try reflexivity;
        try (rewrite lookup_insert_ne by discriminate; apply Lfg; tauto).
      apply lookup_insert_eq. }
    split.
    + repeat (apply no_rows_insert; [reflexivity|]). apply no_rows_empty.
    + intros name Hn. unfold monthly_columns in Hn. simpl in Hn.
      destruct Hn as [<-|[<-|[<-|[<-|[]]]]];
        rewrite ?lookup_insert_ne by discriminate;
        rewrite lookup_insert_eq; eauto.
  - eexists. split.
    { apply (global_time_sums _ [] (ColObj []) (ColObj []) (ColObj []) (ColObj []));
        try reflexivity;
        try (rewrite lookup_insert_ne by discriminate; apply Lfg; tauto).
      apply lookup_insert_eq. }
    split.
    + repeat (apply no_rows_insert; [reflexivity|]). apply no_rows_empty.
    + intros name Hn. unfold daily_columns in Hn. simpl in Hn.
      destruct Hn as [<-|[<-|[<-|[]]]];
        rewrite ?lookup_insert_ne by discriminate;
        rewrite lookup_insert_eq; eauto.
  - intros r. unfold continent_ratio_of.
    rewrite (continent_ratio_values _ _ wm [] [] []);
      [reflexivity|apply ratio_column_not_Continent|apply Lwm; tauto|..].
    + exists (ColObj []). split; [|reflexivity].
      apply Lwm. destruct r; simpl; tauto.
    + exists (ColObj []). split; [|reflexivity]. apply Lwm. tauto.
  - intros field Hf. unfold log_transform, getitem.
    rewrite (Lwm field); [reflexivity|].
    unfold log_columns in Hf. simpl in Hf. tauto.
  - intros field Hf. apply (top10_object field wm []). apply Lwm.
    unfold ranked_columns in Hf. simpl in Hf. tauto.
Qed.

Lemma header_only_series_spec : header_only header_only_series.
Proof.
  intros name col H. unfold header_only_series in H.
  repeat (rewrite lookup_insert in H; case_decide;
          [now injection H as <-|]).
  rewrite lookup_empty in H. discriminate H.
Qed.

Lemma header_only_snapshot_spec : header_only header_only_snapshot.
Proof.
  intros name col H. unfold header_only_snapshot in H.
  repeat (rewrite lookup_insert in H; case_decide;
          [now injection H as <-|]).
  rewrite lookup_empty in H. discriminate H.
Qed.

(** C9, as stated, fails: the snapshot read from a file with a header line
    and no row has no row, and the ranking on it raises TypeError; so does
    the EDA branch, at line 92, on that snapshot and a populated series. *)
Lemma ranking_of_header_only_table_raises :
  header_only header_only_snapshot
  /\ no_rows header_only_snapshot
  /\ top10 "TotalCases" header_only_snapshot = Raise TypeError
  /\ app "📈 EDA & Charts" (mkStore three_countries header_only_snapshot)
     = Raise TypeError.
Proof.
  split; [apply header_only_snapshot_spec|].
  split; [apply header_only_no_rows, header_only_snapshot_spec|].
  split; vm_compute; reflexivity.
Qed.

(** The theorem on the two tables read from files with a header line
    only. *)
Lemma aggregations_of_empty_tables_witness :
  (exists mon, monthly (<["Date" := ColTime []]> header_only_series) = Ok mon
               /\ no_rows mon)
  /\ (exists gtime, global_time (<["Date" := ColTime []]> header_only_series)
                    = Ok gtime /\ no_rows gtime)
  /\ continent_ratio_of case_fatality_rate header_only_snapshot = Ok []
  /\ log_transform "TotalTests" header_only_snapshot = Ok (ColLog [])
  /\ top10 "TotalDeaths" header_only_snapshot = Raise TypeError.
Proof.
  destruct (aggregations_of_empty_tables header_only_series header_only_snapshot)
    as (_ & (mon & Hm & Hn & _) & (gtime & Hg & Hgn & _) & Hmean & Hlog & Htop).
  - apply header_only_series_spec.
  - apply header_only_snapshot_spec.
  - intros name Hn. simpl in Hn.
    destruct Hn as [<-|[<-|[<-|[<-|[<-|[<-|[]]]]]]]; eexists; vm_compute; reflexivity.
  - intros name Hn. simpl in Hn.
    destruct Hn as [<-|[<-|[<-|[<-|[<-|[<-|[]]]]]]]; eexists; vm_compute; reflexivity.
  - split; [eauto|]. split; [eauto|]. split; [apply Hmean|].
    split; [apply Hlog; simpl; tauto|apply Htop; simpl; tauto].
Defined.
(** *** The order of float cells *)

Lemma Qlt_flag_false (p q : Q) :
  match (p ?= q)%Q with Lt => true | _ => false end = false <-> (q <= p)%Q.
Proof.
  destruct (p ?= q)%Q eqn:E.
  - apply Qeq_alt in E. split; [intros _; rewrite E; apply Qle_refl|reflexivity].
  - apply Qlt_alt in E. split; [discriminate|].
    intros H. exfalso. exact (Qlt_not_le _ _ E H).
  - apply Qgt_alt in E. split; [intros _; now apply Qlt_le_weak|reflexivity].
Qed.

Lemma Qle_flag_true (p q : Q) :
  match (p ?= q)%Q with Gt => false | _ => true end = true <-> (p <= q)%Q.
Proof.
  destruct (p ?= q)%Q eqn:E.
  - apply Qeq_alt in E. split; [intros _; rewrite E; apply Qle_refl|reflexivity].
  - apply Qlt_alt in E. split; [intros _; now apply Qlt_le_weak|reflexivity].
  - apply Qgt_alt in E. split; [discriminate|].
    intros H. exfalso. exact (Qlt_not_le _ _ E H).
Qed.

Lemma fltb_asym (a b : float64) : fltb a b = true -> fltb b a = false.
Proof.
  destruct a as [| | |p|], b as [| | |q|]; simpl; try congruence;
    intros H; apply Qlt_flag_false;
    match type of H with
    | match (?x ?= ?y)%Q with _ => _ end = true =>
        destruct (x ?= y)%Q eqn:E; try discriminate;
        apply Qlt_alt in E; now apply Qlt_le_weak
    end.
Qed.

Lemma fltb_negtrans (x y z : float64) :
  isnan x = false -> isnan y = false -> isnan z = false ->
  fltb x y = false -> fltb y z = false -> fltb x z = false.
Proof.
  destruct x as [| | |p|], y as [| | |q|], z as [| | |r|];
    try discriminate; try reflexivity; intros _ _ _; simpl;
    rewrite ?Qlt_flag_false; intros H1 H2;
    first [assumption | reflexivity | eapply Qle_trans; eassumption].
Qed.

Lemma fltb_false_fleb (v w : float64) :
  isnan v = false -> isnan w = false -> fltb v w = false -> fleb w v = true.
Proof.
  destruct v as [| | |p|], w as [| | |q|]; try discriminate; try reflexivity;
    intros _ _; simpl; rewrite ?Qlt_flag_false, ?Qle_flag_true; auto.
Qed.


(** *** Sorted lists *)

Lemma StronglySorted_app {A : Type} (R : A -> A -> Prop) (l1 l2 : list A) :
  StronglySorted R l1 -> StronglySorted R l2 ->
  (forall a b, In a l1 -> In b l2 -> R a b) ->
  StronglySorted R (l1 ++ l2).
Proof.
  intros H1 H2 H. induction H1 as [|x l1 Hs IH Hx]; simpl; [exact H2|].
  constructor.
  - apply IH. intros a b Ha Hb. apply H; simpl; auto.
  - apply Forall_app. split; [exact Hx|].
    apply List.Forall_forall. intros b Hb. apply H; simpl; auto.
Qed.

Lemma StronglySorted_app_inv {A : Type} (R : A -> A -> Prop) (l1 l2 : list A) :
  StronglySorted R (l1 ++ l2) ->
  StronglySorted R l1 /\ (forall a b, In a l1 -> In b l2 -> R a b).
Proof.
  induction l1 as [|x l1 IH]; simpl; intros H.
  - split; [constructor|]. intros a b [].
  - inversion H as [|? ? Hs Hx]; subst. destruct (IH Hs) as [IH1 IH2].
    apply Forall_app in Hx as [Hx1 Hx2]. split; [now constructor|].
    intros a b [<-|Ha] Hb.
    + rewrite List.Forall_forall in Hx2. now apply Hx2.
    + now apply IH2.
Qed.

Lemma StronglySorted_filter {A : Type} (R : A -> A -> Prop) (f : A -> bool)
    (l : list A) :
  StronglySorted R l -> StronglySorted R (List.filter f l).
Proof.
  induction 1 as [|x l Hs IH Hx]; simpl; [constructor|].
  destruct (f x); [|exact IH]. constructor; [exact IH|].
  apply List.Forall_forall. intros y Hy. apply filter_In in Hy as [Hy _].
  rewrite List.Forall_forall in Hx. now apply Hx.
Qed.

Lemma StronglySorted_weaken {A : Type} (R S : A -> A -> Prop) (P : A -> Prop)
    (l : list A) :
  (forall a b, P a -> P b -> R a b -> S a b) ->
  Forall P l -> StronglySorted R l -> StronglySorted S l.
Proof.
  intros HRS HP Hs. induction Hs as [|x l Hs IH Hx]; [constructor|].
  inversion HP as [|? ? Px Pl]; subst. constructor; [now apply IH|].
  rewrite List.Forall_forall in *. intros y Hy.
  apply HRS; auto.
Qed.

(** *** The labelled cells of a column *)

Lemma indexed_from (k : nat) (l : list float64) :
  StronglySorted row_before (zip (seq k (length l)) l)
  /\ (forall i v, In (i, v) (zip (seq k (length l)) l)
                  <-> k <= i /\ l !! (i - k) = Some v).
Proof.
  revert k. induction l as [|x l IH]; intros k; simpl.
  - split; [constructor|]. intros i v. split; [intros []|].
    intros [_ H]. discriminate.
  - destruct (IH (S k)) as [IH1 IH2]. split.
    + constructor; [exact IH1|]. apply List.Forall_forall. intros [j w] Hj.
      apply IH2 in Hj as [Hj _]. unfold row_before. simpl. lia.
    + intros i v. split.
      * intros [[= <- <-]|H].
        -- split; [lia|]. now rewrite Nat.sub_diag.
        -- apply IH2 in H as [H1 H2]. split; [lia|].
           replace (i - k) with (S (i - S k)) by lia. exact H2.
      * intros [H1 H2]. destruct (decide (i = k)) as [->|Hne].
        -- rewrite Nat.sub_diag in H2. injection H2 as <-. now left.
        -- right. apply IH2. split; [lia|].
           replace (i - k) with (S (i - S k)) in H2 by lia. exact H2.
Qed.

Lemma indexed_sorted (l : list float64) : StronglySorted row_before (indexed l).
Proof. apply (indexed_from 0 l). Qed.

Lemma In_indexed (l : list float64) (i : nat) (v : float64) :
  In (i, v) (indexed l) <-> l !! i = Some v.
Proof.
  unfold indexed. rewrite (proj2 (indexed_from 0 l)), Nat.sub_0_r.
  split; [tauto|]. split; [lia|assumption].
Qed.


(** *** The descending stable ranking *)

Lemma insert_desc_sorted (x : nat * float64) (s : list (nat * float64)) :
  isnan (snd x) = false ->
  Forall (fun e => isnan (snd e) = false) s ->
  Forall (row_before x) s ->
  StronglySorted desc_before s ->
  StronglySorted desc_before (insert_desc x s).
Proof.
  intros Hx Hnan Hrow Hs. induction Hs as [|y s Hs IH Hy]; simpl.
  - repeat constructor.
  - inversion Hnan as [|? ? Ny Ns]; subst.
    inversion Hrow as [|? ? Ry Rs]; subst.
    destruct (fltb (snd x) (snd y)) eqn:E.
    + constructor; [now apply IH|].
      apply List.Forall_forall. intros z Hz.
      apply (Permutation_in _ (insert_desc_perm x s)) in Hz as [<-|Hz].
      * unfold desc_before. rewrite Ny, Hx. now left.
      * rewrite List.Forall_forall in Hy. now apply Hy.
    + constructor; [now constructor|].
      constructor.
      * unfold desc_before. rewrite Hx, Ny. right. split; assumption.
      * rewrite List.Forall_forall in *. intros z Hz.
        pose proof (Ns z Hz) as Nz. pose proof (Rs z Hz) as Rz.
        specialize (Hy z Hz). unfold desc_before in *.
        rewrite Ny, Nz in Hy. rewrite Hx, Nz. right. split; [|exact Rz].
        apply (fltb_negtrans _ (snd y)); auto.
        destruct Hy as [Hy|[Hy _]]; [now apply fltb_asym|exact Hy].
Qed.

Lemma sort_desc_sorted (s : list (nat * float64)) :
  Forall (fun e => isnan (snd e) = false) s ->
  StronglySorted row_before s ->
  StronglySorted desc_before (sort_desc s).
Proof.
  intros Hnan Hs. induction Hs as [|x s Hs IH Hx]; simpl; [constructor|].
  inversion Hnan as [|? ? Nx Ns]; subst.
  apply insert_desc_sorted; auto.
  - rewrite Forall_forall in *. intros e He. apply Ns.
    apply list_elem_of_In. apply list_elem_of_In in He.
    exact (Permutation_in _ (sort_desc_perm s) He).
  - rewrite List.Forall_forall in *. intros e He. apply Hx.
    exact (Permutation_in _ (sort_desc_perm s) He).
Qed.

Lemma sort_values_desc_sorted (s : list (nat * float64)) :
  StronglySorted row_before s ->
  StronglySorted desc_before (sort_values_desc s).
Proof.
  intros Hs. unfold sort_values_desc. apply StronglySorted_app.
  - apply sort_desc_sorted.
    + apply Forall_forall. intros e He. apply list_elem_of_In, filter_In in He.
      destruct He as [_ He]. unfold notnan in He. now apply negb_true_iff.
    + now apply StronglySorted_filter.
  - apply (StronglySorted_weaken row_before desc_before
             (fun e => isnan (snd e) = true)).
    + intros a b Ha Hb H. unfold desc_before. now rewrite Ha, Hb.
    + apply Forall_forall. intros e He. apply list_elem_of_In, filter_In in He.
      tauto.
    + now apply StronglySorted_filter.
  - intros a b Ha Hb.
    apply (Permutation_in _ (sort_desc_perm _)), filter_In in Ha as [_ Ha].
    apply filter_In in Hb as [_ Hb].
    unfold notnan in Ha. apply negb_true_iff in Ha.
    unfold desc_before. now rewrite Ha, Hb.
Qed.


Lemma nlargest_series_split (n : nat) (l : list float64) :
  sort_values_desc (indexed l)
  = (nlargest_series n l ++ skipn n (sort_values_desc (indexed l)))%list.
Proof. unfold nlargest_series. symmetry. apply firstn_skipn. Qed.

Lemma nlargest_series_length (n : nat) (l : list float64) :
  length (nlargest_series n l) = min n (length l).
Proof.
  unfold nlargest_series. rewrite length_firstn.
  rewrite (Permutation_length (sort_values_desc_perm (indexed l))).
  unfold indexed. rewrite length_zip, length_seq. lia.
Qed.

Lemma nlargest_series_rows (n : nat) (l : list float64) (i : nat) (v : float64) :
  In (i, v) (nlargest_series n l) -> l !! i = Some v.
Proof.
  intros H. apply In_indexed.
  apply (Permutation_in _ (sort_values_desc_perm (indexed l))).
  rewrite (nlargest_series_split n l). apply in_or_app. now left.
Qed.


Lemma nlargest_series_sorted (n : nat) (l : list float64) :
  StronglySorted desc_before (nlargest_series n l)
  /\ (forall a b, In a (nlargest_series n l) ->
                  In b (skipn n (sort_values_desc (indexed l))) ->
                  desc_before a b).
Proof.
  apply StronglySorted_app_inv. rewrite <- nlargest_series_split.
  apply sort_values_desc_sorted, indexed_sorted.
Qed.

Lemma not_returned (n : nat) (l : list float64) (j : nat) (w : float64) :
  l !! j = Some w -> ~ In j (map fst (nlargest_series n l)) ->
  In (j, w) (skipn n (sort_values_desc (indexed l))).
Proof.
  intros Hj Hnot. apply In_indexed in Hj.
  apply (Permutation_in _ (Permutation_sym (sort_values_desc_perm (indexed l)))) in Hj.
  rewrite (nlargest_series_split n l) in Hj.
  apply in_app_or in Hj as [Hj|Hj]; [|exact Hj].
  exfalso. apply Hnot. apply in_map_iff. exists (j, w). auto.
Qed.




Example top10_tied_rows :
  exists sel,
    top10 "TotalCases" tied_rows = Ok sel
    /\ sel_index sel = [1; 3; 0; 2]
    /\ sel_frame sel !! "TotalCases" = Some (ColNum [Fin 9; Fin 9; Fin 7; NaN])
    /\ sel_frame sel !! "Country/Region"
       = Some (ColObj [Some "Q"; Some "S"; Some "P"; Some "R"]).
Proof.
  eexists. split; [vm_compute; reflexivity|].
  split; [reflexivity|]. split; vm_compute; reflexivity.
Qed.

(** *** The log transform *)

Lemma ln10_pos : (0 < ln 10)%R.
Proof. rewrite <- ln_1. apply ln_increasing; lra. Qed.

Lemma log10_le (x y : R) : (0 < x)%R -> (x <= y)%R -> (log10 x <= log10 y)%R.
Proof.
  intros Hx Hxy. unfold log10.
  apply Rmult_le_compat_r.
  - left. apply Rinv_0_lt_compat, ln10_pos.
  - destruct Hxy as [Hlt| ->]; [|lra]. left. now apply ln_increasing.
Qed.

Lemma Q2R_succ (v : Q) : Q2R (Qred (v + 1)) = (Q2R v + 1)%R.
Proof.
  rewrite (Qeq_eqR _ _ (Qred_correct (v + 1))), Q2R_plus.
  f_equal. unfold Q2R. simpl. lra.
Qed.

Lemma np_log10_succ (v : Q) :
  (0 <= v)%Q ->
  np_log10 (fadd (Fin v) (Fin 1)) = XFin (log10 (Q2R v + 1)).
Proof.
  intros Hv. simpl.
  assert ((Qred (v + 1) ?= 0)%Q = Gt) as ->.
  { apply Qgt_alt. rewrite Qred_correct.
    apply (Qlt_le_trans _ (0 + 1)); [reflexivity|].
    now apply Qplus_le_compat; [|apply Qle_refl]. }
  now rewrite Q2R_succ.
Qed.

Lemma np_log10_succ_finite (x : float64) :
  isfinite x = true -> (0 <= finq x)%Q ->
  np_log10 (fadd x (Fin 1)) = XFin (log10 (Q2R (finq x) + 1)).
Proof.
  destruct x as [| | |p|]; try discriminate; intros _ Hp.
  - now apply np_log10_succ.
  - change (fadd NZero (Fin 1)) with (fadd (Fin 0) (Fin 1)).
    now apply np_log10_succ.
Qed.

Lemma fleb_finite (x y : float64) :
  isfinite x = true -> isfinite y = true ->
  fleb x y = true -> (finq x <= finq y)%Q.
Proof.
  destruct x, y; try discriminate; intros _ _; simpl;
    try apply Qle_flag_true; intros _; apply Qle_refl.
Qed.

(** [np.log10(x + 1)] does not decrease as [x] grows from 0 on. *)
Lemma np_log10_succ_mono (x y : float64) :
  fleb (Fin 0) x = true -> fleb x y = true ->
  xle (np_log10 (fadd x (Fin 1))) (np_log10 (fadd y (Fin 1))).
Proof.
  intros Hx Hxy.
  destruct (isfinite x) eqn:Fx, (isfinite y) eqn:Fy.
  - pose proof (fleb_finite (Fin 0) x eq_refl Fx Hx) as H0.
    pose proof (fleb_finite x y Fx Fy Hxy) as H1. simpl in H0.
    rewrite (np_log10_succ_finite x Fx H0).
    rewrite (np_log10_succ_finite y Fy (Qle_trans _ _ _ H0 H1)). simpl.
    apply Qle_Rle in H0, H1. change (Q2R 0) with (0 * / 1)%R in H0.
    apply log10_le; lra.
  - pose proof (fleb_finite (Fin 0) x eq_refl Fx Hx) as H0. simpl in H0.
    rewrite (np_log10_succ_finite x Fx H0).
    destruct y; try discriminate; [destruct x; discriminate|exact I|].
    destruct x; discriminate.
  - destruct x; try discriminate. destruct y; discriminate.
  - destruct x; try discriminate. destruct y; try discriminate. exact I.
Qed.

Lemma lookup_map {A B : Type} (f : A -> B) (l : list A) (i : nat) :
  map f l !! i = f <$> (l !! i).
Proof.
  revert i. induction l as [|x l IH]; intros [|i]; simpl; auto.
Qed.

(** [log10] is the logarithm of base 10: 10 to the power [log10 x] is
    [x]. *)
Lemma Rpower_log10 (x : R) : (0 < x)%R -> Rpower 10 (log10 x) = x.
Proof.
  intros Hx. unfold Rpower, log10.
  replace (ln x / ln 10 * ln 10)%R with (ln x).
  - now apply exp_ln.
  - field. apply Rgt_not_eq, ln10_pos.
Qed.

Lemma Rpower_10_inj (a b : R) : Rpower 10 a = Rpower 10 b -> a = b.
Proof.
  unfold Rpower. intros H. apply exp_inv in H.
  apply (Rmult_eq_reg_r (ln 10)); [exact H|]. apply Rgt_not_eq, ln10_pos.
Qed.

Lemma Q2R_inject_Z (z : Z) : Q2R (inject_Z z) = IZR z.
Proof. unfold Q2R. simpl. lra. Qed.

(** The transform of an int64 cell below the largest int64. *)
Lemma np_log10_int_succ (z : Z) :
  (0 <= z < int64_max)%Z ->
  np_log10 (of_Z (int64_wrap (z + 1))) = XFin (log10 (IZR z + 1)).
Proof.
  intros Hz. rewrite int64_wrap_small by (unfold in_int64, int64_max in *; lia).
  unfold of_Z, np_log10.
  assert ((inject_Z (z + 1) ?= 0)%Q = Gt) as ->.
  { apply Qgt_alt. unfold Qlt. simpl. lia. }
  now rewrite Q2R_inject_Z, plus_IZR.
Qed.

(** At the largest int64 the increment wraps around to the least one. *)
Lemma np_log10_int_max :
  np_log10 (of_Z (int64_wrap (int64_max + 1))) = XNaN.
Proof. reflexivity. Qed.

(** C8 (amended).  [log_transform] maps the value [v] of each row to
    log10(v + 1), the increment being taken in the dtype of the column.
    On a float64 column this is, for every v >= 0, the real number whose
    power of 10 is v + 1 (+inf for +inf), and it does not decrease as [v]
    grows.  On an int64 column the same holds for every v >= 0 below the
    largest int64; at the largest int64, 2^63 - 1, the increment wraps
    around to -2^63 and the transform is NaN. *)
Theorem log_transform_monotone (field : string) (wm : DataFrame) :
  (forall l, wm !! field = Some (ColNum l) ->
     exists out,
       log_transform field wm = Ok (ColLog out)
       /\ length out = length l
       /\ (forall i v, l !! i = Some (Fin v) -> (0 <= v)%Q ->
             exists r, out !! i = Some (XFin r)
                       /\ Rpower 10 r = (Q2R v + 1)%R)
       /\ (forall i, l !! i = Some PInf -> out !! i = Some XPInf)
       /\ (forall i j x y,
             l !! i = Some x -> l !! j = Some y ->
             fleb (Fin 0) x = true -> fleb x y = true ->
             exists a b, out !! i = Some a /\ out !! j = Some b /\ xle a b))
  /\ (forall l, wm !! field = Some (ColInt l) ->
       exists out,
         log_transform field wm = Ok (ColLog out)
         /\ length out = length l
         /\ (forall i z, l !! i = Some z -> (0 <= z < int64_max)%Z ->
               exists r, out !! i = Some (XFin r)
                         /\ Rpower 10 r = (IZR z + 1)%R)
         /\ (forall i j x y,
               l !! i = Some x -> l !! j = Some y ->
               (0 <= x <= y)%Z -> (y < int64_max)%Z ->
               exists a b, out !! i = Some (XFin a) /\ out !! j = Some (XFin b)
                           /\ (a <= b)%R)
         /\ (forall i, l !! i = Some int64_max -> out !! i = Some XNaN)).
Proof.
  split.
  - intros l Hf. unfold log_transform, getitem. rewrite Hf. simpl.
    unfold series_add. rewrite map_map.
    eexists. split; [reflexivity|].
    split; [apply length_map|]. split; [|split].
    + intros i v Hi Hv. rewrite lookup_map, Hi.
      cbn [fmap option_fmap option_map].
      rewrite (np_log10_succ v Hv). eexists. split; [reflexivity|].
      apply Rpower_log10. apply Qle_Rle in Hv.
      change (Q2R 0) with (0 * / 1)%R in Hv. lra.
    + intros i Hi. now rewrite lookup_map, Hi.
    + intros i j x y Hi Hj Hx Hxy.
      exists (np_log10 (fadd x (Fin 1))), (np_log10 (fadd y (Fin 1))).
      rewrite !lookup_map, Hi, Hj. simpl.
      split; [reflexivity|]. split; [reflexivity|].
      now apply np_log10_succ_mono.
  - intros l Hf. unfold log_transform, getitem. rewrite Hf. cbn [rbind].
    eexists. split; [reflexivity|].
    split; [apply length_map|]. split; [|split].
    + intros i z Hi Hz. rewrite lookup_map, Hi.
      cbn [fmap option_fmap option_map].
      rewrite (np_log10_int_succ z Hz). eexists. split; [reflexivity|].
      apply Rpower_log10. destruct Hz as [Hz _]. apply IZR_le in Hz. lra.
    + intros i j x y Hi Hj Hxy Hy.
      exists (log10 (IZR x + 1)), (log10 (IZR y + 1)).
      rewrite !lookup_map, Hi, Hj.
      cbn [fmap option_fmap option_map].
      rewrite (np_log10_int_succ x) by lia.
      rewrite (np_log10_int_succ y) by lia.
      split; [reflexivity|]. split; [reflexivity|].
      destruct Hxy as [Hx Hxy]. apply IZR_le in Hx, Hxy.
      apply log10_le; lra.
    + intros i Hi. rewrite lookup_map, Hi.
      cbn [fmap option_fmap option_map].
      now rewrite np_log10_int_max.
Qed.

(** The theorem on the columns holding 0, 9 and 99: their transforms are
    0, 1 and 2, in the float64 column and in the int64 column. *)
Lemma log_transform_monotone_witness :
  (exists out,
     log_transform "TotalTests" powers_of_ten = Ok (ColLog out)
     /\ out !! 0 = Some (XFin 0) /\ out !! 1 = Some (XFin 1)
     /\ out !! 2 = Some (XFin 2))
  /\ (exists out,
        log_transform "TotalCases" powers_of_ten = Ok (ColLog out)
        /\ out !! 0 = Some (XFin 0) /\ out !! 1 = Some (XFin 1)
        /\ out !! 2 = Some (XFin 2)).
Proof.
  assert (Rpower 10 0 = 1%R) as P0 by (apply Rpower_O; lra).
  assert (Rpower 10 1 = 10%R) as P1 by (apply Rpower_1; lra).
  assert (Rpower 10 2 = 100%R) as P2.
  { replace 2%R with (1 + 1)%R by lra. rewrite Rpower_plus, P1. lra. }
  assert (forall (out : list xreal) i r (x : R),
            out !! i = Some (XFin r) -> Rpower 10 r = Rpower 10 x ->
            out !! i = Some (XFin x)) as pin.
  { intros out i r x H E. apply Rpower_10_inj in E. now subst r. }
  split.
  - destruct (proj1 (log_transform_monotone "TotalTests" powers_of_ten)
                [Fin 0; Fin 9; Fin 99])
      as (out & E & _ & Hv & _); [vm_compute; reflexivity|].
    exists out. split; [exact E|].
    destruct (Hv 0 0%Q) as (r0 & H0 & E0); [reflexivity|discriminate|].
    destruct (Hv 1 9%Q) as (r1 & H1 & E1); [reflexivity|discriminate|].
    destruct (Hv 2 99%Q) as (r2 & H2 & E2); [reflexivity|discriminate|].
    split; [|split].
    + apply (pin out 0 r0 0%R H0). rewrite E0, P0. unfold Q2R. simpl. lra.
    + apply (pin out 1 r1 1%R H1). rewrite E1, P1. unfold Q2R. simpl. lra.
    + apply (pin out 2 r2 2%R H2). rewrite E2, P2. unfold Q2R. simpl. lra.
  - destruct (proj2 (log_transform_monotone "TotalCases" powers_of_ten)
                [0; 9; 99]%Z)
      as (out & E & _ & Hv & _); [vm_compute; reflexivity|].
    exists out. split; [exact E|].
    destruct (Hv 0 0%Z) as (r0 & H0 & E0); [reflexivity|unfold int64_max; lia|].
    destruct (Hv 1 9%Z) as (r1 & H1 & E1); [reflexivity|unfold int64_max; lia|].
    destruct (Hv 2 99%Z) as (r2 & H2 & E2); [reflexivity|unfold int64_max; lia|].
    split; [|split].
    + apply (pin out 0 r0 0%R H0). rewrite E0, P0. lra.
    + apply (pin out 1 r1 1%R H1). rewrite E1, P1. lra.
    + apply (pin out 2 r2 2%R H2). rewrite E2, P2. lra.
Defined.

(** C8, as stated, fails: in an int64 column the value 2^63 - 1 is at
    least 0 and its transform is NaN, not log10(2^63); so it is after a
    run of the EDA branch on a snapshot holding that value. *)
Lemma log_of_largest_int64 :
  (0 <= 9223372036854775807)%Z
  /\ largest_tests !! "TotalTests"
     = Some (ColInt [9223372036854775807; 50; 2000]%Z)
  /\ (exists out, log_transform "TotalTests" largest_tests = Ok (ColLog out)
                  /\ out !! 0 = Some XNaN)
  /\ exists t s' out,
       app "📈 EDA & Charts" (mkStore three_countries largest_tests)
       = Ok (EdaView t, s')
       /\ worldometer_data s' !! "TotalTests"
          = Some (ColInt [9223372036854775807; 50; 2000]%Z)
       /\ worldometer_data s' !! "log_TotalTests" = Some (ColLog out)
       /\ out !! 0 = Some XNaN.
Proof.
  split; [lia|]. split; [vm_compute; reflexivity|].
  split.
  { eexists. split; [vm_compute; reflexivity|]. reflexivity. }
  eexists. eexists. eexists. split; [vm_compute; reflexivity|].
  split; [vm_compute; reflexivity|].
  split; [vm_compute; reflexivity|]. reflexivity.
Qed.

(* ===================================================================== *)
(** * Further properties of the script *)
(* ===================================================================== *)

(** *** Conversions of a column *)

Lemma rmap_length {A B : Type} (f : A -> result B) (l : list A) (l' : list B) :
  rmap f l = Ok l' -> length l' = length l.
Proof.
  revert l'. induction l as [|x l IH]; simpl; intros l' H.
  - now injection H as <-.
  - apply rbind_Ok in H as (y & _ & H). apply rbind_Ok in H as (ys & Hys & H).
    injection H as <-. simpl. f_equal. now apply IH.
Qed.

Lemma rmap_Ok_all {A B : Type} (f : A -> result B) (g : A -> B) (l : list A) :
  (forall x, In x l -> f x = Ok (g x)) -> rmap f l = Ok (map g l).
Proof.
  induction l as [|x l IH]; intros H; simpl; [reflexivity|].
  rewrite (H x) by (now left). simpl. rewrite IH; [reflexivity|].
  intros y Hy. apply H. now right.
Qed.

Lemma to_datetime_length (c d : column) :
  to_datetime c = Ok d -> col_length d = col_length c.
Proof.
  intros H. destruct (to_datetime_ColTime c d H) as [ds ->].
  destruct c; simpl in *; try discriminate.
  - apply rbind_Ok in H as (l' & H & [= <-]). now apply rmap_length in H.
  - apply rbind_Ok in H as (l' & H & [= <-]). now apply rmap_length in H.
  - now injection H as <-.
Qed.

(** *** Running the EDA branch forward *)

Lemma bind_on_fg {A B : Type} (f : DataFrame -> result A) (k : A -> M B)
    (s : Store) (a : A) :
  f (full_grouped s) = Ok a -> bind (on_fg f) k s = k a s.
Proof. intros H. unfold bind, on_fg. now rewrite H. Qed.

Lemma bind_on_fg_Raise {A B : Type} (f : DataFrame -> result A) (k : A -> M B)
    (s : Store) (e : exn) :
  f (full_grouped s) = Raise e -> bind (on_fg f) k s = Raise e.
Proof. intros H. unfold bind, on_fg. now rewrite H. Qed.

Lemma bind_fg_setitem {B : Type} (name : string) (c : column) (k : unit -> M B)
    (s : Store) :
  bind (fg_setitem name c) k s
  = k tt (mkStore (<[name := c]> (full_grouped s)) (worldometer_data s)).
Proof. reflexivity. Qed.

(** The dates [pd.to_datetime] gives for cells that are missing or parse. *)
Lemma to_datetime_parsable (l : list (option string)) :
  Forall parsable l ->
  to_datetime (ColObj l)
  = Ok (ColTime (map (fun o => match o with
                               | Some txt => parse_date txt
                               | None => None
                               end) l)).
Proof.
  intros H. simpl. erewrite rmap_Ok_all; [reflexivity|].
  intros [txt|] Hin; [|reflexivity].
  rewrite List.Forall_forall in H. specialize (H _ Hin). simpl in H.
  now destruct (parse_date txt).
Qed.

Lemma continent_mean_float (field : string) (wm : DataFrame)
    (ks : list (option string)) (vs : list float64) :
  wm !! "Continent" = Some (ColObj ks) ->
  wm !! field = Some (ColNum vs) ->
  continent_mean field wm
  = Ok (sort_values_desc (groupby_agg String.compare nanmean ks vs)).
Proof.
  intros Hk Hf. unfold continent_mean, getitem. now rewrite Hk, Hf.
Qed.

(** *** Missing columns *)

Lemma rmap_getitem_missing (df : DataFrame) (pre post : list string)
    (name : string) :
  Forall (fun n => is_Some (df !! n)) pre ->
  df !! name = None ->
  rmap (getitem df) (pre ++ name :: post) = Raise (KeyError name).
Proof.
  intros Hpre Hn. induction Hpre as [|n pre [c Hc] _ IH]; simpl.
  - unfold getitem at 1. now rewrite Hn.
  - unfold getitem at 1. rewrite Hc. simpl. now rewrite IH.
Qed.

Lemma render_eda_Raise (s : Store) (e : exn) :
  eda_page s = Raise e -> app "📈 EDA & Charts" s = Raise e.
Proof.
  intros E. unfold app, render. simpl. unfold bind at 1. now rewrite E.
Qed.

(** X4.  A time series without its Date column stops the EDA branch with
    KeyError Date at line 71.  With the dates parsed, a time series that
    lacks one of Confirmed, Deaths, Recovered stops it with the KeyError of
    that name at line 74: the selection of the columns comes before any
    sum, so the dtype of the columns present plays no part.  The snapshot
    is not looked at in either case. *)
Theorem eda_missing_series_column (fg wm : DataFrame) :
  (fg !! "Date" = None ->
   app "📈 EDA & Charts" (mkStore fg wm) = Raise (KeyError "Date"))
  /\ (forall l pre name post,
        fg !! "Date" = Some (ColObj l) -> Forall parsable l ->
        monthly_columns = (pre ++ name :: post)%list ->
        Forall (fun n => is_Some (fg !! n)) (pre ++ post) ->
        fg !! name = None ->
        app "📈 EDA & Charts" (mkStore fg wm) = Raise (KeyError name)).
Proof.
  split.
  - intros Hd. apply render_eda_Raise. unfold eda_page.
    apply bind_on_fg_Raise. unfold getitem. cbn [full_grouped]. now rewrite Hd.
  - intros l pre name post Hd Hl Hsplit Hpre Hn.
    apply Forall_app in Hpre as [Hpre _].
    apply render_eda_Raise. unfold eda_page.
    erewrite bind_on_fg;
      [|unfold getitem; cbn [full_grouped]; rewrite Hd;
        apply (to_datetime_parsable l Hl)].
    rewrite bind_fg_setitem. apply bind_on_fg_Raise. cbn [full_grouped].
    assert (name <> "Date") as Hne.
    { intros ->. assert (In "Date" monthly_columns) as Hin.
      { rewrite Hsplit. apply in_or_app. right. now left. }
      simpl in Hin. intuition discriminate. }
    unfold monthly, getitem. rewrite lookup_insert_eq. simpl.
    unfold groupby_sum. fold monthly_columns. rewrite Hsplit.
    rewrite (rmap_getitem_missing _ pre post name); [reflexivity| |].
    + eapply Forall_impl; [exact Hpre|]. intros n [c Hc]. simpl.
      destruct (decide (n = "Date")) as [->|Hnd].
      * rewrite lookup_insert_eq. eauto.
      * rewrite lookup_insert_ne by congruence. eauto.
    + now rewrite lookup_insert_ne by congruence.
Qed.

Lemma eda_missing_series_column_witness :
  app "📈 EDA & Charts" (mkStore (delete "Deaths" january) two_rows)
  = Raise (KeyError "Deaths").
Proof.
  apply (proj2 (eda_missing_series_column (delete "Deaths" january) two_rows)
           [Some "2020-01-22"; Some "2020-01-22"; Some "2020-01-23"]
           ["Confirmed"] "Deaths" ["Recovered"]).
  - vm_compute. reflexivity.
  - repeat constructor; simpl; vm_compute; discriminate.
  - reflexivity.
  - repeat constructor; eexists; vm_compute; reflexivity.
  - vm_compute. reflexivity.
Defined.

(** *** What the assignments of the EDA branch leave alone *)

Lemma as_float_length (c : column) (l : list float64) :
  as_float c = Ok l -> length l = col_length c.
Proof.
  destruct c; simpl; try discriminate.
  - apply rmap_length.
  - now intros [= <-].
  - intros [= <-]. apply length_map.
Qed.

Lemma as_float_object (cells : list (option string)) (l : list float64) :
  as_float (ColObj cells) = Ok l ->
  Forall (fun o => o = None) cells /\ l = map (fun _ => NaN) cells.
Proof.
  simpl. revert l. induction cells as [|o cells IH]; simpl; intros l H.
  - injection H as <-. split; [constructor|reflexivity].
  - destruct o as [txt|]; simpl in H; [discriminate|].
    apply rbind_Ok in H as (ys & Hys & [= <-]).
    destruct (IH ys Hys) as [Hall ->]. split; [now constructor|reflexivity].
Qed.

Lemma rmap_numeral_missing (cells : list (option string)) :
  Forall (fun o => o = None) cells ->
  rmap numeral_float (map cell_numeral cells) = Ok (map (fun _ => NaN) cells).
Proof.
  induction 1 as [|o cells -> _ IH]; simpl; [reflexivity|].
  now rewrite IH.
Qed.

(** A column that divides is divided as its numeric coercion is. *)
Lemma as_float_to_numeric (c c' : column) (l : list float64) :
  as_float c = Ok l -> to_numeric_coerce c = Ok c' -> as_float c' = Ok l.
Proof.
  destruct c as [cells|nums|ints| | |]; simpl; try discriminate.
  - intros H. apply (as_float_object cells l) in H as [Hall ->].
    rewrite (rmap_numeral_missing cells Hall). simpl.
    destruct Hall as [|o cells -> Hall]; simpl; now intros [= <-].
  - now intros [= <-] [= <-].
  - now intros [= <-] [= <-].
Qed.

Lemma all_ints_length (ns : list numeral) (zs : list Z) :
  all_ints ns = Some zs -> length zs = length ns.
Proof.
  revert zs. induction ns as [|n ns IH]; simpl; intros zs H.
  - now injection H as <-.
  - destruct n; try discriminate. destruct (all_ints ns); [|discriminate].
    injection H as <-. simpl. f_equal. now apply IH.
Qed.

Lemma to_numeric_length (c c' : column) :
  to_numeric_coerce c = Ok c' -> col_length c' = col_length c.
Proof.
  destruct c as [cells|nums|ints| | |]; simpl; try discriminate;
    try (now intros [= <-]).
  intros H. apply rbind_Ok in H as (xs & Hxs & H).
  apply rmap_length in Hxs. rewrite length_map in Hxs.
  destruct (all_ints (map cell_numeral cells)) as [zs|] eqn:E;
    injection H as <-; simpl; [|exact Hxs].
  apply all_ints_length in E. now rewrite length_map in E.
Qed.

(** X6.  In a successful run of the EDA branch the recovery means are
    those of the snapshot as loaded: the columns assigned between line 108
    and line 188 (CFR, the coerced counts, the two logs) do not enter
    them.  The monthly and the daily sums are both computed from the time
    series with its dates parsed once. *)
Theorem eda_tables_of_loaded (s s' : Store) (t : eda_tables) :
  eda_page s = Ok (t, s') ->
  continent_cfr (worldometer_data s) = Ok (eda_continent_cfr t)
  /\ continent_recovery (worldometer_data s) = Ok (eda_continent_recovery t)
  /\ exists d,
       (let* c := getitem (full_grouped s) "Date" in to_datetime c) = Ok d
       /\ monthly (<["Date" := d]> (full_grouped s)) = Ok (eda_monthly t)
       /\ global_time (<["Date" := d]> (full_grouped s)) = Ok (eda_global_time t).
Proof.
  intros H. apply eda_page_Ok in H
    as (d & cfr & tests & cases & ltests & lcases & d' & rr & H).
  cbv zeta in H.
  destruct H as (Hd & Hmon & _ & _ & _ & Hcfr & Hmean & Htests & Hcases & _ & _
                 & Hd' & Hgt & Hrr & Hrec & _).
  split; [|split].
  - unfold continent_cfr, continent_ratio_of, continent_ratio. simpl.
    now rewrite Hcfr.
  - unfold continent_recovery, continent_ratio_of, continent_ratio. simpl.
    (* the loaded TotalCases divides as its coercion does *)
    unfold ratio_pct in Hcfr.
    apply rbind_Ok in Hcfr as (a0 & Ha0 & Hcfr).
    apply rbind_Ok in Hcfr as (b0 & Hb0 & Hcfr).
    apply rbind_Ok in Hcfr as (x0 & Hx0 & Hcfr).
    apply rbind_Ok in Hcfr as (y0 & Hy0 & _).
    apply rbind_Ok in Hcases as (c0 & Hc0 & Hcases).
    unfold getitem in Hc0. rewrite !lookup_insert_ne in Hc0 by discriminate.
    unfold getitem in Hb0.
    destruct (worldometer_data s !! "TotalCases") as [b|] eqn:Eb; [|discriminate].
    injection Hb0 as <-. injection Hc0 as <-.
    pose proof (as_float_to_numeric _ _ _ Hy0 Hcases) as Hcs.
    assert (ratio_pct "TotalRecovered" (worldometer_data s) = Ok rr) as Hrr0.
    { unfold ratio_pct, getitem in Hrr |- *.
      rewrite !lookup_insert_ne in Hrr by discriminate.
      rewrite lookup_insert_eq in Hrr.
      rewrite Eb. simpl.
      destruct (worldometer_data s !! "TotalRecovered"); [|discriminate].
      simpl in *. destruct (as_float c); [|discriminate]. simpl in *.
      rewrite Hcs in Hrr. now rewrite Hy0. }
    rewrite Hrr0. simpl. rewrite <- Hrec.
    unfold continent_mean, getitem.
    rewrite !lookup_insert_eq. now rewrite !lookup_insert_ne by discriminate.
  - exists d. split; [exact Hd|]. split; [exact Hmon|].
    apply rbind_Ok in Hd as (c0 & _ & Hd).
    apply to_datetime_ColTime in Hd as [ds ->].
    unfold getitem in Hd'. rewrite lookup_insert_eq in Hd'. simpl in Hd'.
    injection Hd' as <-. now rewrite insert_insert_eq in Hgt.
Qed.

Lemma eda_tables_of_loaded_witness :
  exists t s',
    eda_page (mkStore january two_rows) = Ok (t, s')
    /\ continent_recovery two_rows = Ok (eda_continent_recovery t)
    /\ eda_continent_recovery t = [("A", Fin 80)].
Proof.
  assert (exists t s', eda_page (mkStore january two_rows) = Ok (t, s'))
    as (t & s' & E).
  { eexists. eexists. vm_compute. reflexivity. }
  exists t, s'. split; [exact E|].
  destruct (eda_tables_of_loaded _ _ _ E) as (_ & Hrec & _).
  split; [exact Hrec|].
  cbn [worldometer_data] in Hrec.
  assert (continent_recovery two_rows = Ok [("A", Fin 80)]) as E2
    by (vm_compute; reflexivity).
  rewrite E2 in Hrec. now injection Hrec as <-.
Defined.

(** *** Row counts *)

Lemma uniform_rows_insert (n : nat) (df : DataFrame) (name : string) (c : column) :
  col_length c = n -> uniform_rows n df -> uniform_rows n (<[name := c]> df).
Proof.
  intros Hc Hdf k col Hcol. destruct (decide (k = name)) as [->|Hne].
  - rewrite lookup_insert_eq in Hcol. now injection Hcol as <-.
  - rewrite lookup_insert_ne in Hcol by congruence. exact (Hdf k col Hcol).
Qed.

Lemma getitem_uniform (n : nat) (df : DataFrame) (name : string) (c : column) :
  uniform_rows n df -> getitem df name = Ok c -> col_length c = n.
Proof.
  intros Hdf H. unfold getitem in H.
  destruct (df !! name) as [c'|] eqn:E; [|discriminate].
  injection H as <-. exact (Hdf name c' E).
Qed.

Lemma ratio_pct_length (n : nat) (num : string) (wm : DataFrame) (c : column) :
  uniform_rows n wm -> ratio_pct num wm = Ok c -> col_length c = n.
Proof.
  intros Hwm H. unfold ratio_pct in H.
  apply rbind_Ok in H as (a & Ha & H). apply rbind_Ok in H as (b & Hb & H).
  apply rbind_Ok in H as (x & Hx & H). apply rbind_Ok in H as (y & Hy & H).
  injection H as <-. simpl. unfold series_mul, series_div.
  rewrite length_map, length_zip_with.
  apply as_float_length in Hx, Hy.
  rewrite Hx, Hy, (getitem_uniform n wm _ _ Hwm Ha),
    (getitem_uniform n wm _ _ Hwm Hb). lia.
Qed.

Lemma log_transform_length (n : nat) (field : string) (wm : DataFrame) (c : column) :
  uniform_rows n wm -> log_transform field wm = Ok c -> col_length c = n.
Proof.
  intros Hwm H. unfold log_transform in H.
  apply rbind_Ok in H as (a & Ha & H).
  pose proof (getitem_uniform n wm _ _ Hwm Ha) as Hn.
  destruct a;
    try (injection H as <-; simpl; now rewrite length_map);
    apply rbind_Ok in H as (x & Hx & H);
    injection H as <-; simpl; unfold series_add; rewrite !length_map;
    apply as_float_length in Hx; now rewrite Hx.
Qed.

Lemma converted_length (n : nat) (df : DataFrame) (name : string)
    (f : column -> result column) (c : column) :
  (forall a b, f a = Ok b -> col_length b = col_length a) ->
  uniform_rows n df ->
  (let* a := getitem df name in f a) = Ok c -> col_length c = n.
Proof.
  intros Hf Hdf H. apply rbind_Ok in H as (a & Ha & H).
  rewrite (Hf a c H). exact (getitem_uniform n df _ _ Hdf Ha).
Qed.

(** X7.  The assignments of the EDA branch keep the shape of the two
    frames: when every column of the time series has n rows and every
    column of the snapshot has m rows, the same holds after a successful
    run, the assigned columns included. *)
Theorem eda_keeps_row_counts (s s' : Store) (t : eda_tables) (n m : nat) :
  eda_page s = Ok (t, s') ->
  uniform_rows n (full_grouped s) ->
  uniform_rows m (worldometer_data s) ->
  uniform_rows n (full_grouped s') /\ uniform_rows m (worldometer_data s').
Proof.
  intros H Hfg Hwm. apply eda_page_Ok in H
    as (d & cfr & tests & cases & ltests & lcases & d' & rr & H).
  cbv zeta in H.
  destruct H as (Hd & _ & _ & _ & _ & Hcfr & _ & Htests & Hcases & Hlt & Hlc
                 & Hd' & _ & Hrr & _ & ->).
  cbn [full_grouped worldometer_data].
  pose proof to_datetime_length as Ldt.
  pose proof (converted_length n _ _ _ _ Ldt Hfg Hd) as Ld.
  pose proof (uniform_rows_insert n _ "Date" d Ld Hfg) as Hfg1.
  pose proof (converted_length n _ _ _ _ Ldt Hfg1 Hd') as Ld'.
  split; [now apply uniform_rows_insert|].
  pose proof (ratio_pct_length m _ _ _ Hwm Hcfr) as Lcfr.
  pose proof (uniform_rows_insert m _ "CFR(%)" cfr Lcfr Hwm) as Hwm1.
  pose proof (converted_length m _ _ _ _ to_numeric_length Hwm1 Htests) as Lt.
  pose proof (uniform_rows_insert m _ "TotalTests" tests Lt Hwm1) as Hwm1'.
  pose proof (converted_length m _ _ _ _ to_numeric_length Hwm1' Hcases) as Lc.
  pose proof (uniform_rows_insert m _ "TotalCases" cases Lc Hwm1') as Hwm2.
  pose proof (log_transform_length m _ _ _ Hwm2 Hlt) as Llt.
  pose proof (uniform_rows_insert m _ "log_TotalTests" ltests Llt Hwm2) as Hwm2'.
  pose proof (log_transform_length m _ _ _ Hwm2' Hlc) as Llc.
  pose proof (uniform_rows_insert m _ "log_TotalCases" lcases Llc Hwm2') as Hwm3.
  pose proof (ratio_pct_length m _ _ _ Hwm3 Hrr) as Lrr.
  now apply uniform_rows_insert.
Qed.

Ltac concrete_uniform df :=
  let name := fresh "name" in
  let col := fresh "col" in
  let H := fresh "H" in
  intros name col H;
  apply (f_equal (fun o => col_length <$> o)) in H;
  unfold df in H;
  repeat (rewrite lookup_insert in H; case_decide;
          [simpl in H; now injection H as <-|]);
  rewrite lookup_empty in H; discriminate H.

Lemma two_rows_uniform : uniform_rows 2 two_rows.
Proof. concrete_uniform two_rows. Qed.

Lemma january_uniform : uniform_rows 3 january.
Proof. concrete_uniform january. Qed.

Lemma eda_keeps_row_counts_witness :
  exists t s',
    eda_page (mkStore january two_rows) = Ok (t, s')
    /\ uniform_rows 3 (full_grouped s') /\ uniform_rows 2 (worldometer_data s').
Proof.
  assert (exists t s', eda_page (mkStore january two_rows) = Ok (t, s'))
    as (t & s' & E).
  { eexists. eexists. vm_compute. reflexivity. }
  exists t, s'. split; [exact E|].
  exact (eda_keeps_row_counts _ _ t 3 2 E january_uniform two_rows_uniform).
Defined.

(** *** The log columns *)

Lemma Qcompare_succ (v : Q) : (Qred (v + 1) ?= 0)%Q = (v ?= -1)%Q.
Proof.
  rewrite (Qcompare_comp _ _ (Qred_correct (v + 1)) 0%Q 0%Q (Qeq_refl 0%Q)).
  destruct v as [n d]. unfold Qcompare, Qplus. simpl.
  rewrite ?Z.mul_1_r, ?Pos.mul_1_r.
  match goal with
  | |- _ = (?x ?= ?y)%Z => destruct (Z.compare_spec x y) as [E|E|E]
  end;
    [apply Z.compare_eq_iff|apply Z.compare_lt_iff|apply Z.compare_gt_iff];
    lia.
Qed.

Lemma np_log10_fadd_1 (x : float64) : np_log10 (fadd x (Fin 1)) = log10_succ x.
Proof.
  destruct x as [| | |v|]; try reflexivity.
  - simpl. rewrite Qcompare_succ. destruct (v ?= -1)%Q; try reflexivity.
    now rewrite Q2R_succ.
  - simpl. do 2 f_equal. unfold Q2R. simpl. lra.
Qed.

(** What the transform of a finite cell is, by the place of the cell with
    respect to -1. *)
Lemma log10_succ_cases (v : Q) :
  ((-1 < v)%Q -> exists r, log10_succ (Fin v) = XFin r
                           /\ Rpower 10 r = (Q2R v + 1)%R)
  /\ ((v == -1)%Q -> log10_succ (Fin v) = XNInf)
  /\ ((v < -1)%Q -> log10_succ (Fin v) = XNaN).
Proof.
  unfold log10_succ. split; [|split]; intros H.
  - assert ((v ?= -1)%Q = Gt) as -> by (now apply Qgt_alt).
    eexists. split; [reflexivity|].
    apply Rpower_log10. apply Qlt_Rlt in H.
    replace (Q2R (-1)) with (-1)%R in H by (unfold Q2R; simpl; lra). lra.
  - assert ((v ?= -1)%Q = Eq) as -> by (now apply Qeq_alt). reflexivity.
  - assert ((v ?= -1)%Q = Lt) as -> by (now apply Qlt_alt). reflexivity.
Qed.

(** X8.  In a successful run of the EDA branch, for each of TotalTests
    and TotalCases that is loaded as a float64 column, the numeric
    coercion of lines 138-139 leaves the column as loaded, and the log
    column assigned at lines 142-143 holds, row by row, log10(v + 1) of
    the loaded value v: for v > -1 the real number whose power of 10 is
    v + 1, minus infinity for v = -1, NaN for v < -1 and for a missing v,
    plus infinity for plus infinity. *)
Theorem eda_log_columns (s s' : Store) (t : eda_tables) (name : string)
    (l : list float64) :
  eda_page s = Ok (t, s') ->
  In name log_columns ->
  worldometer_data s !! name = Some (ColNum l) ->
  worldometer_data s' !! name = Some (ColNum l)
  /\ exists out,
       worldometer_data s' !! ("log_" ++ name) = Some (ColLog out)
       /\ length out = length l
       /\ (forall i v, l !! i = Some (Fin v) -> (-1 < v)%Q ->
             exists r, out !! i = Some (XFin r)
                       /\ Rpower 10 r = (Q2R v + 1)%R)
       /\ (forall i v, l !! i = Some (Fin v) -> (v == -1)%Q ->
             out !! i = Some XNInf)
       /\ (forall i v, l !! i = Some (Fin v) -> (v < -1)%Q ->
             out !! i = Some XNaN)
       /\ (forall i, l !! i = Some NaN -> out !! i = Some XNaN)
       /\ (forall i, l !! i = Some PInf -> out !! i = Some XPInf).
Proof.
  intros H Hn Hl. apply eda_page_Ok in H
    as (d & cfr & tests & cases & ltests & lcases & d' & rr & H).
  cbv zeta in H.
  destruct H as (_ & _ & _ & _ & _ & _ & _ & Htests & Hcases & Hlt & Hlc
                 & _ & _ & _ & _ & ->).
  cbn [worldometer_data].
  unfold getitem in Htests, Hcases.
  rewrite !lookup_insert_ne in Htests by discriminate.
  rewrite !lookup_insert_ne in Hcases by discriminate.
  assert (forall out : list xreal,
            out = map log10_succ l ->
            length out = length l
            /\ (forall i v, l !! i = Some (Fin v) -> (-1 < v)%Q ->
                  exists r, out !! i = Some (XFin r)
                            /\ Rpower 10 r = (Q2R v + 1)%R)
            /\ (forall i v, l !! i = Some (Fin v) -> (v == -1)%Q ->
                  out !! i = Some XNInf)
            /\ (forall i v, l !! i = Some (Fin v) -> (v < -1)%Q ->
                  out !! i = Some XNaN)
            /\ (forall i, l !! i = Some NaN -> out !! i = Some XNaN)
            /\ (forall i, l !! i = Some PInf -> out !! i = Some XPInf))
    as Hout.
  { intros out ->. split; [apply length_map|].
    split; [|split; [|split; [|split]]].
    - intros i v Hi Hv. rewrite lookup_map, Hi.
      cbn [fmap option_fmap option_map].
      destruct (proj1 (log10_succ_cases v) Hv) as (r & -> & Hr). eauto.
    - intros i v Hi Hv. rewrite lookup_map, Hi.
      cbn [fmap option_fmap option_map].
      now rewrite (proj1 (proj2 (log10_succ_cases v)) Hv).
    - intros i v Hi Hv. rewrite lookup_map, Hi.
      cbn [fmap option_fmap option_map].
      now rewrite (proj2 (proj2 (log10_succ_cases v)) Hv).
    - intros i Hi. now rewrite lookup_map, Hi.
    - intros i Hi. now rewrite lookup_map, Hi. }
  unfold log_columns in Hn. simpl in Hn. destruct Hn as [<-|[<-|[]]].
  - rewrite Hl in Htests. simpl in Htests. injection Htests as <-.
    unfold log_transform, getitem in Hlt.
    rewrite !lookup_insert_ne in Hlt by discriminate.
    rewrite lookup_insert_eq in Hlt. simpl in Hlt. injection Hlt as <-.
    split.
    + rewrite !lookup_insert_ne by discriminate. apply lookup_insert_eq.
    + eexists. split.
      * simpl. rewrite !lookup_insert_ne by discriminate. apply lookup_insert_eq.
      * apply Hout. unfold series_add. rewrite map_map.
        apply map_ext, np_log10_fadd_1.
  - rewrite Hl in Hcases. simpl in Hcases. injection Hcases as <-.
    unfold log_transform, getitem in Hlc.
    rewrite !lookup_insert_ne in Hlc by discriminate.
    rewrite lookup_insert_eq in Hlc. simpl in Hlc. injection Hlc as <-.
    split.
    + rewrite !lookup_insert_ne by discriminate. apply lookup_insert_eq.
    + eexists. split.
      * simpl. rewrite !lookup_insert_ne by discriminate. apply lookup_insert_eq.
      * apply Hout. unfold series_add. rewrite map_map.
        apply map_ext, np_log10_fadd_1.
Qed.

(** The theorem on a snapshot whose total_tests are 0, 9 and 99: their
    transforms are 0, 1 and 2. *)
Lemma eda_log_columns_witness :
  exists t s' out,
    eda_page (mkStore january powers_of_ten) = Ok (t, s')
    /\ worldometer_data s' !! "TotalTests" = Some (ColNum [Fin 0; Fin 9; Fin 99])
    /\ worldometer_data s' !! "log_TotalTests" = Some (ColLog out)
    /\ out !! 0 = Some (XFin 0) /\ out !! 1 = Some (XFin 1)
    /\ out !! 2 = Some (XFin 2).
Proof.
  assert (exists t s', eda_page (mkStore january powers_of_ten) = Ok (t, s'))
    as (t & s' & E).
  { eexists. eexists. vm_compute. reflexivity. }
  destruct (eda_log_columns _ _ t "TotalTests" [Fin 0; Fin 9; Fin 99] E)
    as (H1 & out & H2 & _ & Hv & _); [simpl; tauto|vm_compute; reflexivity|].
  exists t, s', out. split; [exact E|]. split; [exact H1|].
  split; [exact H2|].
  assert (forall i r (x : R),
            out !! i = Some (XFin r) -> Rpower 10 r = Rpower 10 x ->
            out !! i = Some (XFin x)) as pin.
  { intros i r x H Er. apply Rpower_10_inj in Er. now subst r. }
  destruct (Hv 0 0%Q) as (r0 & H0 & E0); [reflexivity|reflexivity|].
  destruct (Hv 1 9%Q) as (r1 & Hr1 & E1); [reflexivity|reflexivity|].
  destruct (Hv 2 99%Q) as (r2 & Hr2 & E2); [reflexivity|reflexivity|].
  split; [|split].
  - apply (pin 0 r0 0%R H0). rewrite E0, Rpower_O by lra.
    unfold Q2R. simpl. lra.
  - apply (pin 1 r1 1%R Hr1). rewrite E1, Rpower_1 by lra.
    unfold Q2R. simpl. lra.
  - apply (pin 2 r2 2%R Hr2). rewrite E2.
    replace 2%R with (1 + 1)%R by lra.
    rewrite Rpower_plus, Rpower_1 by lra. unfold Q2R. simpl. lra.
Defined.
(** *** The daily sums *)

Lemma dates_of_sorted (ds : list (option date)) :
  StronglySorted (key_lt date_compare) (dates_of ds).
Proof.
  apply group_keys_sorted.
  - apply date_compare_eq.
  - apply date_compare_antisym.
  - apply date_compare_trans.
Qed.

(** X9.  On a time series whose dates are parsed and whose New cases and
    New deaths are float columns, [global_time] has one row per date
    present in the series and no other, in strictly ascending order of
    date; rows without a date enter no row; the row of a date holds the
    sums of the two columns over the records of that date. *)
Theorem daily_global_new_counts (fg : DataFrame) (ds : list (option date))
    (nc nd : list float64) :
  fg !! "Date" = Some (ColTime ds) ->
  fg !! "New cases" = Some (ColNum nc) ->
  fg !! "New deaths" = Some (ColNum nd) ->
  exists gtime,
    global_time fg = Ok gtime
    /\ gtime !! "Date" = Some (ColTime (map Some (dates_of ds)))
    /\ gtime !! "New cases"
       = Some (ColNum (map (fun d => nansum (date_cells d ds nc)) (dates_of ds)))
    /\ gtime !! "New deaths"
       = Some (ColNum (map (fun d => nansum (date_cells d ds nd)) (dates_of ds)))
    /\ (forall d, In d (dates_of ds) <-> In (Some d) ds)
    /\ StronglySorted (key_lt date_compare) (dates_of ds)
    /\ List.NoDup (dates_of ds).
Proof.
  intros Hd Hc Hn. eexists.
  split; [apply (global_time_numeric fg ds nc nd); assumption|].
  split; [now rewrite lookup_insert_eq|].
  split; [now rewrite lookup_insert_ne, lookup_insert_eq by discriminate|].
  split; [now rewrite !lookup_insert_ne, lookup_insert_eq by discriminate|].
  split; [intros d; apply (In_group_keys _ date_compare_eq)|].
  split; [apply dates_of_sorted|].
  apply (sorted_NoDup date_compare date_compare_eq), dates_of_sorted.
Qed.

Lemma daily_global_new_counts_witness :
  exists gtime,
    global_time january_parsed = Ok gtime
    /\ gtime !! "Date"
       = Some (ColTime [Some (mkdate 2020 1 22); Some (mkdate 2020 1 23)])
    /\ gtime !! "New cases" = Some (ColNum [Fin 11; Fin 7]).
Proof.
  destruct (daily_global_new_counts january_parsed
              [Some (mkdate 2020 1 22); Some (mkdate 2020 1 22);
               Some (mkdate 2020 1 23)]
              [Fin 5; Fin 6; Fin 7] [Fin 0; Fin 0; Fin 1])
    as (g & Hg & Hd & Hc & _); try (vm_compute; reflexivity).
  exists g. split; [exact Hg|]. split; [exact Hd|exact Hc].
Defined.

(** *** The means per continent *)

Lemma ascii_compare_trans (a b c : ascii) :
  Ascii.compare a b = Lt -> Ascii.compare b c = Lt -> Ascii.compare a c = Lt.
Proof.
  unfold Ascii.compare. rewrite !N.compare_lt_iff. lia.
Qed.

Lemma string_compare_trans (a b c : string) :
  String.compare a b = Lt -> String.compare b c = Lt -> String.compare a c = Lt.
Proof.
  revert b c. induction a as [|x a IH]; intros [|y b] [|z c]; simpl;
    try discriminate; try reflexivity.
  destruct (Ascii.compare x y) eqn:Exy; try discriminate;
    destruct (Ascii.compare y z) eqn:Eyz; try discriminate; intros H1 H2.
  - apply Ascii.compare_eq_iff in Exy, Eyz. subst.
    assert (Ascii.compare z z = Eq) as ->
        by (unfold Ascii.compare; apply N.compare_refl).
    now apply (IH b c).
  - apply Ascii.compare_eq_iff in Exy. subst. now rewrite Eyz.
  - apply Ascii.compare_eq_iff in Eyz. subst. now rewrite Exy.
  - now rewrite (ascii_compare_trans x y z).
Qed.

Lemma string_compare_antisym (a b : string) :
  String.compare b a = CompOpp (String.compare a b).
Proof. apply String.compare_antisym. Qed.

Lemma fltb_true_fleb (v w : float64) : fltb v w = true -> fleb v w = true.
Proof.
  destruct v as [| | |p|], w as [| | |q|]; simpl; try congruence;
    match goal with
    | |- context [(?x ?= ?y)%Q] => destruct (x ?= y)%Q
    end; congruence.
Qed.

Lemma fleb_trans (x y z : float64) :
  fleb x y = true -> fleb y z = true -> fleb x z = true.
Proof.
  destruct x as [| | |p|], y as [| | |q|], z as [| | |r|];
    try discriminate; try reflexivity; simpl;
    rewrite ?Qle_flag_true; intros H1 H2;
    first [assumption | reflexivity | eapply Qle_trans; eassumption].
Qed.

Lemma insert_desc_listed {A : Type} (x : A * float64) (s : list (A * float64)) :
  isnan (snd x) = false ->
  Forall (fun e => isnan (snd e) = false) s ->
  StronglySorted listed_before s ->
  StronglySorted listed_before (insert_desc x s).
Proof.
  intros Hx Hnan Hs. induction Hs as [|y s Hs IH Hy]; simpl.
  - repeat constructor.
  - inversion Hnan as [|? ? Ny Ns]; subst.
    destruct (fltb (snd x) (snd y)) eqn:E.
    + constructor; [now apply IH|].
      apply List.Forall_forall. intros z Hz.
      apply (Permutation_in _ (insert_desc_perm x s)) in Hz as [<-|Hz].
      * right. now apply fltb_true_fleb.
      * rewrite List.Forall_forall in Hy. now apply Hy.
    + assert (fleb (snd y) (snd x) = true) as Hyx by now apply fltb_false_fleb.
      constructor; [now constructor|]. constructor; [now right|].
      rewrite List.Forall_forall in *. intros z Hz.
      destruct (Hy z Hz) as [Hn|Hle].
      * rewrite (Ns z Hz) in Hn. discriminate.
      * right. now apply (fleb_trans _ (snd y)).
Qed.

Lemma sort_values_desc_listed {A : Type} (s : list (A * float64)) :
  StronglySorted listed_before (sort_values_desc s).
Proof.
  unfold sort_values_desc. apply StronglySorted_app.
  - assert (Forall (fun e : A * float64 => isnan (snd e) = false)
              (List.filter (fun e => notnan (snd e)) s)) as Hnan.
    { apply List.Forall_forall. intros e He. apply filter_In in He as [_ He].
      unfold notnan in He. now apply negb_true_iff. }
    induction (List.filter (fun e => notnan (snd e)) s) as [|x l IH]; simpl;
      [constructor|].
    inversion Hnan as [|? ? Nx Nl]; subst.
    apply insert_desc_listed; auto.
    apply List.Forall_forall. intros e He.
    rewrite List.Forall_forall in Nl. apply Nl.
    exact (Permutation_in _ (sort_desc_perm l) He).
  - induction s as [|x s IH]; simpl; [constructor|].
    destruct (isnan (snd x)) eqn:E; [|exact IH].
    constructor; [exact IH|]. apply List.Forall_forall. intros e He.
    apply filter_In in He as [_ He]. now left.
  - intros a b _ Hb. apply filter_In in Hb as [_ Hb]. now left.
Qed.

(** X10.  On a snapshot whose Continent is a text column and whose [field]
    is a float column, [continent_mean] lists each continent present
    exactly once, with the mean of [field] over the rows of that continent
    that are not NaN; a row without continent enters no mean; the list is
    in descending order of mean, the continents whose mean is NaN (no
    defined value) last. *)
Theorem continent_mean_listing (field : string) (wm : DataFrame)
    (ks : list (option string)) (vs : list float64) :
  wm !! "Continent" = Some (ColObj ks) ->
  wm !! field = Some (ColNum vs) ->
  exists s,
    continent_mean field wm = Ok s
    /\ (forall c m, In (c, m) s <->
          In (Some c) ks /\ m = nanmean (group_rows String.compare c ks vs))
    /\ List.NoDup (map fst s)
    /\ StronglySorted listed_before s.
Proof.
  intros Hk Hf. eexists.
  split; [apply (continent_mean_float field wm ks vs Hk Hf)|].
  split; [|split].
  - intros c m. rewrite In_sort_values_desc.
    apply (In_groupby_agg _ string_compare_eq).
  - apply (Permutation_NoDup
             (Permutation_sym (Permutation_map fst (sort_values_desc_perm _)))).
    unfold groupby_agg. rewrite map_map. simpl. rewrite map_id.
    apply (sorted_NoDup String.compare string_compare_eq).
    apply group_keys_sorted.
    + apply string_compare_eq.
    + apply string_compare_antisym.
    + apply string_compare_trans.
  - apply sort_values_desc_listed.
Qed.

Lemma continent_mean_listing_witness :
  exists s,
    continent_mean "TotalDeaths" three_continents = Ok s
    /\ s = [("Europe", Fin 20); ("Asia", Fin 2); ("Africa", Fin 0)]
    /\ List.NoDup (map fst s).
Proof.
  destruct (continent_mean_listing "TotalDeaths" three_continents
              [Some "Europe"; Some "Asia"; None; Some "Africa"; Some "Europe"]
              [Fin 10; Fin 2; Fin 50; Fin 0; Fin 30])
    as (s & Hs & _ & Hnd & _); try (vm_compute; reflexivity).
  exists s. split; [exact Hs|]. split; [|exact Hnd].
  assert (continent_mean "TotalDeaths" three_continents
          = Ok [("Europe", Fin 20); ("Asia", Fin 2); ("Africa", Fin 0)]) as E
    by (vm_compute; reflexivity).
  rewrite E in Hs. now injection Hs as <-.
Defined.

Example continent_cfr_three_continents :
  continent_cfr three_continents
  = Ok [("Europe", Fin 20); ("Asia", Fin 1); ("Africa", NaN)].
Proof. vm_compute. reflexivity. Qed.

(** *** More on the rankings *)

Lemma omap_lookup_valid {A : Type} (l : list A) (inds : list nat) (k : nat) :
  Forall (fun i => i < length l) inds ->
  omap (fun i => l !! i) inds !! k = inds !! k ≫= (fun i => l !! i).
Proof.
  intros H. revert k. induction H as [|i inds Hi _ IH]; intros k; [reflexivity|].
  simpl. apply lookup_lt_is_Some in Hi as [x Hx]. rewrite Hx.
  destruct k as [|k]; simpl; [now rewrite Hx|apply IH].
Qed.

(** The rows of [col_take_rows inds c] are the rows of [c] labelled by
    [inds], in the order of [inds]. *)
Lemma cells_take_rows (c : column) (inds : list nat) (k : nat) :
  Forall (fun i => i < col_length c) inds ->
  cells (col_take_rows inds c) !! k = inds !! k ≫= (fun i => cells c !! i).
Proof.
  intros H. destruct c; simpl in *; rewrite lookup_map;
    rewrite (omap_lookup_valid _ _ _ H);
    destruct (inds !! k); simpl; try reflexivity; now rewrite lookup_map.
Qed.

Lemma nlargest_series_labels (n : nat) (l : list float64) :
  Forall (fun i => i < length l) (map fst (nlargest_series n l)).
Proof.
  apply List.Forall_forall. intros i Hi.
  apply in_map_iff in Hi as ([i' v] & <- & Hi). simpl.
  apply nlargest_series_rows in Hi. now apply lookup_lt_Some in Hi.
Qed.

(** What [nlargest] returns on a column it ranks: the labels of the rows
    are labels of the column, as many as the size asked for or as the
    column has rows. *)
Lemma nlargest_labels (n : nat) (field : string) (df : DataFrame)
    (sel : Selected) :
  nlargest n field df = Ok sel ->
  exists c, df !! field = Some c
            /\ Forall (fun i => i < col_length c) (sel_index sel)
            /\ length (sel_index sel) = min n (col_length c)
            /\ sel_frame sel = col_take_rows (sel_index sel) <$> df.
Proof.
  unfold nlargest, getitem. destruct (df !! field) as [c|] eqn:Ef; [|discriminate].
  simpl. destruct c as [|l|l| | |]; try discriminate; intros [= <-];
    eexists; (split; [reflexivity|]); simpl.
  - split; [apply nlargest_series_labels|].
    split; [|reflexivity]. rewrite length_map. apply nlargest_series_length.
  - split.
    + rewrite <- (length_map of_Z l). apply nlargest_series_labels.
    + split; [|reflexivity].
      rewrite length_map, nlargest_series_length. now rewrite length_map.
Qed.

(** X12.  When [top10] succeeds on a snapshot whose columns all have [n]
    rows, the result has the two columns Country/Region and [field] and no
    other, and [min 10 n] rows; its k-th row is the row of the snapshot
    that the k-th label of its index names: the value and the country of
    that row, so that every value stays with the country it was loaded
    with. *)
Theorem top10_columns (field : string) (wm : DataFrame) (sel : Selected)
    (n : nat) :
  top10 field wm = Ok sel ->
  uniform_rows n wm ->
  field <> "Country/Region" ->
  exists cf cc rf rc,
    wm !! field = Some cf
    /\ wm !! "Country/Region" = Some cc
    /\ sel_frame sel !! field = Some rf
    /\ sel_frame sel !! "Country/Region" = Some rc
    /\ (forall name, name <> field -> name <> "Country/Region" ->
          sel_frame sel !! name = None)
    /\ length (sel_index sel) = min 10 n
    /\ (forall k i, sel_index sel !! k = Some i ->
          i < n
          /\ is_Some (cells cf !! i)
          /\ cells rf !! k = cells cf !! i
          /\ cells rc !! k = cells cc !! i).
Proof.
  intros H Hn Hne. unfold top10 in H. apply rbind_Ok in H as (top & Htop & H).
  apply nlargest_labels in Htop as (cf & Hcf & Hlab & Hlen & Hframe).
  unfold select2 in H.
  apply rbind_Ok in H as (ca & Hca & H). apply rbind_Ok in H as (cb & Hcb & H).
  injection H as <-. cbn [sel_frame sel_index].
  unfold getitem in Hca, Hcb. rewrite Hframe, lookup_fmap in Hca, Hcb.
  rewrite Hcf in Hcb. simpl in Hcb. injection Hcb as <-.
  destruct (wm !! "Country/Region") as [cc|] eqn:Ec; [|discriminate].
  simpl in Hca. injection Hca as <-.
  pose proof (Hn _ _ Hcf) as Lf. pose proof (Hn _ _ Ec) as Lc.
  exists cf, cc, (col_take_rows (sel_index top) cf),
         (col_take_rows (sel_index top) cc).
  split; [exact Hcf|]. split; [reflexivity|].
  split; [apply lookup_insert_eq|]. split.
  { rewrite lookup_insert_ne by exact Hne. apply lookup_singleton_eq. }
  split.
  { intros name H1 H2. rewrite lookup_insert_ne by congruence.
    now apply lookup_singleton_ne. }
  split; [now rewrite Hlen, Lf|].
  intros k i Hk.
  assert (i < n) as Hi.
  { rewrite Forall_lookup in Hlab. rewrite <- Lf. exact (Hlab k i Hk). }
  split; [exact Hi|]. split; [|split].
  - apply lookup_lt_is_Some. destruct cf; simpl in *; rewrite length_map; lia.
  - rewrite (cells_take_rows cf _ k Hlab), Hk. reflexivity.
  - rewrite (cells_take_rows cc _ k), Hk; [reflexivity|].
    now rewrite Lc, <- Lf.
Qed.

Lemma tied_rows_uniform : uniform_rows 4 tied_rows.
Proof.
  intros name c H. unfold tied_rows in H.
  repeat (rewrite lookup_insert in H; case_decide;
          [now injection H as <-|]).
  rewrite lookup_empty in H. discriminate H.
Qed.

(** The theorem on a column with a tie: the first row of the result is
    country Q with its 9, the second country S with its 9. *)
Lemma top10_columns_witness :
  exists sel rf rc,
    top10 "TotalCases" tied_rows = Ok sel
    /\ sel_index sel = [1; 3; 0; 2]
    /\ sel_frame sel !! "TotalCases" = Some rf
    /\ sel_frame sel !! "Country/Region" = Some rc
    /\ cells rf !! 0 = Some (CNum (Fin 9)) /\ cells rc !! 0 = Some (CObj (Some "Q"))
    /\ cells rf !! 1 = Some (CNum (Fin 9)) /\ cells rc !! 1 = Some (CObj (Some "S")).
Proof.
  assert (top10 "TotalCases" tied_rows
          = Ok (mkSelected [1; 3; 0; 2]
                  (<["TotalCases" := ColNum [Fin 9; Fin 9; Fin 7; NaN]]>
                     {["Country/Region" :=
                         ColObj [Some "Q"; Some "S"; Some "P"; Some "R"]]}))) as E
    by (vm_compute; reflexivity).
  destruct (top10_columns "TotalCases" tied_rows _ 4 E tied_rows_uniform)
    as (cf & cc & rf & rc & Hcf & Hcc & Hrf & Hrc & _ & _ & Hrows);
    [discriminate|].
  eexists. exists rf, rc. split; [exact E|]. cbn [sel_index sel_frame] in *.
  split; [reflexivity|]. split; [exact Hrf|]. split; [exact Hrc|].
  assert (cf = ColNum [Fin 7; Fin 9; NaN; Fin 9]) as ->
    by (vm_compute in Hcf; congruence).
  assert (cc = ColObj [Some "P"; Some "Q"; Some "R"; Some "S"]) as ->
    by (vm_compute in Hcc; congruence).
  destruct (Hrows 0 1 eq_refl) as (_ & _ & H0 & H0').
  destruct (Hrows 1 3 eq_refl) as (_ & _ & H1 & H1').
  repeat split; assumption.
Defined.

(** *** Ratios of consistent counts *)








(** *** The duplicate count of the Cleaning page *)

Lemma filter_length_le {A : Type} (f g : A -> bool) (l : list A) :
  (forall x, In x l -> f x = true -> g x = true) ->
  length (List.filter f l) <= length (List.filter g l).
Proof.
  induction l as [|x l IH]; intros H; simpl; [lia|].
  assert (length (List.filter f l) <= length (List.filter g l)) as IH'.
  { apply IH. intros y Hy. apply H. now right. }
  destruct (f x) eqn:Ef.
  - rewrite (H x (or_introl eq_refl) Ef). simpl. lia.
  - destruct (g x); simpl; lia.
Qed.

Lemma filter_length_positive (n : nat) :
  length (List.filter (fun i => negb (Nat.eqb i 0)) (seq 0 n)) = n - 1.
Proof.
  destruct n as [|n]; [reflexivity|]. simpl. rewrite Nat.sub_0_r.
  rewrite forallb_filter_id; [apply length_seq|].
  apply forallb_forall. intros i Hi.
  apply in_seq in Hi. destruct i; [lia|reflexivity].
Qed.

Lemma feqb_feq (x y : float64) : feqb x y = true <-> feq x y.
Proof.
  destruct x, y; simpl; try (split; [discriminate|tauto]);
    try (split; [tauto|reflexivity]); apply Qeq_bool_iff.
Qed.

Lemma xreal_eqb_eq (x y : xreal) : xreal_eqb x y = true <-> x = y.
Proof.
  destruct x, y; simpl; try (split; [discriminate|discriminate]);
    try (split; reflexivity).
  destruct (Req_dec_T r r0) as [->|Hne]; split; try reflexivity;
    try discriminate. intros [= E]. contradiction.
Qed.

Lemma cell_eqb_same (a b : cell) : cell_eqb a b = true <-> same_cell a b.
Proof.
  destruct a, b; simpl; try (split; [discriminate|tauto]).
  - apply bool_decide_eq_true.
  - apply feqb_feq.
  - apply Z.eqb_eq.
  - apply bool_decide_eq_true.
  - apply bool_decide_eq_true.
  - apply xreal_eqb_eq.
Qed.

(** Two rows are equal for [duplicated] when they agree in every column. *)
Lemma row_eqb_same_row (df : DataFrame) (i j : nat) :
  row_eqb (row df i) (row df j) = true <-> same_row df i j.
Proof.
  unfold row_eqb, row, same_row.
  assert (forall l : list (string * column),
            forallb (fun p : option cell * option cell =>
                       match p with
                       | (Some a, Some b) => cell_eqb a b
                       | (None, None) => true
                       | _ => false
                       end)
              (zip (map (fun kc => cells (snd kc) !! i) l)
                   (map (fun kc => cells (snd kc) !! j) l)) = true
            <-> forall kc, In kc l ->
                  match cells (snd kc) !! i, cells (snd kc) !! j with
                  | Some a, Some b => same_cell a b
                  | None, None => True
                  | _, _ => False
                  end) as H.
  { induction l as [|kc l IH]; simpl.
    - split; [intros _ kc []|reflexivity].
    - rewrite andb_true_iff, IH. split.
      + intros [H1 H2] kc' [<-|Hin]; [|now apply H2].
        destruct (cells (snd kc) !! i), (cells (snd kc) !! j);
          try discriminate; [now apply cell_eqb_same|exact I].
      + intros H. split; [|intros kc' Hin; apply H; now right].
        specialize (H kc (or_introl eq_refl)).
        destruct (cells (snd kc) !! i), (cells (snd kc) !! j);
          try tauto. now apply cell_eqb_same. }
  rewrite H. split.
  - intros Hall name c Hc. apply (Hall (name, c)).
    apply list_elem_of_In, elem_of_map_to_list. exact Hc.
  - intros Hall [name c] Hin. apply (Hall name c).
    apply list_elem_of_In, elem_of_map_to_list in Hin. exact Hin.
Qed.

(** X16.  The count of duplicated rows of the Cleaning page is the number
    of rows that agree in every column with an earlier row (two missing
    cells agree).  It never counts the first row, so it is at most the
    number of rows less one, and it is 0 exactly when no row agrees with
    an earlier one. *)
Theorem duplicated_sum_bounds (df : DataFrame) :
  duplicated_sum df <= nrows df - 1
  /\ (forall i, In i (List.filter
                       (fun i => existsb (fun j => row_eqb (row df j) (row df i))
                                         (seq 0 i))
                       (seq 0 (nrows df)))
                <-> i < nrows df /\ exists j, j < i /\ same_row df j i)
  /\ (duplicated_sum df = 0 <->
      forall i j, i < nrows df -> j < i -> ~ same_row df j i).
Proof.
  assert (forall i, In i (List.filter
                       (fun i => existsb (fun j => row_eqb (row df j) (row df i))
                                         (seq 0 i))
                       (seq 0 (nrows df)))
                <-> i < nrows df /\ exists j, j < i /\ same_row df j i) as Hdup.
  { intros i. rewrite filter_In, in_seq, existsb_exists. split.
    - intros [Hi (j & Hj & E)]. apply in_seq in Hj.
      split; [lia|]. exists j. split; [lia|]. now apply row_eqb_same_row.
    - intros [Hi (j & Hj & E)]. split; [lia|]. exists j.
      split; [apply in_seq; lia|]. now apply row_eqb_same_row. }
  unfold duplicated_sum. split; [|split; [exact Hdup|]].
  - rewrite <- (filter_length_positive (nrows df)).
    apply filter_length_le. intros i _ H.
    destruct i; [discriminate H|reflexivity].
  - split.
    + intros H i j Hi Hj E. apply length_zero_iff_nil in H.
      assert (i < nrows df /\ exists j, j < i /\ same_row df j i) as Hin by eauto.
      apply Hdup in Hin. rewrite H in Hin. destruct Hin.
    + intros H. apply length_zero_iff_nil.
      destruct (List.filter _ _) as [|i rest] eqn:E; [reflexivity|].
      assert (In i (i :: rest)) as Hin by now left.
      apply Hdup in Hin as (Hi & j & Hj & Hs).
      exfalso. exact (H i j Hi Hj Hs).
Qed.

(** The theorem on four records of which the third repeats the first: one
    row is counted. *)
Lemma duplicated_sum_bounds_witness :
  duplicated_sum repeated_rows = 1
  /\ duplicated_sum repeated_rows <= nrows repeated_rows - 1
  /\ same_row repeated_rows 0 2
  /\ ~ same_row repeated_rows 1 3.
Proof.
  destruct (duplicated_sum_bounds repeated_rows) as (H1 & _ & _).
  split; [vm_compute; reflexivity|]. split; [exact H1|].
  split.
  - apply row_eqb_same_row. vm_compute. reflexivity.
  - intros E. apply row_eqb_same_row in E. vm_compute in E. discriminate E.
Defined.

(** *** Missing values in a ranking *)

(** X18.  A ranking never prefers a missing value to a number: when a row
    whose value is missing is among the rows [nlargest] returns, every row
    of the table that holds a number is returned too. *)
Theorem nlargest_numbers_first (n : nat) (field : string) (df : DataFrame)
    (l : list float64) (sel : Selected) (i j : nat) (w : float64) :
  df !! field = Some (ColNum l) ->
  nlargest n field df = Ok sel ->
  In i (sel_index sel) -> l !! i = Some NaN ->
  l !! j = Some w -> isnan w = false ->
  In j (sel_index sel).
Proof.
  intros Hf Hsel Hi Hnan Hj Hw.
  unfold nlargest, getitem in Hsel. rewrite Hf in Hsel. simpl in Hsel.
  injection Hsel as <-. cbn [sel_index] in *.
  destruct (in_dec Nat.eq_dec j (map fst (nlargest_series n l))) as [Hin|Hout];
    [exact Hin|exfalso].
  apply in_map_iff in Hi as ([i' v] & Ei & Hi). simpl in Ei. subst i'.
  pose proof (nlargest_series_rows n l i v Hi) as Hv.
  rewrite Hnan in Hv. injection Hv as <-.
  pose proof (proj2 (nlargest_series_sorted n l) (i, NaN) (j, w) Hi
                (not_returned n l j w Hj Hout)) as Hb.
  unfold desc_before in Hb. simpl in Hb. now rewrite Hw in Hb.
Qed.

Lemma nlargest_numbers_first_witness :
  exists sel,
    nlargest 4 "TotalCases" tied_rows = Ok sel /\ In 0 (sel_index sel).
Proof.
  assert (exists sel, nlargest 4 "TotalCases" tied_rows = Ok sel) as [sel E].
  { eexists. vm_compute. reflexivity. }
  exists sel. split; [exact E|].
  apply (nlargest_numbers_first 4 "TotalCases" tied_rows
           [Fin 7; Fin 9; NaN; Fin 9] sel 2 0 (Fin 7)).
  - vm_compute. reflexivity.
  - exact E.
  - assert (nlargest 4 "TotalCases" tied_rows
            = Ok (mkSelected [1; 3; 0; 2]
                    (col_take_rows [1; 3; 0; 2] <$> tied_rows))) as E'
      by (vm_compute; reflexivity).
    rewrite E' in E. injection E as <-. simpl. tauto.
  - reflexivity.
  - reflexivity.
  - reflexivity.
Defined.

(** *** The ratio columns *)

(** X19.  After a successful run of the EDA branch on a snapshot whose
    count columns are float columns, the CFR(%) column holds, row by row,
    (TotalDeaths / TotalCases) * 100 and the RecoveryRate(%) column
    (TotalRecovered / TotalCases) * 100 of the loaded values: the columns
    assigned in between (the coerced counts, the two logs) do not change
    the divisor. *)
Theorem eda_ratio_columns (s s' : Store) (t : eda_tables)
    (tc td tr : list float64) :
  eda_page s = Ok (t, s') ->
  worldometer_data s !! "TotalCases" = Some (ColNum tc) ->
  worldometer_data s !! "TotalDeaths" = Some (ColNum td) ->
  worldometer_data s !! "TotalRecovered" = Some (ColNum tr) ->
  worldometer_data s' !! "CFR(%)" = Some (ColNum (zip_with ratio_cell td tc))
  /\ worldometer_data s' !! "RecoveryRate(%)"
     = Some (ColNum (zip_with ratio_cell tr tc))
  /\ (forall i a b, td !! i = Some a -> tc !! i = Some b ->
        zip_with ratio_cell td tc !! i = Some (fmul (fdiv a b) (Fin 100))).
Proof.
  intros H Htc Htd Htr. apply eda_page_Ok in H
    as (d & cfr & tests & cases & ltests & lcases & d' & rr & H).
  cbv zeta in H.
  destruct H as (_ & _ & _ & _ & _ & Hcfr & _ & _ & Hcases & _ & _
                 & _ & _ & Hrr & _ & ->).
  cbn [worldometer_data].
  rewrite (ratio_pct_numeric _ _ td tc Htd Htc) in Hcfr. injection Hcfr as <-.
  unfold getitem in Hcases.
  rewrite !lookup_insert_ne in Hcases by discriminate.
  rewrite Htc in Hcases. simpl in Hcases. injection Hcases as <-.
  rewrite (ratio_pct_numeric _ _ tr tc) in Hrr.
  - injection Hrr as <-. split; [|split].
    + rewrite !lookup_insert_ne by discriminate. apply lookup_insert_eq.
    + apply lookup_insert_eq.
    + intros i a b Ha Hb. apply lookup_zip_with_Some. exists a, b. auto.
  - now rewrite !lookup_insert_ne by discriminate.
  - rewrite !lookup_insert_ne by discriminate. apply lookup_insert_eq.
Qed.

Lemma eda_ratio_columns_witness :
  exists t s',
    eda_page (mkStore january three_continents) = Ok (t, s')
    /\ worldometer_data s' !! "CFR(%)"
       = Some (ColNum [Fin 10; Fin 1; Fin 100; NaN; Fin 30])
    /\ worldometer_data s' !! "RecoveryRate(%)"
       = Some (ColNum [Fin 50; Fin 50; Fin 0; NaN; Fin 70]).
Proof.
  assert (exists t s', eda_page (mkStore january three_continents) = Ok (t, s'))
    as (t & s' & E).
  { eexists. eexists. vm_compute. reflexivity. }
  exists t, s'. split; [exact E|].
  destruct (eda_ratio_columns _ _ t
              [Fin 100; Fin 200; Fin 50; Fin 0; Fin 100]
              [Fin 10; Fin 2; Fin 50; Fin 0; Fin 30]
              [Fin 50; Fin 100; Fin 0; Fin 0; Fin 70] E)
    as (H1 & H2 & _); try (vm_compute; reflexivity).
  split; [exact H1|exact H2].
Defined.

